(** * odbc.c: the ODBC extension of gawk, as a shallow embedding

    The extension keeps two fixed tables of native handles (connections and
    cursors), builds one binding per result column, serialises fetched rows
    and reports the diagnostic records of the ODBC service.

    What is outside the C file is an input of the model:
    - the ODBC service (driver manager and driver) answers every call through
      a [service] record; the calls issued so far are kept in the world, and
      the service may answer according to that history;
    - the values gawk hands over through [get_argument] are parameters of the
      facade functions ([None] when [get_argument] returns false);
    - gawk arrays live in a store indexed by their cookie.

    C buffers are modelled by their contents.  Capacities are recorded where
    the code hands them to the service (the BufferLength arguments) and where a
    binding allocates its display buffer.  The local character arrays of
    ODBC_fetch and get_column_headers_str have their capacity, and a write
    that does not fit leaves the model; the capacity of [output] in
    HandleDiagnosticRecord is not represented: there [sprintf] is modelled by
    the text it produces. *)

From Stdlib Require Import ZArith Lia String Ascii DecimalString DecimalZ.
From stdpp Require Import base gmap strings list.

Local Open Scope Z_scope.

(** ** Machine integers *)

Definition to_uint32 (z : Z) : Z := z mod 2 ^ 32.
Definition to_int16 (z : Z) : Z := (z + 2 ^ 15) mod 2 ^ 16 - 2 ^ 15.

(** [printf("%d")] of an integer. *)
Definition dec (z : Z) : string := NilZero.string_of_int (Z.to_int z).

(** [printf("%-.0g")] of a double that is a whole number: one significant
    digit, rounded to nearest with ties to even, and an exponent of at least
    two digits once the number has more than one digit. *)
Definition fmt_g0 (z : Z) : string :=
  let a := Z.abs z in
  let sign := if z <? 0 then "-" else "" in
  if a <? 10 then sign +:+ dec a
  else
    let x := Z.of_nat (String.length (dec a)) - 1 in
    let unit := 10 ^ x in
    let lead := a / unit in
    let rest := a mod unit in
    let up := (unit <? 2 * rest) || ((unit =? 2 * rest) && Z.odd lead) in
    let lead := if up then lead + 1 else lead in
    let carried := lead =? 10 in
    let digit := if carried then 1 else lead in
    let x := if carried then x + 1 else x in
    sign +:+ dec digit +:+ "e+" +:+ (if x <? 10 then "0" else "") +:+ dec x.

(** ** The ODBC service, seen from the client *)

Definition handle := Z.
Definition NULL : handle := 0.

Inductive RETCODE :=
| SQL_SUCCESS
| SQL_SUCCESS_WITH_INFO
| SQL_NO_DATA
| SQL_ERROR
| SQL_INVALID_HANDLE
| SQL_STILL_EXECUTING
| SQL_NEED_DATA.

Definition SQL_NO_DATA_FOUND : RETCODE := SQL_NO_DATA.

Definition retcode_value (rc : RETCODE) : Z :=
  match rc with
  | SQL_SUCCESS => 0
  | SQL_SUCCESS_WITH_INFO => 1
  | SQL_NO_DATA => 100
  | SQL_ERROR => -1
  | SQL_INVALID_HANDLE => -2
  | SQL_STILL_EXECUTING => 2
  | SQL_NEED_DATA => 99
  end.

Definition is_SQL_SUCCESS (rc : RETCODE) : bool :=
  match rc with SQL_SUCCESS => true | _ => false end.
Definition is_SQL_ERROR (rc : RETCODE) : bool :=
  match rc with SQL_ERROR => true | _ => false end.
Definition is_SQL_INVALID_HANDLE (rc : RETCODE) : bool :=
  match rc with SQL_INVALID_HANDLE => true | _ => false end.
Definition is_SQL_NO_DATA_FOUND (rc : RETCODE) : bool :=
  match rc with SQL_NO_DATA => true | _ => false end.

Inductive SQLHANDLE_TYPE := SQL_HANDLE_ENV | SQL_HANDLE_DBC | SQL_HANDLE_STMT.
Inductive FETCH_ORIENTATION := SQL_FETCH_FIRST | SQL_FETCH_PRIOR.
Inductive FIELD_IDENTIFIER :=
  SQL_DESC_DISPLAY_SIZE | SQL_DESC_CONCISE_TYPE | SQL_DESC_NAME.

(** Concise type codes of the character family (sql.h, sqlext.h). *)
Definition SQL_CHAR : Z := 1.
Definition SQL_VARCHAR : Z := 12.
Definition SQL_LONGVARCHAR : Z := -1.

(** The calls the extension issues, with the arguments it chooses. *)
Inductive odbc_call :=
| SQLAllocHandle (HandleType : SQLHANDLE_TYPE) (InputHandle : handle)
| SQLSetEnvAttr_ODBC3 (EnvironmentHandle : handle)
| SQLConnect (ConnectionHandle : handle) (ServerName UserName Authentication : string)
| SQLSetStmtAttr_SCROLLABLE (StatementHandle : handle)
| SQLExecDirect (StatementHandle : handle) (StatementText : string)
| SQLNumResultCols (StatementHandle : handle)
| SQLRowCount (StatementHandle : handle)
| SQLFetch (StatementHandle : handle)
| SQLFetchScroll (StatementHandle : handle) (FetchOrientation : FETCH_ORIENTATION)
                 (FetchOffset : Z)
| SQLColAttribute (StatementHandle : handle) (ColumnNumber : Z)
                  (FieldIdentifier : FIELD_IDENTIFIER) (BufferLength : Z)
| SQLBindCol (StatementHandle : handle) (ColumnNumber : Z) (BufferLength : Z)
| SQLFreeStmt_CLOSE (StatementHandle : handle)
| SQLFreeHandle (HandleType : SQLHANDLE_TYPE) (Handle : handle)
| SQLDisconnect (ConnectionHandle : handle)
| SQLGetDiagRec (HandleType : SQLHANDLE_TYPE) (Handle : handle) (RecNumber : Z)
                (BufferLength : Z).

(** What a call hands back: its return code and what it wrote through its
    output pointers.  Every output variable of the C code is either
    initialised before the call or read only after it, so an output the
    service leaves alone is an output set to an arbitrary value.  The texts
    are the C strings the code reads back from the buffers the service
    wrote, that is, the characters before the terminating NUL. *)
Record reply := mk_reply {
  rc : RETCODE;
  out_handle : handle;             (* SQLAllocHandle: *OutputHandlePtr *)
  out_number : Z;                  (* numeric attribute, column count, row count *)
  out_text : string;               (* character attribute *)
  out_length : Z;                  (* *StringLengthPtr *)
  out_row : list (Z * string)      (* SQLFetch: indicator and text of columns 1, 2, ... *)
}.

(** One record of a handle's diagnostic area. *)
Record DIAGREC := mk_diag {
  SQLState : string;
  NativeError : Z;
  MessageText : string
}.

Record service := mk_service {
  (** the answer to a call, given the calls that came before *)
  answer : list odbc_call -> odbc_call -> reply;
  (** the diagnostic records a handle holds, given the calls so far *)
  diag_area : list odbc_call -> SQLHANDLE_TYPE -> handle -> list DIAGREC;
  (** what SQLGetDiagRec returns when the message does not fit the buffer
      (ODBC prescribes SQL_SUCCESS_WITH_INFO) *)
  diag_rc_truncated : RETCODE;
  (** malloc succeeds for a request of that many bytes *)
  malloc_ok : Z -> bool;
  sizeof_WCHAR : Z;
  sizeof_BINDING : Z
}.

(** ** gawk values *)

(** A value the extension makes ([make_number], [make_const_string], an
    array handed to [set_array_element]). *)
Inductive awk_value :=
| AwkNumber (n : Z)
| AwkString (s : string)
| AwkArray (cookie : nat).

(** The union [awk_value_t] as [get_argument] leaves it, seen through each of
    its members.  The code reads the member of the type it asked for, except
    ODBC_disconnect, which asks for a string and reads [num_value]: see
    [as_string]. *)
Record awk_value_t := mk_awk_value_t {
  num_value : Z;
  str_value : string;
  array_cookie : nat
}.

(** The whole part of the double whose eight bytes hold [bits]: sign in bit
    63, exponent in bits 52 to 62, fraction below.  A double whose exponent
    field is below 1023 is smaller than 1. *)
Definition trunc_of_double_bits (bits : Z) : Z :=
  let e := (bits / 2 ^ 52) mod 2 ^ 11 in
  let m := bits mod 2 ^ 52 in
  let magnitude := if e <? 1023 then 0 else Z.shiftl (2 ^ 52 + m) (e - 1075) in
  if bits / 2 ^ 63 =? 1 then - magnitude else magnitude.

(** What [get_argument(i, AWK_STRING, &v)] leaves in [v] for a value whose
    string form is [s], kept by gawk at [address]: [str_value] gives [s],
    and [num_value] shares its eight bytes with the pointer
    [str_value.str], so it reads the address as a double. *)
Definition as_string (address : Z) (s : string) : awk_value_t :=
  mk_awk_value_t (trunc_of_double_bits address) s 0.

(** The C string at the start of [s], which is what [strlen] and [%s] see of
    a gawk string: the characters before the first NUL. *)
Fixpoint c_str (s : string) : string :=
  match s with
  | EmptyString => EmptyString
  | String a s' => if Ascii.eqb a Ascii.zero then EmptyString else String a (c_str s')
  end.

(** ** The extension's data *)

(** malloc'ed memory is not initialised: a field reads [None] until the code
    or the service writes it. *)
Record buffer := mk_buffer {
  capacity : Z;                      (* in WCHARs *)
  content : option string
}.

Record BINDING := mk_BINDING {
  cDisplaySize : option Z;
  wszBuffer : option buffer;
  indPtr : option Z;
  fChar : option bool;
  pColName : option string;
  (** the column number under which [wszBuffer] and [indPtr] were handed to
      SQLBindCol *)
  bound_column : option Z
}.

(** The chain of bindings hanging off [sNext]; [Dangling] is an [sNext]
    that was never written. *)
Inductive chain :=
| Null
| Dangling
| Node (b : BINDING) (sNext : chain).

Record CONN_STMT_HANDLE := mk_CONN_STMT_HANDLE {
  hDbc : handle;
  hStmt : handle;
  pBinding : chain;
  nb_cols : Z;
  header_length : Z;
  row_length : Z
}.

Definition MAX_ODBC_CONNECTIONS : Z := 100.
Definition MAX_ODBC_CURSORS : Z := 100.
Definition DISPLAY_MAX : Z := 1000.
Definition LOG_MAX_COLUMNS : Z := 6.
Definition SUBSEP : string := String (ascii_of_nat 28) EmptyString.

Definition empty_cursor : CONN_STMT_HANDLE :=
  mk_CONN_STMT_HANDLE NULL NULL Null 0 0 0.

Record world := mk_world {
  bDebug : bool;
  hEnv : handle;
  nb_odbc_connection_free_handles : Z;
  odbc_connection_handles : list handle;
  nb_odbc_cursor_free_handles : Z;
  odbc_cursor_handles : list CONN_STMT_HANDLE;
  bODBC_initialized : bool;
  (** outside the extension *)
  calls : list odbc_call;
  stderr : list string;
  arrays : gmap nat (gmap string awk_value)
}.

(** The statics as the loader leaves them, before any facade call. *)
Definition loaded (env : handle) (debug : bool) : world :=
  mk_world debug env
           MAX_ODBC_CONNECTIONS (replicate (Z.to_nat MAX_ODBC_CONNECTIONS) NULL)
           MAX_ODBC_CURSORS (replicate (Z.to_nat MAX_ODBC_CURSORS) empty_cursor)
           true [] [] ∅.

Definition with_connections (n : Z) (t : list handle) (w : world) : world :=
  mk_world (bDebug w) (hEnv w) n t
           (nb_odbc_cursor_free_handles w) (odbc_cursor_handles w)
           (bODBC_initialized w) (calls w) (stderr w) (arrays w).

Definition with_cursors (n : Z) (t : list CONN_STMT_HANDLE) (w : world) : world :=
  mk_world (bDebug w) (hEnv w)
           (nb_odbc_connection_free_handles w) (odbc_connection_handles w) n t
           (bODBC_initialized w) (calls w) (stderr w) (arrays w).

Definition with_calls (l : list odbc_call) (w : world) : world :=
  mk_world (bDebug w) (hEnv w)
           (nb_odbc_connection_free_handles w) (odbc_connection_handles w)
           (nb_odbc_cursor_free_handles w) (odbc_cursor_handles w)
           (bODBC_initialized w) l (stderr w) (arrays w).

Definition with_stderr (l : list string) (w : world) : world :=
  mk_world (bDebug w) (hEnv w)
           (nb_odbc_connection_free_handles w) (odbc_connection_handles w)
           (nb_odbc_cursor_free_handles w) (odbc_cursor_handles w)
           (bODBC_initialized w) (calls w) l (arrays w).

Definition with_arrays (a : gmap nat (gmap string awk_value)) (w : world) : world :=
  mk_world (bDebug w) (hEnv w)
           (nb_odbc_connection_free_handles w) (odbc_connection_handles w)
           (nb_odbc_cursor_free_handles w) (odbc_cursor_handles w)
           (bODBC_initialized w) (calls w) (stderr w) a.

(** ** Outcomes

    A C function either returns, or leaves the model: it indexes a table out
    of its bounds, reads memory nobody wrote, writes past the end of an
    array, or ends the process. *)

Inductive fault :=
| OutOfBounds
| Uninitialised
| Overflow                  (* a loop counter leaves the range of its type *)
| BufferOverflow            (* a write past the end of a local array *)
| ProcessExit (status : Z).

Inductive outcome (A : Type) :=
| Ret (a : A) (w : world)
| Fault (f : fault).
Arguments Ret {A} a w.
Arguments Fault {A} f.

Definition M (A : Type) : Type := world -> outcome A.

Definition ret {A} (a : A) : M A := fun w => Ret a w.
Definition bind {A B} (m : M A) (k : A -> M B) : M B :=
  fun w => match m w with Ret a w' => k a w' | Fault f => Fault f end.
Definition crash {A} (f : fault) : M A := fun _ => Fault f.
Definition get : M world := fun w => Ret w w.
Definition modify (f : world -> world) : M unit := fun w => Ret tt (f w).

#[global] Instance M_bind : MBind M := fun A B k m => bind m k.
#[global] Instance M_ret : MRet M := @ret.

(** [fprintf(stderr, ...)] *)
Definition eprint (s : string) : M unit :=
  modify (fun w => with_stderr (stderr w ++ [s]) w).

(** [t[i]] for a table of the C file; no bounds are checked there. *)
Definition at_index {A} (t : list A) (i : Z) : M A :=
  if i <? 0 then crash OutOfBounds
  else match t !! Z.to_nat i with
       | Some x => ret x
       | None => crash OutOfBounds
       end.

Definition when (b : bool) (m : M unit) : M unit := if b then m else ret tt.

Definition nl : string := String (ascii_of_nat 10) EmptyString.

Section Engine.

Variable svc : service.

(** Issue a call: the service answers from what it has seen, and the call
    joins the history. *)
Definition odbc (c : odbc_call) : M reply :=
  fun w => Ret (answer svc (calls w) c) (with_calls (calls w ++ [c]) w).

Definition say (text : string) : M unit :=
  w ← get; when (bDebug w) (eprint (text +:+ nl)).

(** *** HandleDiagnosticRecord *)

Definition MAX_MESSAGE_LENGTH : Z := 1000.

(** SQLGetDiagRec on a record, with a message buffer of [BufferLength]
    bytes: the service writes at most [BufferLength - 1] characters of the
    message and reports its whole length in a SQLSMALLINT. *)
Definition diag_written (r : DIAGREC) (BufferLength : Z) : string :=
  substring 0 (Z.to_nat (BufferLength - 1)) (MessageText r).

Definition diag_textLength (r : DIAGREC) : Z :=
  to_int16 (Z.of_nat (String.length (MessageText r))).

Definition diag_rc (r : DIAGREC) (BufferLength : Z) : RETCODE :=
  if Z.of_nat (String.length (MessageText r)) <? BufferLength
  then SQL_SUCCESS else diag_rc_truncated svc.

(** [sprintf(output, "[%s]%s\nnative return code: %d\n", ...)] *)
Definition diag_line (wszState wszMessage : string) (iError : Z) : string :=
  "[" +:+ wszState +:+ "]" +:+ wszMessage +:+ nl +:+
  "native return code: " +:+ dec iError +:+ nl.

(** The while loop, at record number [iRec], with the records from there on. *)
Fixpoint diag_loop (hType : SQLHANDLE_TYPE) (hHandle : handle)
    (recs : list DIAGREC) (iRec : Z) : M unit :=
  match recs with
  | [] =>
      (* no such record: the call does not return SQL_SUCCESS *)
      _ ← odbc (SQLGetDiagRec hType hHandle (to_int16 iRec) MAX_MESSAGE_LENGTH);
      mret tt
  | r :: rest =>
      _ ← odbc (SQLGetDiagRec hType hHandle (to_int16 iRec) MAX_MESSAGE_LENGTH);
      if is_SQL_SUCCESS (diag_rc r MAX_MESSAGE_LENGTH) then
        (if negb (String.eqb (substring 0 5 (SQLState r)) "01004") then
           if MAX_MESSAGE_LENGTH <? to_uint32 (diag_textLength r) then
             (* a new buffer of textLengthPtr + 1 bytes, announced to the
                service as MAX_MESSAGE_LENGTH bytes *)
             _ ← odbc (SQLGetDiagRec hType hHandle (to_int16 iRec) MAX_MESSAGE_LENGTH);
             say (diag_line (SQLState r) (diag_written r MAX_MESSAGE_LENGTH)
                            (NativeError r))
           else
             say (diag_line (SQLState r) (diag_written r MAX_MESSAGE_LENGTH)
                            (NativeError r))
         else mret tt);;
        diag_loop hType hHandle rest (iRec + 1)
      else mret tt
  end.

(** Record numbers are SQLSMALLINT: records 1 to 32767 can be asked for. *)
Definition HandleDiagnosticRecord (hHandle : handle) (hType : SQLHANDLE_TYPE)
    (retCode : RETCODE) : M unit :=
  if is_SQL_INVALID_HANDLE retCode then
    eprint ("Invalid handle!" +:+ nl)
  else
    w ← get;
    diag_loop hType hHandle
              (take (Z.to_nat 32767) (diag_area svc (calls w) hType hHandle)) 1.

(** *** TRYODBC

    [Exit] is the code at the caller's Exit label, [k] the code after the
    macro. *)
Definition TRYODBC {A} (func : string) (h : handle) (ht : SQLHANDLE_TYPE)
    (x : odbc_call) (Exit : M A) (k : reply -> M A) : M A :=
  r ← odbc x;
  when (negb (is_SQL_SUCCESS (rc r))) (HandleDiagnosticRecord h ht (rc r));;
  if is_SQL_ERROR (rc r) then
    eprint ("Error " +:+ dec (retcode_value (rc r)) +:+ " in " +:+ func +:+ nl);;
    Exit
  else k r.

(** *** The connection table *)

Fixpoint first_free {A} (is_free : A -> bool) (t : list A) (i : Z) : option Z :=
  match t with
  | [] => None
  | x :: t' => if is_free x then Some i else first_free is_free t' (i + 1)
  end.

Definition get_odbc_connection_handle : M Z :=
  w ← get;
  if nb_odbc_connection_free_handles w =? 0 then
    eprint ("maximum of open connections [" +:+ dec MAX_ODBC_CONNECTIONS +:+
            "] reached, no free handles !" +:+ nl);;
    mret (-1)
  else
    match first_free (fun h => h =? NULL) (odbc_connection_handles w) 0 with
    | Some i =>
        modify (with_connections
                  (to_uint32 (nb_odbc_connection_free_handles w - 1))
                  (odbc_connection_handles w));;
        mret i
    | None => mret (-1)   (* should never come that far *)
    end.

Definition set_connection (i : Z) (h : handle) : M unit :=
  w ← get;
  _ ← at_index (odbc_connection_handles w) i;
  modify (with_connections (nb_odbc_connection_free_handles w)
                           (<[Z.to_nat i := h]> (odbc_connection_handles w))).

Definition ODBC_connect (arg0 arg1 arg2 : option awk_value_t) : M awk_value :=
  match arg0 with
  | Some connectionString =>
      hConnection ← get_odbc_connection_handle;
      if hConnection =? -1 then
        eprint ("cannot open new connection to [" +:+
                c_str (str_value connectionString) +:+ "]" +:+ nl);;
        mret (AwkNumber (-1))
      else
        match arg1 with
        | None =>
            eprint ("missing user name parameter" +:+ nl);;
            mret (AwkNumber (-1))
        | Some user_name =>
            match arg2 with
            | None =>
                eprint ("missing password parameter" +:+ nl);;
                mret (AwkNumber (-1))
            | Some password =>
                w ← get;
                TRYODBC "ODBC_connect" (hEnv w) SQL_HANDLE_ENV
                        (SQLAllocHandle SQL_HANDLE_DBC (hEnv w))
                        (mret (AwkNumber (-1)))
                  (fun r =>
                     let hDbc := out_handle r in
                     set_connection hConnection hDbc;;
                     TRYODBC "ODBC_connect" hDbc SQL_HANDLE_DBC
                             (SQLConnect hDbc (c_str (str_value connectionString))
                                         (c_str (str_value user_name))
                                         (c_str (str_value password)))
                             (mret (AwkNumber (-1)))
                       (fun _ => mret (AwkNumber hConnection)))
            end
        end
  | None =>
      eprint ("missing connection string parameter" +:+ nl);;
      mret (AwkNumber (-1))
  end.

Definition disconnect (hConnection : Z) : M unit :=
  w ← get;
  h ← at_index (odbc_connection_handles w) hConnection;
  when (negb (h =? NULL))
       (_ ← odbc (SQLDisconnect h);
        _ ← odbc (SQLFreeHandle SQL_HANDLE_DBC h);
        mret tt);;
  set_connection hConnection NULL;;
  w ← get;
  modify (with_connections (to_uint32 (nb_odbc_connection_free_handles w + 1))
                           (odbc_connection_handles w)).

Definition ODBC_disconnect (arg0 : option awk_value_t) : M awk_value :=
  match arg0 with
  | None =>
      eprint ("missing connection handle parameter" +:+ nl);;
      mret (AwkNumber (-1))
  | Some hConnection =>
      disconnect (num_value hConnection);;
      mret (AwkNumber 0)
  end.

(** *** The cursor table *)

Definition get_odbc_cursor_handle : M Z :=
  w ← get;
  if nb_odbc_cursor_free_handles w =? 0 then
    eprint ("maximum of open cursors [" +:+ dec MAX_ODBC_CURSORS +:+
            "] reached, no free handles !" +:+ nl);;
    mret (-1)
  else
    match first_free (fun c => hStmt c =? NULL) (odbc_cursor_handles w) 0 with
    | Some i =>
        modify (with_cursors (to_uint32 (nb_odbc_cursor_free_handles w - 1))
                             (odbc_cursor_handles w));;
        mret i
    | None => mret (-1)   (* should never come that far *)
    end.

Definition set_cursor (i : Z) (c : CONN_STMT_HANDLE) : M unit :=
  w ← get;
  _ ← at_index (odbc_cursor_handles w) i;
  modify (with_cursors (nb_odbc_cursor_free_handles w)
                       (<[Z.to_nat i := c]> (odbc_cursor_handles w))).

Definition get_cursor (i : Z) : M CONN_STMT_HANDLE :=
  w ← get; at_index (odbc_cursor_handles w) i.

Definition ODBC_cursor (arg0 : option awk_value_t) : M awk_value :=
  match arg0 with
  | Some hConnection =>
      let connection_index := num_value hConnection in
      hCursor ← get_odbc_cursor_handle;
      if hCursor =? -1 then
        eprint ("cannot get a new cursor for connection handle [" +:+
                dec connection_index +:+ "]" +:+ nl);;
        mret (AwkNumber (-1))
      else
        w ← get;
        hdbc ← at_index (odbc_connection_handles w) connection_index;
        TRYODBC "ODBC_cursor" hdbc SQL_HANDLE_DBC
                (SQLAllocHandle SQL_HANDLE_STMT hdbc)
                (mret (AwkNumber (-1)))
          (fun r =>
             let hstmt := out_handle r in
             set_cursor hCursor (mk_CONN_STMT_HANDLE hdbc hstmt Null 0 0 0);;
             (* the outcome of this call is ignored *)
             _ ← odbc (SQLSetStmtAttr_SCROLLABLE hstmt);
             mret (AwkNumber hCursor))
  | None =>
      eprint ("missing connection handle parameter" +:+ nl);;
      mret (AwkNumber (-1))
  end.

(** *** AllocateBindings *)

Fixpoint chain_of (bs : list BINDING) (last : chain) : chain :=
  match bs with
  | [] => last
  | b :: bs' => Node b (chain_of bs' last)
  end.

Definition malloced : BINDING := mk_BINDING None None None None None None.

Definition is_char_type (ssType : Z) : bool :=
  (ssType =? SQL_CHAR) || (ssType =? SQL_VARCHAR) || (ssType =? SQL_LONGVARCHAR).

(** The body of the for loop for column [iCol], with [n] columns still to
    bind and the bindings [done] already linked.  The value is the chain
    [*ppBinding] points to when the function returns.  [iCol] is a
    SQLSMALLINT: after column 32767 [iCol++] cannot reach a value above
    [cCols], and the loop does not end by its condition. *)
Fixpoint AllocateBindings_loop (hstmt : handle) (n : nat) (iCol : Z)
    (done : list BINDING) : M chain :=
  match n with
  | O => mret (chain_of done Null)
  | S n' =>
      if negb (malloc_ok svc (sizeof_BINDING svc)) then
        eprint ("Out of memory in AllocateBindings for column " +:+ dec iCol +:+ nl);;
        crash (ProcessExit (-100))
      else
        let b0 := malloced in
        TRYODBC "AllocateBindings" hstmt SQL_HANDLE_STMT
                (SQLColAttribute hstmt iCol SQL_DESC_DISPLAY_SIZE 0)
                (mret (chain_of (done ++ [b0]) Dangling))
          (fun r1 =>
        let cchDisplay := out_number r1 in
        TRYODBC "AllocateBindings" hstmt SQL_HANDLE_STMT
                (SQLColAttribute hstmt iCol SQL_DESC_CONCISE_TYPE 0)
                (mret (chain_of (done ++ [b0]) Dangling))
          (fun r2 =>
        let ssType := out_number r2 in
        let b1 := mk_BINDING None None None (Some (is_char_type ssType)) None None in
        (* from here on sNext is NULL *)
        if negb (malloc_ok svc ((cchDisplay + 1) * sizeof_WCHAR svc)) then
          eprint ("Out of memory in AllocateBindings, could not allocate " +:+
                  dec (cchDisplay + 1) +:+ " characters, i.e. " +:+
                  dec ((cchDisplay + 1) * sizeof_WCHAR svc) +:+ " bytes" +:+ nl);;
          crash (ProcessExit (-100))
        else
        let b2 := mk_BINDING None (Some (mk_buffer (cchDisplay + 1) None)) None
                             (fChar b1) None None in
        TRYODBC "AllocateBindings" hstmt SQL_HANDLE_STMT
                (SQLBindCol hstmt iCol ((cchDisplay + 1) * sizeof_WCHAR svc))
                (mret (chain_of (done ++ [b2]) Null))
          (fun _ =>
        let b3 := mk_BINDING None (wszBuffer b2) None (fChar b2) None (Some iCol) in
        TRYODBC "AllocateBindings" hstmt SQL_HANDLE_STMT
                (SQLColAttribute hstmt iCol SQL_DESC_NAME 0)
                (mret (chain_of (done ++ [b3]) Null))
          (fun r4 =>
        let cchColumnNameLength := to_int16 (out_length r4) in
        let b4 := mk_BINDING
                    (Some (if to_int16 cchDisplay >=? cchColumnNameLength
                           then to_int16 cchDisplay else cchColumnNameLength))
                    (wszBuffer b3) None (fChar b3) None (bound_column b3) in
        if 32767 <=? iCol then crash Overflow
        else AllocateBindings_loop hstmt n' (iCol + 1) (done ++ [b4])))))
  end.

(** [old] is what [*ppBinding] held on entry: it stays when there is no
    column to bind. *)
Definition AllocateBindings (hstmt : handle) (cCols : Z) (old : chain) : M chain :=
  if cCols <? 1 then mret old
  else AllocateBindings_loop hstmt (Z.to_nat cCols) 1 [].

(** *** get_col_headers *)

(** The for loop from the binding [ch] on; the result is the chain with the
    names filled in, the column counter, the header length, and whether the
    loop ran to its end (no jump to Exit). *)
Fixpoint get_col_headers_loop (hstmt : handle) (ch : chain) (iCol : Z)
    (header : Z) : M (chain * Z * Z * bool) :=
  match ch with
  | Null => mret (Null, iCol, header, true)
  | Dangling => crash Uninitialised
  | Node b next =>
      TRYODBC "get_col_headers" hstmt SQL_HANDLE_STMT
              (SQLColAttribute hstmt (iCol + 1) SQL_DESC_NAME
                               (DISPLAY_MAX * sizeof_WCHAR svc))
              (mret (ch, iCol, header, false))
        (fun r =>
           let b' := mk_BINDING (cDisplaySize b) (wszBuffer b) (indPtr b) (fChar b)
                                (Some (out_text r)) (bound_column b) in
           '(next', iCol', header', finished) ←
             get_col_headers_loop hstmt next (to_int16 (iCol + 1))
                                  (to_uint32 (header + to_int16 (out_length r)));
           mret (Node b' next', iCol', header', finished))
  end.

Definition get_col_headers (hCursor : Z) : M unit :=
  c ← get_cursor hCursor;
  '(ch, iCol, header, finished) ← get_col_headers_loop (hStmt c) (pBinding c) 0 0;
  set_cursor hCursor
    (mk_CONN_STMT_HANDLE (hDbc c) (hStmt c) ch
                         (if finished : bool then to_uint32 iCol else nb_cols c)
                         header (row_length c)).

(** *** ODBC_execute *)

Definition ODBC_execute (arg0 arg1 : option awk_value_t) : M awk_value :=
  match arg0 with
  | None =>
      eprint ("missing cursor handle" +:+ nl);;
      mret (AwkNumber (-1))
  | Some hCursor =>
      match arg1 with
      | None =>
          eprint ("missing statement string for cursor with handle [" +:+
                  fmt_g0 (num_value hCursor) +:+ "]" +:+ nl);;
          mret (AwkNumber (-1))
      | Some statementStr =>
          let cursor_index := num_value hCursor in
          c ← get_cursor cursor_index;
          r ← odbc (SQLExecDirect (hStmt c) (c_str (str_value statementStr)));
          match rc r with
          | SQL_SUCCESS_WITH_INFO =>
              HandleDiagnosticRecord (hStmt c) SQL_HANDLE_STMT (rc r);;
              mret (AwkNumber 0)           (* cCols as initialised *)
          | SQL_SUCCESS =>
              TRYODBC "ODBC_execute" (hStmt c) SQL_HANDLE_STMT
                      (SQLNumResultCols (hStmt c))
                      (mret (AwkNumber (-1)))
                (fun rn =>
                   let cCols := to_int16 (out_number rn) in
                   if 0 <? cCols then
                     ch ← AllocateBindings (hStmt c) cCols (pBinding c);
                     set_cursor cursor_index
                       (mk_CONN_STMT_HANDLE (hDbc c) (hStmt c) ch (nb_cols c)
                                            (header_length c) 0);;
                     get_col_headers cursor_index;;
                     mret (AwkNumber cCols)
                   else
                     TRYODBC "ODBC_execute" (hStmt c) SQL_HANDLE_STMT
                             (SQLRowCount (hStmt c))
                             (mret (AwkNumber (-1)))
                       (fun rr =>
                          let cRowCount := out_number rr in
                          when (0 <=? cRowCount)
                               (eprint (dec cRowCount +:+ " " +:+
                                        (if cRowCount =? 1 then "row" else "rows")
                                        +:+ " affected" +:+ nl));;
                          mret (AwkNumber cCols)))
          | SQL_ERROR =>
              HandleDiagnosticRecord (hStmt c) SQL_HANDLE_STMT (rc r);;
              mret (AwkNumber (-1))
          | _ =>
              eprint ("Unexpected return code " +:+ dec (retcode_value (rc r)) +:+
                      " !" +:+ nl);;
              mret (AwkNumber (-1))
          end
      end
  end.

(** *** gawk's array API (gawkapi.h), on the array store

    A cookie that is not in the store is not an array: [set_array_element]
    returns false on it. *)

Definition create_array : M nat :=
  w ← get;
  let cookie := fresh (dom (arrays w)) in
  modify (with_arrays (<[cookie := ∅]> (arrays w)));;
  mret cookie.

Definition clear_array (cookie : nat) : M unit :=
  w ← get;
  match arrays w !! cookie with
  | Some _ => modify (with_arrays (<[cookie := ∅]> (arrays w)))
  | None => mret tt
  end.

Definition set_array_element (cookie : nat) (index : string) (value : awk_value)
    : M bool :=
  w ← get;
  match arrays w !! cookie with
  | Some a =>
      modify (with_arrays (<[cookie := <[index := value]> a]> (arrays w)));;
      mret true
  | None => mret false
  end.

Definition read {A} (field : option A) : M A :=
  match field with
  | Some x => mret x
  | None => crash Uninitialised
  end.

(** [sprintf(array, "%s", text)], [strcat] with [text] for its result, and
    [array[0] = 0] with the empty text: [text] and its NUL go into an array
    of [capacity] bytes. *)
Definition store (text : string) (capacity : Z) : M unit :=
  if Z.of_nat (String.length text) <? capacity then mret tt
  else crash BufferOverflow.

(** *** ODBC_fetch *)

(** What SQLFetch leaves in the buffers it was given with SQLBindCol: the
    binding registered for column k receives entry k of the row; a column
    the row does not reach is left alone. *)
Definition deliver_to (row : list (Z * string)) (b : BINDING) : BINDING :=
  match bound_column b with
  | Some k =>
      if k <? 1 then b
      else match row !! Z.to_nat (k - 1), wszBuffer b with
           | Some (ind, text), Some buf =>
               mk_BINDING (cDisplaySize b)
                          (Some (mk_buffer (capacity buf) (Some text)))
                          (Some ind) (fChar b) (pColName b) (bound_column b)
           | _, _ => b
           end
  | None => b
  end.

Fixpoint deliver (row : list (Z * string)) (ch : chain) : chain :=
  match ch with
  | Node b next => Node (deliver_to row b) (deliver row next)
  | _ => ch
  end.

(** The first for loop: the sum of the indicators. *)
Fixpoint sum_indPtr (ch : chain) (length : Z) : M Z :=
  match ch with
  | Null => mret length
  | Dangling => crash Uninitialised
  | Node b next =>
      ind ← read (indPtr b);
      sum_indPtr next (to_uint32 (length + ind))
  end.

(** The body of the second for loop up to its array part, for the binding
    [b]: the value is [temp] and [output] as they stand after the second
    [strcat].  [capacity] is the size of [output]; [temp] has room for the
    indicator's count of bytes and a NUL, or for a NUL alone when the
    indicator is not positive; the separator goes through it before the
    column's text does. *)
Definition fetch_column (capacity : Z) (b : BINDING) (first : bool)
    (output : string) : M (string * string) :=
  ind ← read (indPtr b);
  let temp_size := if 0 <? ind then ind + 1 else 1 in
  output ← (if first then mret output
            else
              store SUBSEP temp_size;;
              store (output +:+ SUBSEP) capacity;;
              mret (output +:+ SUBSEP));
  temp ← (if 0 <? ind
          then (buf ← read (wszBuffer b); read (content buf))
          else mret "");
  store temp temp_size;;
  let output := output +:+ temp in
  store output capacity;;
  mret (temp, output).

(** The second for loop, from binding [ch] on; [first] tells whether [ch] is
    the head of the chain; [col_array] is the caller's array when there are
    two arguments.  The value is [None] when the function returns -1 from
    inside the loop, and the finished [output] otherwise.  [str_index] has
    [LOG_MAX_COLUMNS + 1] bytes: the digits of [iCol] and their NUL fit as
    long as [iCol] is below 10 ^ LOG_MAX_COLUMNS. *)
Fixpoint fetch_loop (col_array : option nat) (capacity : Z) (ch : chain)
    (first : bool) (iCol : Z) (output : string) : M (option string) :=
  match ch with
  | Null => mret (Some output)
  | Dangling => crash Uninitialised
  | Node b next =>
      let iCol := to_uint32 (iCol + 1) in
      '(temp, output) ← fetch_column capacity b first output;
      match col_array with
      | Some col_array =>
          subarray_names ← create_array;
          clear_array subarray_names;;
          if negb (iCol <? 10 ^ LOG_MAX_COLUMNS) then crash BufferOverflow
          else
          ok ← set_array_element col_array (dec iCol) (AwkArray subarray_names);
          if negb ok then
            eprint ("error in ODBC_fetch: set_array_element for col_names failed" +:+ nl);;
            mret None
          else
            name ← read (pColName b);
            ok ← set_array_element subarray_names name (AwkString temp);
            if negb ok then
              eprint ("error in ODBC_fetch:: set_array_element failed in subarray_names" +:+ nl);;
              mret None
            else fetch_loop (Some col_array) capacity next false iCol output
      | None => fetch_loop None capacity next false iCol output
      end
  end.

(** After the arguments: SQLFetch and the serialisation of the row into
    [char output[row_length + nb_cols]]. *)
Definition fetch_row (cursor_index : Z) (col_array : option nat) : M awk_value :=
  c ← get_cursor cursor_index;
  TRYODBC "ODBC_fetch" (hStmt c) SQL_HANDLE_STMT (SQLFetch (hStmt c))
          (mret (AwkNumber (-1)))
    (fun r =>
       let retCode := rc r in
       let ch := deliver (out_row r) (pBinding c) in
       set_cursor cursor_index
         (mk_CONN_STMT_HANDLE (hDbc c) (hStmt c) ch (nb_cols c)
                              (header_length c) (row_length c));;
       if negb (is_SQL_NO_DATA_FOUND retCode) then
         length ← sum_indPtr ch 0;
         set_cursor cursor_index
           (mk_CONN_STMT_HANDLE (hDbc c) (hStmt c) ch (nb_cols c)
                                (header_length c) length);;
         let capacity := to_uint32 (length + nb_cols c) in
         store "" capacity;;
         out ← fetch_loop col_array capacity ch true 0 "";
         match out with
         | Some output => mret (AwkString output)
         | None => mret (AwkNumber (-1))
         end
       else mret (AwkString "")).

Definition ODBC_fetch (nargs : Z) (arg0 arg1 : option awk_value_t) : M awk_value :=
  match arg0 with
  | None =>
      eprint ("missing cursor handle parameter" +:+ nl);;
      mret (AwkNumber (-1))
  | Some hCursor =>
      let cursor_index := num_value hCursor in
      if nargs =? 2 then
        match arg1 with
        | None =>
            eprint ("could not access the array parameter" +:+ nl);;
            mret (AwkNumber (-1))
        | Some array_param =>
            let col_array := array_cookie array_param in
            clear_array col_array;;
            c ← get_cursor cursor_index;
            ok ← set_array_element col_array (dec 0) (AwkNumber (nb_cols c));
            if negb ok then
              eprint ("error in ODBC_fetch: set_array_element failed" +:+ nl);;
              mret (AwkNumber (-1))
            else fetch_row cursor_index (Some col_array)
        end
      else fetch_row cursor_index None
  end.

(** *** ODBC_rewind *)

Definition ODBC_rewind (arg0 : option awk_value_t) : M awk_value :=
  match arg0 with
  | None =>
      eprint ("missing cursor parameter" +:+ nl);;
      mret (AwkNumber (-1))
  | Some hCursor =>
      let cursor_index := num_value hCursor in
      c ← get_cursor cursor_index;
      TRYODBC "ODBC_rewind" (hStmt c) SQL_HANDLE_STMT
              (SQLFetchScroll (hStmt c) SQL_FETCH_FIRST 0)
              (mret (AwkNumber (-1)))
        (fun _ =>
           c ← get_cursor cursor_index;
           TRYODBC "ODBC_rewind" (hStmt c) SQL_HANDLE_STMT
                   (SQLFetchScroll (hStmt c) SQL_FETCH_PRIOR 0)
                   (mret (AwkNumber (-1)))
             (fun _ => mret (AwkNumber 1)))
  end.

(** *** close_cursor *)

(** [free] on each binding's buffer and name, then on the binding. *)
Fixpoint free_chain (ch : chain) : M unit :=
  match ch with
  | Null => mret tt
  | Dangling => crash Uninitialised
  | Node b next =>
      _ ← read (wszBuffer b);
      _ ← read (pColName b);
      free_chain next
  end.

Definition close_cursor (hCursor : Z) : M unit :=
  c ← get_cursor hCursor;
  TRYODBC "close_cursor" (hStmt c) SQL_HANDLE_STMT (SQLFreeStmt_CLOSE (hStmt c))
          (mret tt)
    (fun _ =>
       let release :=
         free_chain (pBinding c);;
         set_cursor hCursor empty_cursor;;
         w ← get;
         modify (with_cursors (to_uint32 (nb_odbc_cursor_free_handles w + 1))
                              (odbc_cursor_handles w)) in
       if negb (hStmt c =? NULL) then
         TRYODBC "close_cursor" (hStmt c) SQL_HANDLE_STMT
                 (SQLFreeHandle SQL_HANDLE_STMT (hStmt c))
                 (mret tt)
           (fun _ => release)
       else release).

Definition ODBC_close_cursor (arg0 : option awk_value_t) : M awk_value :=
  match arg0 with
  | None =>
      eprint ("missing cursor handle parameter" +:+ nl);;
      mret (AwkNumber (-1))
  | Some hCursor =>
      close_cursor (num_value hCursor);;
      mret (AwkNumber 0)
  end.

(** *** get_column_headers_str, get_column_headers_array *)

(** [capacity] is the size of [output]; [temp] has [DISPLAY_MAX] bytes, which
    the separator always fits. *)
Fixpoint headers_str_loop (capacity : Z) (ch : chain) (first : bool)
    (output : string) : M string :=
  match ch with
  | Null => mret output
  | Dangling => crash Uninitialised
  | Node b next =>
      output ← (if first then mret output
                else store (output +:+ SUBSEP) capacity;; mret (output +:+ SUBSEP));
      name ← read (pColName b);
      store name DISPLAY_MAX;;
      store (output +:+ name) capacity;;
      headers_str_loop capacity next false (output +:+ name)
  end.

(** [char output[header_length + nb_cols]] *)
Definition get_column_headers_str (arg0 : option awk_value_t) : M awk_value :=
  match arg0 with
  | None =>
      eprint ("missing cursor handle" +:+ nl);;
      mret (AwkNumber (-1))
  | Some hCursor =>
      c ← get_cursor (num_value hCursor);
      let capacity := to_uint32 (header_length c + nb_cols c) in
      store "" capacity;;
      output ← headers_str_loop capacity (pBinding c) true "";
      mret (AwkString output)
  end.

(** The for loop of get_column_headers_array; [None] when it returns -1. *)
Fixpoint headers_array_loop (subarray_names subarray_widths subarray_types : nat)
    (ch : chain) (iCol : Z) : M (option Z) :=
  match ch with
  | Null => mret (Some iCol)
  | Dangling => crash Uninitialised
  | Node b next =>
      let iCol := to_uint32 (iCol + 1) in
      name ← read (pColName b);
      ok ← set_array_element subarray_names (dec iCol) (AwkString name);
      if negb ok then
        eprint ("error in get_col_array: set_array_element failed in subarray_names" +:+ nl);;
        mret None
      else
        width ← read (cDisplaySize b);
        ok ← set_array_element subarray_widths (dec iCol) (AwkNumber width);
        if negb ok then
          eprint ("error in get_col_array: set_array_element failed in subarray_widths" +:+ nl);;
          mret None
        else
          is_char ← read (fChar b);
          ok ← set_array_element subarray_types (dec iCol)
                 (AwkNumber (if is_char : bool then 1 else 0));
          if negb ok then
            eprint ("error in get_col_array: set_array_element in subarray_types failed" +:+ nl);;
            mret None
          else
            headers_array_loop subarray_names subarray_widths subarray_types next iCol
  end.

Definition get_column_headers_array (arg0 arg1 : option awk_value_t) : M awk_value :=
  match arg0 with
  | None =>
      eprint ("missing cursor handle" +:+ nl);;
      mret (AwkNumber (-1))
  | Some hCursor =>
      let cursor_index := num_value hCursor in
      match arg1 with
      | None =>
          eprint ("missing array parameter" +:+ nl);;
          mret (AwkNumber (-1))
      | Some array_param =>
          let col_array := array_cookie array_param in
          clear_array col_array;;
          c ← get_cursor cursor_index;
          ok ← set_array_element col_array "nb_cols" (AwkNumber (nb_cols c));
          if negb ok then
            eprint ("error in get_col_array: set_array_element failed with index nb_cols" +:+ nl);;
            mret (AwkNumber (-1))
          else
          subarray_names ← create_array;
          ok ← set_array_element col_array "col_names" (AwkArray subarray_names);
          if negb ok then
            eprint ("error in get_col_array: set_array_element for col_names failed" +:+ nl);;
            mret (AwkNumber (-1))
          else
          subarray_widths ← create_array;
          ok ← set_array_element col_array "col_widths" (AwkArray subarray_widths);
          if negb ok then
            eprint ("error in get_col_array: set_array_element for col_widths failed" +:+ nl);;
            mret (AwkNumber (-1))
          else
          subarray_types ← create_array;
          ok ← set_array_element col_array "bis_char" (AwkArray subarray_types);
          if negb ok then
            eprint ("error in get_col_array: set_array_element for bis_char failed" +:+ nl);;
            mret (AwkNumber (-1))
          else
          n ← headers_array_loop subarray_names subarray_widths subarray_types
                                 (pBinding c) 0;
          match n with
          | Some iCol => mret (AwkNumber iCol)
          | None => mret (AwkNumber (-1))
          end
      end
  end.

Definition ODBC_get_column_headers (nargs : Z) (arg0 arg1 : option awk_value_t)
    : M awk_value :=
  if nargs =? 1 then get_column_headers_str arg0
  else get_column_headers_array arg0 arg1.

End Engine.

(** ** Services to run the code against *)

Definition ok_reply : reply := mk_reply SQL_SUCCESS 0 0 "" 0 [].
Definition reply_rc (c : RETCODE) : reply := mk_reply c 0 0 "" 0 [].

Definition count_calls (p : odbc_call -> bool) (history : list odbc_call) : Z :=
  Z.of_nat (length (filter (fun c => p c = true) history)).

Definition is_alloc (c : odbc_call) : bool :=
  match c with SQLAllocHandle _ _ => true | _ => false end.
Definition is_fetch (c : odbc_call) : bool :=
  match c with SQLFetch _ => true | _ => false end.
Definition is_scroll (c : odbc_call) : bool :=
  match c with SQLFetchScroll _ _ _ => true | _ => false end.

(** A data source with one result set, [names] for its columns and [rows] for
    its rows (indicator and text of each column); handles are numbered from
    1001 on; every call succeeds and SQLFetch hands out the rows one by one. *)
Definition table_answer (names : list string) (rows : list (list (Z * string)))
    (history : list odbc_call) (c : odbc_call) : reply :=
  match c with
  | SQLAllocHandle _ _ =>
      mk_reply SQL_SUCCESS (1001 + count_calls is_alloc history) 0 "" 0 []
  | SQLNumResultCols _ =>
      mk_reply SQL_SUCCESS 0 (Z.of_nat (length names)) "" 0 []
  | SQLColAttribute _ i SQL_DESC_DISPLAY_SIZE _ => mk_reply SQL_SUCCESS 0 10 "" 0 []
  | SQLColAttribute _ i SQL_DESC_CONCISE_TYPE _ => mk_reply SQL_SUCCESS 0 SQL_VARCHAR "" 0 []
  | SQLColAttribute _ i SQL_DESC_NAME _ =>
      let name := default "" (names !! Z.to_nat (i - 1)) in
      mk_reply SQL_SUCCESS 0 0 name (Z.of_nat (String.length name)) []
  | SQLFetch _ =>
      match rows !! Z.to_nat (count_calls is_fetch history) with
      | Some row => mk_reply SQL_SUCCESS 0 0 "" 0 row
      | None => reply_rc SQL_NO_DATA
      end
  | _ => ok_reply
  end.

Definition table_service (names : list string) (rows : list (list (Z * string)))
    : service :=
  mk_service (table_answer names rows) (fun _ _ _ => []) SQL_SUCCESS_WITH_INFO
             (fun _ => true) 4 48.

(** What [get_argument] leaves when it is asked for AWK_NUMBER, AWK_STRING
    and AWK_ARRAY, for the functions that read the member they asked for. *)
Definition arg_number (n : Z) : option awk_value_t := Some (mk_awk_value_t n (dec n) 0).
Definition arg_string (s : string) : option awk_value_t := Some (mk_awk_value_t 0 s 0).
Definition arg_array (cookie : nat) : option awk_value_t := Some (mk_awk_value_t 0 "" cookie).

(** An address of the process, where gawk keeps the string form of a handle,
    and the handle [n] as ODBC_disconnect receives it. *)
Definition heap : Z := 93824992366592.
Definition arg_as_string (n : Z) : option awk_value_t := Some (as_string heap (dec n)).

Definition regions : service :=
  table_service ["region_id"; "region_name"]
                [[(1, "1"); (6, "Europe")]; [(1, "2"); (8, "Americas")]].

(** * Properties *)

(** The tables have their declared size and the counters fit their type. *)
Definition well_formed (w : world) : Prop :=
  length (odbc_connection_handles w) = Z.to_nat MAX_ODBC_CONNECTIONS ∧
  length (odbc_cursor_handles w) = Z.to_nat MAX_ODBC_CURSORS ∧
  0 <= nb_odbc_connection_free_handles w < 2 ^ 32 ∧
  0 <= nb_odbc_cursor_free_handles w < 2 ^ 32.

(** The world without its two streams. *)
Definition statics (w : world) : world := with_calls [] (with_stderr [] w).

Definition is_diag (c : odbc_call) : bool :=
  match c with SQLGetDiagRec _ _ _ _ => true | _ => false end.

(** [w1] is [w] after the calls [cs] and some messages, and nothing else. *)
Definition after_calls (w : world) (cs : list odbc_call) (w1 : world) : Prop :=
  statics w1 = statics w ∧ calls w1 = calls w ++ cs.

Ltac munfold :=
  unfold mbind, M_bind, mret, M_ret, bind, ret, get, modify, crash, when in *.

Lemma after_calls_refl w : after_calls w [] w.
Proof. split; [done | by rewrite app_nil_r]. Qed.

Lemma after_calls_trans w cs w1 ds w2 :
  after_calls w cs w1 -> after_calls w1 ds w2 -> after_calls w (cs ++ ds) w2.
Proof.
  intros [H1 H2] [H3 H4]. split; [congruence |].
  by rewrite H4, H2, app_assoc.
Qed.

Lemma after_calls_stderr w l : after_calls w [] (with_stderr l w).
Proof. split; [done | by rewrite app_nil_r]. Qed.

Lemma after_calls_message w cs w1 l :
  after_calls w cs w1 -> after_calls w cs (with_stderr l w1).
Proof.
  intros H. rewrite <- (app_nil_r cs).
  apply (after_calls_trans _ _ _ _ _ H), after_calls_stderr.
Qed.

Lemma after_calls_fields w cs w1 :
  after_calls w cs w1 ->
  bDebug w1 = bDebug w ∧ hEnv w1 = hEnv w ∧
  nb_odbc_connection_free_handles w1 = nb_odbc_connection_free_handles w ∧
  odbc_connection_handles w1 = odbc_connection_handles w ∧
  nb_odbc_cursor_free_handles w1 = nb_odbc_cursor_free_handles w ∧
  odbc_cursor_handles w1 = odbc_cursor_handles w ∧
  arrays w1 = arrays w.
Proof.
  intros [H _]. destruct w, w1. unfold statics in H. simpl in H.
  injection H as -> -> -> -> -> -> -> ->. simpl. done.
Qed.

Section Traffic.

Variable svc : service.

Lemma eprint_after s w : ∃ w1, eprint s w = Ret tt w1 ∧ after_calls w [] w1.
Proof. eexists. split; [reflexivity | apply after_calls_stderr]. Qed.

Lemma odbc_after c w :
  ∃ w1, odbc svc c w = Ret (answer svc (calls w) c) w1 ∧ after_calls w [c] w1.
Proof. eexists. split; [reflexivity |]. by split. Qed.

Lemma say_after text w : ∃ w1, say text w = Ret tt w1 ∧ after_calls w [] w1.
Proof.
  unfold say. munfold. destruct (bDebug w).
  - apply eprint_after.
  - eexists. split; [reflexivity | apply after_calls_refl].
Qed.

Lemma diag_loop_after hType hHandle recs : ∀ iRec w,
  ∃ w1 ds, diag_loop svc hType hHandle recs iRec w = Ret tt w1 ∧
           after_calls w ds w1 ∧ forallb is_diag ds = true.
Proof.
  induction recs as [| r rest IH]; intros iRec w; simpl; munfold; simpl;
    set (q := SQLGetDiagRec hType hHandle (to_int16 iRec) MAX_MESSAGE_LENGTH);
    set (w0 := with_calls _ w);
    assert (H0 : after_calls w [q] w0) by (by split).
  - by eexists _, [q].
  - destruct (is_SQL_SUCCESS _); [| by eexists _, [q]].
    destruct (negb _).
    2: { destruct (IH (iRec + 1) w0) as (w1 & ds & -> & H1 & H2).
         eexists _, ([q] ++ ds). split; [reflexivity |]. split; [| exact H2].
         apply (after_calls_trans _ _ _ _ _ H0 H1). }
    set (line := diag_line _ _ _).
    destruct (_ <? _); simpl.
    + fold q. set (w0' := with_calls _ w0).
      assert (H0' : after_calls w ([q] ++ [q]) w0').
      { apply (after_calls_trans _ _ _ _ _ H0). by split. }
      destruct (say_after line w0') as (w1 & -> & H1).
      destruct (IH (iRec + 1) w1) as (w2 & ds & -> & H2 & H3).
      eexists _, (([q] ++ [q]) ++ [] ++ ds). split; [reflexivity |]. split.
      * apply (after_calls_trans _ _ _ _ _ H0'). apply (after_calls_trans _ _ _ _ _ H1 H2).
      * simpl. exact H3.
    + destruct (say_after line w0) as (w1 & -> & H1).
      destruct (IH (iRec + 1) w1) as (w2 & ds & -> & H2 & H3).
      eexists _, ([q] ++ [] ++ ds). split; [reflexivity |]. split.
      * apply (after_calls_trans _ _ _ _ _ H0). apply (after_calls_trans _ _ _ _ _ H1 H2).
      * simpl. exact H3.
Qed.

Lemma HandleDiagnosticRecord_after hHandle hType retCode w :
  ∃ w1 ds, HandleDiagnosticRecord svc hHandle hType retCode w = Ret tt w1 ∧
           after_calls w ds w1 ∧ forallb is_diag ds = true.
Proof.
  unfold HandleDiagnosticRecord. destruct (is_SQL_INVALID_HANDLE retCode).
  - destruct (eprint_after ("Invalid handle!" +:+ nl) w) as (w1 & -> & H).
    by eexists _, [].
  - munfold. apply diag_loop_after.
Qed.

(** The macro: the call, the report, and then either the Exit label or the
    rest of the function, in a world that differs by service traffic only. *)
Lemma TRYODBC_after {A} func h ht x (Exit : M A) (k : reply -> M A) w :
  let r := answer svc (calls w) x in
  ∃ w1 ds, after_calls w (x :: ds) w1 ∧ forallb is_diag ds = true ∧
           TRYODBC svc func h ht x Exit k w =
           if is_SQL_ERROR (rc r) then Exit w1 else k r w1.
Proof.
  intros r. unfold TRYODBC. munfold. simpl. fold r.
  set (w0 := with_calls _ w).
  assert (H0 : after_calls w [x] w0) by (by split).
  destruct (is_SQL_SUCCESS (rc r)) eqn:Hs; simpl.
  - destruct (rc r); try discriminate. simpl. by eexists _, [].
  - destruct (HandleDiagnosticRecord_after h ht (rc r) w0) as (w1 & ds & -> & H1 & H2).
    destruct (is_SQL_ERROR (rc r)).
    + eexists _, ds. split; [| split; [exact H2 | reflexivity]].
      apply after_calls_message, (after_calls_trans _ _ _ _ _ H0 H1).
    + eexists _, ds. split; [| split; [exact H2 | reflexivity]].
      apply (after_calls_trans _ _ _ _ _ H0 H1).
Qed.

End Traffic.

(** Step over the first TRYODBC of the goal. *)
Ltac step_TRYODBC w1 ds H Hd :=
  match goal with
  | |- context [TRYODBC ?svc ?f ?h ?ht ?x ?E ?k ?w] =>
      destruct (TRYODBC_after svc f h ht x E k w) as (w1 & ds & H & Hd & ->)
  end.

(** ** Table accesses *)

Lemma at_index_Some {A} (t : list A) i x w :
  0 <= i -> t !! Z.to_nat i = Some x -> at_index t i w = Ret x w.
Proof.
  intros Hi Hx. unfold at_index.
  destruct (i <? 0) eqn:E; [lia |]. by rewrite Hx.
Qed.

Lemma at_index_in_range {A} (t : list A) i w :
  0 <= i < Z.of_nat (length t) ->
  ∃ x, t !! Z.to_nat i = Some x ∧ at_index t i w = Ret x w.
Proof.
  intros Hi. destruct (lookup_lt_is_Some_2 t (Z.to_nat i)) as [x Hx]; [lia |].
  exists x. split; [done |]. apply at_index_Some; [lia | done].
Qed.

Lemma at_index_Ret {A} (t : list A) i x w w' :
  at_index t i w = Ret x w' -> 0 <= i ∧ t !! Z.to_nat i = Some x ∧ w' = w.
Proof.
  unfold at_index. destruct (i <? 0) eqn:E; [discriminate |].
  destruct (t !! Z.to_nat i); [| discriminate].
  munfold. intros [= -> ->]. split; [lia | done].
Qed.

Section Connections.

Variable svc : service.

Lemma set_connection_Some i h x w :
  0 <= i -> odbc_connection_handles w !! Z.to_nat i = Some x ->
  set_connection i h w =
  Ret tt (with_connections (nb_odbc_connection_free_handles w)
                           (<[Z.to_nat i := h]> (odbc_connection_handles w)) w).
Proof.
  intros Hi Hx. unfold set_connection. munfold.
  by rewrite (at_index_Some _ _ _ _ Hi Hx).
Qed.

(** What disconnect does to a slot that holds [h]. *)
Lemma disconnect_slot i h w :
  0 <= i -> odbc_connection_handles w !! Z.to_nat i = Some h ->
  ∃ w', disconnect svc i w = Ret tt w' ∧
        nb_odbc_connection_free_handles w' =
          to_uint32 (nb_odbc_connection_free_handles w + 1) ∧
        odbc_connection_handles w' = <[Z.to_nat i := NULL]> (odbc_connection_handles w) ∧
        nb_odbc_cursor_free_handles w' = nb_odbc_cursor_free_handles w ∧
        odbc_cursor_handles w' = odbc_cursor_handles w ∧
        arrays w' = arrays w ∧
        calls w' = calls w ++
                   (if h =? NULL then []
                    else [SQLDisconnect h; SQLFreeHandle SQL_HANDLE_DBC h]).
Proof.
  intros Hi Hh. unfold disconnect. munfold.
  rewrite (at_index_Some _ _ _ _ Hi Hh).
  destruct (h =? NULL); simpl.
  - erewrite set_connection_Some by (simpl; eauto).
    eexists. split; [reflexivity |]. destruct w; simpl. by rewrite app_nil_r.
  - unfold odbc. erewrite set_connection_Some by (simpl; eauto).
    eexists. split; [reflexivity |]. destruct w; simpl. by rewrite <- app_assoc.
Qed.

(** C7: called with a connection handle, ODBC_disconnect returns 0. *)
Theorem ODBC_disconnect_returns_0 w hConnection :
  well_formed w ->
  0 <= num_value hConnection < MAX_ODBC_CONNECTIONS ->
  ∃ w', ODBC_disconnect svc (Some hConnection) w = Ret (AwkNumber 0) w'.
Proof.
  intros (Hlen & _) Hi. unfold ODBC_disconnect. munfold.
  destruct (lookup_lt_is_Some_2 (odbc_connection_handles w)
              (Z.to_nat (num_value hConnection))) as [h Hh].
  { rewrite Hlen. unfold MAX_ODBC_CONNECTIONS in *. lia. }
  destruct (disconnect_slot _ _ w (proj1 Hi) Hh) as (w' & -> & _).
  by exists w'.
Qed.

End Connections.

(** A pointer below 2 ^ 52, read as a double, is a number below 1:
    whatever handle the string at that address names, ODBC_disconnect
    indexes slot 0 with it. *)
Lemma as_string_slot address s :
  0 <= address < 2 ^ 52 -> num_value (as_string address s) = 0.
Proof.
  intros H. unfold as_string, trunc_of_double_bits. simpl.
  rewrite (Z.div_small address (2 ^ 52)) by lia.
  rewrite (Z.div_small address (2 ^ 63)) by lia.
  reflexivity.
Qed.

Lemma ODBC_disconnect_returns_0_witness :
  ∃ w', ODBC_disconnect (table_service [] []) (arg_as_string 7) (loaded 1 false)
        = Ret (AwkNumber 0) w'.
Proof.
  apply ODBC_disconnect_returns_0.
  - repeat split; (reflexivity || (simpl; unfold MAX_ODBC_CONNECTIONS, MAX_ODBC_CURSORS; lia)).
  - rewrite as_string_slot by (unfold heap; lia). unfold MAX_ODBC_CONNECTIONS. lia.
Defined.

(** ** Acquiring a slot *)

Lemma first_free_Some {A} (is_free : A -> bool) t : ∀ k i,
  first_free is_free t k = Some i ->
  k <= i ∧ ∃ x, t !! Z.to_nat (i - k) = Some x ∧ is_free x = true.
Proof.
  induction t as [| y t IH]; intros k i; simpl; [discriminate |].
  destruct (is_free y) eqn:E.
  - intros [= <-]. split; [lia |]. exists y. by rewrite Z.sub_diag.
  - intros H. destruct (IH _ _ H) as (Hk & x & Hx & Hf).
    split; [lia |]. exists x. split; [| done].
    replace (Z.to_nat (i - k)) with (S (Z.to_nat (i - (k + 1)))) by lia. done.
Qed.

Lemma first_free_None {A} (is_free : A -> bool) t : ∀ k,
  first_free is_free t k = None -> ∀ x, x ∈ t -> is_free x = false.
Proof.
  induction t as [| y t IH]; intros k; simpl.
  - intros _ x Hx. by apply not_elem_of_nil in Hx.
  - destruct (is_free y) eqn:E; [discriminate |].
    intros H x [-> | Hx]%elem_of_cons; [done | eauto].
Qed.

Lemma to_uint32_id z : 0 <= z < 2 ^ 32 -> to_uint32 z = z.
Proof. intros H. unfold to_uint32. by apply Z.mod_small. Qed.

Section Connect.

Variable svc : service.

Lemma get_odbc_connection_handle_acquires w i :
  nb_odbc_connection_free_handles w ≠ 0 ->
  first_free (fun h => h =? NULL) (odbc_connection_handles w) 0 = Some i ->
  get_odbc_connection_handle w =
  Ret i (with_connections (to_uint32 (nb_odbc_connection_free_handles w - 1))
                          (odbc_connection_handles w) w).
Proof.
  intros Hn Hi. unfold get_odbc_connection_handle. munfold.
  destruct (_ =? 0) eqn:E; [lia |]. by rewrite Hi.
Qed.

(** C1, as the code has it: when the allocation of the session or its
    opening ends in SQL_ERROR, ODBC_connect returns -1 and the slot it took
    stays taken: the free counter remains one lower, and the slot holds
    what the allocation left in it. *)
Theorem ODBC_connect_failure_keeps_slot w connectionString user_name password i :
  well_formed w ->
  nb_odbc_connection_free_handles w ≠ 0 ->
  first_free (fun h => h =? NULL) (odbc_connection_handles w) 0 = Some i ->
  let alloc := SQLAllocHandle SQL_HANDLE_DBC (hEnv w) in
  let r := answer svc (calls w) alloc in
  let open := SQLConnect (out_handle r) (c_str (str_value connectionString))
                         (c_str (str_value user_name)) (c_str (str_value password)) in
  (rc r = SQL_ERROR ∨
   ∀ ds, forallb is_diag ds = true ->
         rc (answer svc (calls w ++ alloc :: ds) open) = SQL_ERROR) ->
  ∃ w', ODBC_connect svc (Some connectionString) (Some user_name) (Some password) w
          = Ret (AwkNumber (-1)) w' ∧
        nb_odbc_connection_free_handles w' = nb_odbc_connection_free_handles w - 1 ∧
        odbc_connection_handles w' =
          if is_SQL_ERROR (rc r) then odbc_connection_handles w
          else <[Z.to_nat i := out_handle r]> (odbc_connection_handles w).
Proof.
  intros (_ & _ & Hnb & _) Hn Hi alloc r open Hfail.
  destruct (first_free_Some _ _ _ _ Hi) as (Hi0 & x & Hx & _).
  rewrite Z.sub_0_r in Hx.
  unfold ODBC_connect. munfold.
  rewrite (get_odbc_connection_handle_acquires _ _ Hn Hi).
  destruct (i =? -1) eqn:E; [lia |].
  set (w0 := with_connections _ _ w).
  step_TRYODBC w1 ds H1 Hd1.
  replace (answer svc (calls w0) (SQLAllocHandle SQL_HANDLE_DBC (hEnv w0))) with r
    by (destruct w; reflexivity).
  assert (Hhist : calls w1 = calls w ++ alloc :: ds).
  { destruct H1 as [_ H1]. rewrite H1. subst w0. by destruct w. }
  destruct (after_calls_fields _ _ _ H1) as (_ & _ & Hn1 & Ht1 & _).
  assert (Hn0 : nb_odbc_connection_free_handles w0 = nb_odbc_connection_free_handles w - 1).
  { destruct w; simpl in *. apply to_uint32_id. lia. }
  assert (Ht0 : odbc_connection_handles w0 = odbc_connection_handles w)
    by (destruct w; reflexivity).
  destruct (is_SQL_ERROR (rc r)) eqn:Herr.
  - exists w1. munfold. split; [done |]. split; congruence.
  - destruct Hfail as [Hfail | Hfail]; [by rewrite Hfail in Herr |].
    munfold.
    erewrite set_connection_Some; [| done | by rewrite Ht1, Ht0].
    set (w2 := with_connections _ _ w1).
    step_TRYODBC w3 ds' H3 Hd3.
    replace (calls w2) with (calls w ++ alloc :: ds) by (by rewrite <- Hhist).
    fold open. rewrite (Hfail ds Hd1). simpl. exists w3. munfold. split; [done |].
    destruct (after_calls_fields _ _ _ H3) as (_ & _ & Hn3 & Ht3 & _).
    rewrite Hn3, Ht3. subst w2. destruct w1; simpl in *. split; congruence.
Qed.

End Connect.

(** A data source that can be reached but refuses every session. *)
Definition refusing : service :=
  mk_service (fun history c =>
                match c with
                | SQLConnect _ _ _ _ => reply_rc SQL_ERROR
                | _ => table_answer [] [] history c
                end)
             (fun _ _ _ => []) SQL_SUCCESS_WITH_INFO (fun _ => true) 4 48.

Lemma loaded_well_formed env debug : well_formed (loaded env debug).
Proof.
  repeat split; (reflexivity || (simpl; unfold MAX_ODBC_CONNECTIONS, MAX_ODBC_CURSORS; lia)).
Qed.

Lemma ODBC_connect_failure_keeps_slot_witness :
  ∃ w', ODBC_connect refusing (arg_string "testdb") (arg_string "u") (arg_string "p")
                     (loaded 1 false) = Ret (AwkNumber (-1)) w' ∧
        nb_odbc_connection_free_handles w' = 100 - 1 ∧
        odbc_connection_handles w' =
          <[0%nat := 1001]> (replicate 100 NULL).
Proof.
  apply (ODBC_connect_failure_keeps_slot refusing (loaded 1 false) _ _ _ 0).
  - apply loaded_well_formed.
  - simpl. unfold MAX_ODBC_CONNECTIONS. lia.
  - reflexivity.
  - right. intros ds _. reflexivity.
Defined.

(** C1 as stated does not hold: a failed session open returns -1 with the
    slot still holding the native handle and the free counter one short;
    and a status that is neither success nor SQL_ERROR does not make
    ODBC_connect fail. *)
Lemma ODBC_connect_releases_nothing :
  (∃ w', ODBC_connect refusing (arg_string "testdb") (arg_string "u") (arg_string "p")
                      (loaded 1 false) = Ret (AwkNumber (-1)) w' ∧
         nb_odbc_connection_free_handles w' = 99 ∧
         odbc_connection_handles w' !! 0%nat = Some 1001) ∧
  (∃ w', ODBC_connect
           (mk_service (fun _ _ => reply_rc SQL_INVALID_HANDLE) (fun _ _ _ => [])
                       SQL_SUCCESS_WITH_INFO (fun _ => true) 4 48)
           (arg_string "testdb") (arg_string "u") (arg_string "p")
           (loaded 1 false) = Ret (AwkNumber 0) w').
Proof.
  split.
  - eexists. split; [vm_compute; reflexivity |]. split; reflexivity.
  - eexists. vm_compute. reflexivity.
Qed.

(** ** Cursors *)

Lemma get_cursor_Some i c w :
  0 <= i -> odbc_cursor_handles w !! Z.to_nat i = Some c -> get_cursor i w = Ret c w.
Proof. intros Hi Hc. unfold get_cursor. munfold. by apply at_index_Some. Qed.

Lemma set_cursor_Some i c x w :
  0 <= i -> odbc_cursor_handles w !! Z.to_nat i = Some x ->
  set_cursor i c w =
  Ret tt (with_cursors (nb_odbc_cursor_free_handles w)
                       (<[Z.to_nat i := c]> (odbc_cursor_handles w)) w).
Proof.
  intros Hi Hx. unfold set_cursor. munfold.
  by rewrite (at_index_Some _ _ _ _ Hi Hx).
Qed.

Section Rewind.

Variable svc : service.

(** C8, as the code has it: ODBC_rewind scrolls to the first row and, unless
    that ends in SQL_ERROR, to the row before; it returns 1 when neither
    scroll ends in SQL_ERROR and -1 otherwise.  Between and after the two
    scrolls only diagnostic records are read. *)
Theorem ODBC_rewind_scrolls w hCursor c :
  0 <= num_value hCursor ->
  odbc_cursor_handles w !! Z.to_nat (num_value hCursor) = Some c ->
  let first := SQLFetchScroll (hStmt c) SQL_FETCH_FIRST 0 in
  let prior := SQLFetchScroll (hStmt c) SQL_FETCH_PRIOR 0 in
  ∃ v w' ds1 ds2,
    ODBC_rewind svc (Some hCursor) w = Ret (AwkNumber v) w' ∧
    forallb is_diag ds1 = true ∧ forallb is_diag ds2 = true ∧
    if is_SQL_ERROR (rc (answer svc (calls w) first)) then
      calls w' = calls w ++ first :: ds1 ∧ v = -1
    else
      calls w' = calls w ++ first :: ds1 ++ prior :: ds2 ∧
      v = if is_SQL_ERROR (rc (answer svc (calls w ++ first :: ds1) prior))
          then -1 else 1.
Proof.
  intros Hi Hc first prior. unfold ODBC_rewind. munfold.
  rewrite (get_cursor_Some _ _ _ Hi Hc).
  step_TRYODBC w1 ds1 H1 Hd1. fold first.
  destruct (is_SQL_ERROR (rc (answer svc (calls w) first))).
  - exists (-1), w1, ds1, []. repeat split; try done. apply H1.
  - destruct (after_calls_fields _ _ _ H1) as (_ & _ & _ & _ & _ & Ht & _).
    rewrite (get_cursor_Some (num_value hCursor) c w1) by (done || by rewrite Ht).
    step_TRYODBC w2 ds2 H2 Hd2.
    destruct H1 as [_ H1]. destruct H2 as [_ H2]. rewrite H1 in *.
    subst first prior.
    exists (if is_SQL_ERROR
                 (rc (answer svc
                        (calls w ++ SQLFetchScroll (hStmt c) SQL_FETCH_FIRST 0 :: ds1)
                        (SQLFetchScroll (hStmt c) SQL_FETCH_PRIOR 0)))
            then -1 else 1), w2, ds1, ds2.
    rewrite H2, <- app_assoc. simpl.
    repeat split; try done. by destruct (is_SQL_ERROR _).
Qed.

End Rewind.

(** A data source whose cursors cannot scroll. *)
Definition forward_only : service :=
  mk_service (fun history c =>
                match c with
                | SQLFetchScroll _ _ _ => reply_rc SQL_ERROR
                | _ => table_answer ["region_id"; "region_name"]
                                    [[(1, "1"); (6, "Europe")]] history c
                end)
             (fun _ _ _ => []) SQL_SUCCESS_WITH_INFO (fun _ => true) 4 48.

(** The world after connect, get-cursor and execute on a service. *)
Definition opened (svc : service) : outcome awk_value :=
  (_ ← ODBC_connect svc (arg_string "testdb") (arg_string "u") (arg_string "p");
   _ ← ODBC_cursor svc (arg_number 0);
   ODBC_execute svc (arg_number 0) (arg_string "select * from regions order by 1"))
    (loaded 1 false).

Definition world_of {A} (o : outcome A) : world :=
  match o with Ret _ w => w | Fault _ => loaded 0 false end.

Lemma ODBC_rewind_scrolls_witness :
  ∃ v w' ds1 ds2,
    ODBC_rewind forward_only (arg_number 0) (loaded 1 false) = Ret (AwkNumber v) w' ∧
    forallb is_diag ds1 = true ∧ forallb is_diag ds2 = true ∧
    calls w' = [] ++ SQLFetchScroll NULL SQL_FETCH_FIRST 0 :: ds1 ∧ v = -1.
Proof.
  apply (ODBC_rewind_scrolls forward_only (loaded 1 false) (mk_awk_value_t 0 "0" 0)
                             empty_cursor).
  - simpl. lia.
  - reflexivity.
Defined.

(** C8 as stated does not hold: on a forward-only cursor the first scroll
    ends in SQL_ERROR and no second scroll is issued. *)
Lemma ODBC_rewind_one_scroll :
  ∃ w', ODBC_rewind forward_only (arg_number 0) (world_of (opened forward_only))
          = Ret (AwkNumber (-1)) w' ∧
        filter (fun c => is_scroll c = true)
               (drop (length (calls (world_of (opened forward_only)))) (calls w'))
          = [SQLFetchScroll 1002 SQL_FETCH_FIRST 0].
Proof. eexists. split; vm_compute; reflexivity. Qed.

(** ** Fetching at the end of the data *)

Section EndOfData.

Variable svc : service.

Lemma fetch_row_end_of_data w i c col_array :
  0 <= i ->
  odbc_cursor_handles w !! Z.to_nat i = Some c ->
  rc (answer svc (calls w) (SQLFetch (hStmt c))) = SQL_NO_DATA ->
  ∃ w', fetch_row svc i col_array w = Ret (AwkString "") w' ∧ arrays w' = arrays w.
Proof.
  intros Hi Hc Hend. unfold fetch_row. munfold.
  rewrite (get_cursor_Some _ _ _ Hi Hc).
  step_TRYODBC w1 ds H1 Hd. rewrite Hend. simpl.
  destruct (after_calls_fields _ _ _ H1) as (_ & _ & _ & _ & _ & Ht & Ha).
  erewrite set_cursor_Some; [| done | by rewrite Ht].
  eexists. split; [reflexivity |]. by destruct w1.
Qed.

(** C4, as the code has it: at the end of the data ODBC_fetch returns the
    empty string, called with one argument or with two. *)
Theorem ODBC_fetch_end_of_data w nargs hCursor arg1 c :
  0 <= num_value hCursor ->
  odbc_cursor_handles w !! Z.to_nat (num_value hCursor) = Some c ->
  rc (answer svc (calls w) (SQLFetch (hStmt c))) = SQL_NO_DATA ->
  (nargs = 2 -> ∃ a, arg1 = Some a ∧ is_Some (arrays w !! array_cookie a)) ->
  ∃ w', ODBC_fetch svc nargs (Some hCursor) arg1 w = Ret (AwkString "") w'.
Proof.
  intros Hi Hc Hend Harr. unfold ODBC_fetch.
  destruct (nargs =? 2) eqn:E.
  - destruct Harr as (a & -> & [old Hold]); [lia |].
    unfold clear_array, set_array_element. munfold. rewrite Hold. simpl.
    rewrite (get_cursor_Some (num_value hCursor) c) by (done || by destruct w).
    simpl. rewrite lookup_insert_eq. simpl.
    match goal with
    | |- context [fetch_row svc ?i ?ca ?w0] =>
        destruct (fetch_row_end_of_data w0 i c ca) as (w' & -> & _)
    end; try done; try (by destruct w).
    by eexists.
  - destruct (fetch_row_end_of_data w (num_value hCursor) c None) as (w' & -> & _);
      try done.
    by eexists.
Qed.

(** C10: called with an array at the end of the data, ODBC_fetch leaves the
    array holding the column count under "0" and nothing else. *)
Theorem ODBC_fetch_array_at_end w hCursor array_param c :
  0 <= num_value hCursor ->
  odbc_cursor_handles w !! Z.to_nat (num_value hCursor) = Some c ->
  is_Some (arrays w !! array_cookie array_param) ->
  rc (answer svc (calls w) (SQLFetch (hStmt c))) = SQL_NO_DATA ->
  ∃ w', ODBC_fetch svc 2 (Some hCursor) (Some array_param) w = Ret (AwkString "") w' ∧
        arrays w' = <[array_cookie array_param := {["0" := AwkNumber (nb_cols c)]}]>
                      (arrays w).
Proof.
  intros Hi Hc [old Hold] Hend. unfold ODBC_fetch. simpl.
  unfold clear_array, set_array_element. munfold. rewrite Hold. simpl.
  rewrite (get_cursor_Some (num_value hCursor) c) by (done || by destruct w).
  simpl. rewrite lookup_insert_eq. simpl.
  match goal with
  | |- context [fetch_row svc ?i ?ca ?w0] =>
      destruct (fetch_row_end_of_data w0 i c ca) as (w' & -> & Ha)
  end; try done; try (by destruct w).
  exists w'. split; [done |]. rewrite Ha. destruct w; simpl.
  by rewrite insert_insert_eq.
Qed.

End EndOfData.

(** One column, one row holding the empty string; the cursor has been
    executed and read to its end, and the caller's array, cookie 0, holds
    something from before. *)
Definition single_empty : service := table_service ["c"] [[(0, "")]].

Definition exhausted : world :=
  with_arrays {[0%nat := {["stale" := AwkNumber 7]}]}
    (world_of ((_ ← ODBC_fetch single_empty 1 (arg_number 0) None; mret tt)
                 (world_of (opened single_empty)))).

Definition cursor_0 (w : world) : CONN_STMT_HANDLE :=
  default empty_cursor (odbc_cursor_handles w !! 0%nat).

Lemma ODBC_fetch_end_of_data_witness :
  ∃ w', ODBC_fetch single_empty 2 (arg_number 0) (arg_array 0) exhausted
        = Ret (AwkString "") w'.
Proof.
  apply (ODBC_fetch_end_of_data single_empty exhausted 2 (mk_awk_value_t 0 "0" 0)
                                (arg_array 0) (cursor_0 exhausted)).
  - simpl. lia.
  - vm_compute. reflexivity.
  - vm_compute. reflexivity.
  - intros _. eexists. split; [reflexivity |]. vm_compute. eauto.
Defined.

Lemma ODBC_fetch_array_at_end_witness :
  ∃ w', ODBC_fetch single_empty 2 (arg_number 0) (arg_array 0) exhausted
        = Ret (AwkString "") w' ∧
        arrays w' = <[0%nat := {["0" := AwkNumber 1]}]> (arrays exhausted).
Proof.
  apply (ODBC_fetch_array_at_end single_empty exhausted (mk_awk_value_t 0 "0" 0)
                                      (mk_awk_value_t 0 "" 0) (cursor_0 exhausted)).
  - simpl. lia.
  - vm_compute. reflexivity.
  - vm_compute. eauto.
  - vm_compute. reflexivity.
Defined.

(** C4 as stated does not hold.  With two arguments the end of the data gives
    the empty string, not -1; with one argument it gives the empty string,
    which is also what the row before it, a single column holding the empty
    string, gave. *)
Lemma ODBC_fetch_end_marker_is_empty_string :
  (∃ w', ODBC_fetch single_empty 2 (arg_number 0) (arg_array 0) exhausted
         = Ret (AwkString "") w') ∧
  AwkString "" ≠ AwkNumber (-1) ∧
  (∃ w', ODBC_fetch single_empty 1 (arg_number 0) None exhausted
         = Ret (AwkString "") w') ∧
  (∃ w', ODBC_fetch single_empty 1 (arg_number 0) None (world_of (opened single_empty))
         = Ret (AwkString "") w').
Proof.
  repeat split; try discriminate; eexists; vm_compute; reflexivity.
Qed.

(** ** Executing a statement that completes with information *)

Section ExecuteWithInfo.

Variable svc : service.

(** C2, at the status SQL_SUCCESS_WITH_INFO: ODBC_execute reports the
    diagnostic records and returns 0 without asking for the number of result
    columns; the cursor keeps the bindings it had. *)
Theorem ODBC_execute_with_info w hCursor statementStr c :
  0 <= num_value hCursor ->
  odbc_cursor_handles w !! Z.to_nat (num_value hCursor) = Some c ->
  rc (answer svc (calls w) (SQLExecDirect (hStmt c) (c_str (str_value statementStr))))
    = SQL_SUCCESS_WITH_INFO ->
  ∃ w' ds,
    ODBC_execute svc (Some hCursor) (Some statementStr) w = Ret (AwkNumber 0) w' ∧
    odbc_cursor_handles w' = odbc_cursor_handles w ∧
    calls w' = calls w ++ SQLExecDirect (hStmt c) (c_str (str_value statementStr)) :: ds ∧
    forallb is_diag ds = true.
Proof.
  intros Hi Hc Hrc. unfold ODBC_execute. munfold.
  rewrite (get_cursor_Some _ _ _ Hi Hc). simpl. rewrite Hrc.
  set (w0 := with_calls _ w).
  destruct (HandleDiagnosticRecord_after svc (hStmt c) SQL_HANDLE_STMT
              SQL_SUCCESS_WITH_INFO w0) as (w1 & ds & -> & H1 & Hd).
  exists w1, ds. split; [done |].
  destruct (after_calls_fields _ _ _ H1) as (_ & _ & _ & _ & _ & Ht & _).
  destruct H1 as [_ H1]. rewrite Ht, H1. subst w0. destruct w; simpl.
  by rewrite <- app_assoc.
Qed.

End ExecuteWithInfo.

(** The regions table behind a driver that completes every statement with an
    informational message. *)
Definition chatty : service :=
  mk_service (fun history c =>
                match c with
                | SQLExecDirect _ _ => reply_rc SQL_SUCCESS_WITH_INFO
                | _ => table_answer ["region_id"; "region_name"]
                                    [[(1, "1"); (6, "Europe")]] history c
                end)
             (fun _ _ _ => [mk_diag "01000" 5701 "Changed database context"])
             SQL_SUCCESS_WITH_INFO (fun _ => true) 4 48.

Definition connected (svc : service) : world :=
  world_of ((_ ← ODBC_connect svc (arg_string "testdb") (arg_string "u") (arg_string "p");
             ODBC_cursor svc (arg_number 0)) (loaded 1 false)).

Lemma ODBC_execute_with_info_witness :
  ∃ w' ds,
    ODBC_execute chatty (arg_number 0) (arg_string "select * from regions order by 1")
                 (connected chatty) = Ret (AwkNumber 0) w' ∧
    odbc_cursor_handles w' = odbc_cursor_handles (connected chatty) ∧
    calls w' = calls (connected chatty) ++
               SQLExecDirect 1002 "select * from regions order by 1" :: ds ∧
    forallb is_diag ds = true.
Proof.
  apply (ODBC_execute_with_info chatty (connected chatty) (mk_awk_value_t 0 "0" 0)
           (mk_awk_value_t 0 "select * from regions order by 1" 0)
           (cursor_0 (connected chatty))).
  - simpl. lia.
  - vm_compute. reflexivity.
  - vm_compute. reflexivity.
Defined.

(** ** Diagnostic records with a long message *)

Lemma to_int16_id z : - 2 ^ 15 <= z < 2 ^ 15 -> to_int16 z = z.
Proof. intros H. unfold to_int16. rewrite Z.mod_small; lia. Qed.

Section LongMessage.

Variable svc : service.

Lemma say_stderr text w :
  say text w = Ret tt (if bDebug w then with_stderr (stderr w ++ [text +:+ nl]) w else w).
Proof. unfold say. munfold. by destruct (bDebug w). Qed.

Lemma diag_loop_stderr hType hHandle recs : ∀ iRec w,
  match diag_loop svc hType hHandle recs iRec w with
  | Ret _ w1 => ∃ more, stderr w1 = stderr w ++ more
  | Fault _ => True
  end.
Proof.
  induction recs as [| r rest IH]; intros iRec w; simpl; munfold; simpl.
  - exists []. destruct w; simpl. by rewrite app_nil_r.
  - destruct (is_SQL_SUCCESS _); [| exists []; destruct w; simpl; by rewrite app_nil_r].
    destruct (negb _).
    2: { specialize (IH (iRec + 1) (with_calls
           (calls w ++ [SQLGetDiagRec hType hHandle (to_int16 iRec) MAX_MESSAGE_LENGTH]) w)).
         destruct (diag_loop _ _ _ _ _ _); [| done].
         destruct IH as [more H]. exists more. rewrite H. by destruct w. }
    destruct (_ <? _); simpl; rewrite say_stderr;
      match goal with
      | |- context [diag_loop svc hType hHandle rest (iRec + 1) ?w0] =>
          specialize (IH (iRec + 1) w0); destruct (diag_loop _ _ _ _ _ w0); [| done];
          destruct IH as [more H]; rewrite H
      end; destruct w as [[] ? ? ? ? ? ? ? ? ?]; simpl; eauto.
    all: rewrite <- app_assoc; eauto.
Qed.

(** C5, at a record whose message is longer than the buffer.  When the
    service reports success for the truncated message, the record is asked
    for again with the same BufferLength and the line that is emitted holds
    the first 999 characters; when it reports anything else, nothing is
    emitted and the loop ends at that record. *)
Theorem HandleDiagnosticRecord_long_message w hHandle hType retCode r rest :
  retCode ≠ SQL_INVALID_HANDLE ->
  diag_area svc (calls w) hType hHandle = r :: rest ->
  MAX_MESSAGE_LENGTH < Z.of_nat (String.length (MessageText r)) < 2 ^ 15 ->
  substring 0 5 (SQLState r) ≠ "01004" ->
  bDebug w = true ->
  let q := SQLGetDiagRec hType hHandle 1 MAX_MESSAGE_LENGTH in
  ∃ w', HandleDiagnosticRecord svc hHandle hType retCode w = Ret tt w' ∧
    if is_SQL_SUCCESS (diag_rc_truncated svc) then
      ∃ more cs,
        stderr w' = stderr w ++
          (diag_line (SQLState r) (substring 0 999 (MessageText r)) (NativeError r)
           +:+ nl) :: more ∧
        calls w' = calls w ++ q :: q :: cs
    else stderr w' = stderr w ∧ calls w' = calls w ++ [q].
Proof.
  intros Hrc Harea Hlen Hstate Hdebug q.
  unfold HandleDiagnosticRecord.
  replace (is_SQL_INVALID_HANDLE retCode) with false by (by destruct retCode).
  munfold. rewrite Harea.
  replace (Z.to_nat 32767) with (S (Z.to_nat 32766)) by lia.
  simpl. munfold. simpl.
  change (to_int16 1) with 1. fold q.
  unfold diag_rc.
  destruct (_ <? MAX_MESSAGE_LENGTH) eqn:E; [lia |].
  destruct (is_SQL_SUCCESS (diag_rc_truncated svc)).
  2: { eexists. split; [reflexivity |]. by destruct w. }
  replace (String.eqb (substring 0 5 (SQLState r)) "01004") with false
    by (symmetry; by apply String.eqb_neq).
  simpl. unfold diag_textLength.
  rewrite to_int16_id by lia. rewrite to_uint32_id by lia.
  destruct (MAX_MESSAGE_LENGTH <? _) eqn:E'; [| lia].
  rewrite say_stderr. simpl. rewrite Hdebug.
  match goal with
  | |- context [diag_loop svc hType hHandle ?rs ?i ?w0] =>
      pose proof (diag_loop_stderr hType hHandle rs i w0) as Hs;
      destruct (diag_loop_after svc hType hHandle rs i w0) as (w1 & cs & Hrun & [_ Hc] & _);
      rewrite Hrun in Hs |- *
  end.
  destruct Hs as [more Hs].
  exists w1. split; [done |]. exists more, cs.
  rewrite Hs, Hc. destruct w; simpl.
  rewrite <- !app_assoc. done.
Qed.

End LongMessage.

Fixpoint string_of (n : nat) (c : ascii) : string :=
  match n with
  | O => EmptyString
  | S n' => String c (string_of n' c)
  end.

(** A driver with one diagnostic record of 1200 characters, which reports
    success when it truncates (as the code's second call expects), or
    SQL_SUCCESS_WITH_INFO (as ODBC prescribes). *)
Definition verbose (truncated : RETCODE) : service :=
  mk_service (fun _ _ => reply_rc SQL_ERROR)
             (fun _ _ _ => [mk_diag "42000" 102 (string_of 1200 "m");
                            mk_diag "42S02" 208 "Invalid object name"])
             truncated (fun _ => true) 4 48.

Lemma HandleDiagnosticRecord_long_message_witness :
  ∃ w', HandleDiagnosticRecord (verbose SQL_SUCCESS) 1002 SQL_HANDLE_STMT SQL_ERROR
                               (loaded 1 true) = Ret tt w' ∧
    ∃ more cs,
      stderr w' = [] ++
        (diag_line "42000" (string_of 999 "m") 102 +:+ nl) :: more ∧
      calls w' = [] ++ SQLGetDiagRec SQL_HANDLE_STMT 1002 1 1000
                    :: SQLGetDiagRec SQL_HANDLE_STMT 1002 1 1000 :: cs.
Proof.
  apply (HandleDiagnosticRecord_long_message (verbose SQL_SUCCESS) (loaded 1 true)
           1002 SQL_HANDLE_STMT SQL_ERROR
           (mk_diag "42000" 102 (string_of 1200 "m"))
           [mk_diag "42S02" 208 "Invalid object name"]).
  - discriminate.
  - reflexivity.
  - vm_compute. split; reflexivity.
  - vm_compute. discriminate.
  - reflexivity.
Defined.

(** ** A result set with fixed metadata *)

Fixpoint columns (from : Z) (n : nat) : list Z :=
  match n with
  | O => []
  | S n' => from :: columns (from + 1) n'
  end.

Lemma length_columns n : ∀ from, length (columns from n) = n.
Proof. induction n; intros; simpl; [done | by rewrite IHn]. Qed.

Lemma lookup_columns n : ∀ from k,
  (k < n)%nat -> columns from n !! k = Some (from + Z.of_nat k).
Proof.
  induction n as [| n IH]; intros from k Hk; [lia |].
  destruct k as [| k]; simpl.
  - f_equal. lia.
  - rewrite IH by lia. f_equal. lia.
Qed.

Lemma not_SQL_ERROR c : c ≠ SQL_ERROR -> is_SQL_ERROR c = false.
Proof. by destruct c. Qed.

Section Described.

Variable svc : service.
Variable hstmt : handle.
(** display size, concise type and name length of column i *)
Variables (display ctype namelen : Z -> Z).
(** the number of columns of the result set *)
Variable cCols : Z.

(** What AllocateBindings asks about column [i], with the arguments it
    passes: whatever was asked before, the display size, the type and the
    length of the name are the same, no call ends in SQL_ERROR, and malloc
    gives the display buffer. *)
Definition binds_column (i : Z) : Prop :=
  (∀ history,
     let r := answer svc history (SQLColAttribute hstmt i SQL_DESC_DISPLAY_SIZE 0) in
     rc r ≠ SQL_ERROR ∧ out_number r = display i) ∧
  (∀ history,
     let r := answer svc history (SQLColAttribute hstmt i SQL_DESC_CONCISE_TYPE 0) in
     rc r ≠ SQL_ERROR ∧ out_number r = ctype i) ∧
  malloc_ok svc ((display i + 1) * sizeof_WCHAR svc) = true ∧
  (∀ history,
     rc (answer svc history
           (SQLBindCol hstmt i ((display i + 1) * sizeof_WCHAR svc))) ≠ SQL_ERROR) ∧
  (∀ history,
     let r := answer svc history (SQLColAttribute hstmt i SQL_DESC_NAME 0) in
     rc r ≠ SQL_ERROR ∧ out_length r = namelen i).

(** malloc gives the bindings, and the columns 1 to [cCols] are bound. *)
Definition allocates : Prop :=
  malloc_ok svc (sizeof_BINDING svc) = true ∧
  ∀ i, 1 <= i <= cCols -> binds_column i.

(** The binding AllocateBindings makes for column i. *)
Definition binding_of (i : Z) : BINDING :=
  mk_BINDING (Some (Z.max (to_int16 (display i)) (to_int16 (namelen i))))
             (Some (mk_buffer (display i + 1) None))
             None
             (Some (is_char_type (ctype i)))
             None
             (Some i).

Hypothesis Hsvc : allocates.

Lemma AllocateBindings_loop_described n : ∀ iCol done w,
  1 <= iCol -> iCol + Z.of_nat n <= cCols + 1 -> cCols <= 32766 ->
  ∃ w' cs,
    AllocateBindings_loop svc hstmt n iCol done w
      = Ret (chain_of (done ++ map binding_of (columns iCol n)) Null) w' ∧
    after_calls w cs w' ∧
    ∀ i, i ∈ columns iCol n ->
         SQLBindCol hstmt i ((display i + 1) * sizeof_WCHAR svc) ∈ cs.
Proof.
  destruct Hsvc as [Hm Hcols].
  induction n as [| n IH]; intros iCol done w Hlow Hrange Hmax; simpl.
  - exists w, []. rewrite app_nil_r. split; [done |]. split; [apply after_calls_refl |].
    intros i Hi. by apply not_elem_of_nil in Hi.
  - destruct (Hcols iCol) as (Hd & Ht & Hbuf & Hb & Hn); [lia |].
    rewrite Hm. simpl.
    step_TRYODBC w1 ds1 H1 Hd1.
    destruct (Hd (calls w)) as [Hrc1 Hv1]. rewrite (not_SQL_ERROR _ Hrc1), Hv1.
    step_TRYODBC w2 ds2 H2 Hd2.
    destruct (Ht (calls w1)) as [Hrc2 Hv2]. rewrite (not_SQL_ERROR _ Hrc2), Hv2.
    rewrite Hbuf. simpl.
    step_TRYODBC w3 ds3 H3 Hd3.
    rewrite (not_SQL_ERROR _ (Hb (calls w2))).
    step_TRYODBC w4 ds4 H4 Hd4.
    destruct (Hn (calls w3)) as [Hrc4 Hv4]. rewrite (not_SQL_ERROR _ Hrc4), Hv4.
    destruct (32767 <=? iCol) eqn:E; [lia |].
    destruct (IH (iCol + 1)
                 (done ++ [mk_BINDING
                   (Some (if to_int16 (display iCol) >=? to_int16 (namelen iCol)
                          then to_int16 (display iCol) else to_int16 (namelen iCol)))
                   (Some (mk_buffer (display iCol + 1) None)) None
                   (Some (is_char_type (ctype iCol))) None (Some iCol)]) w4)
      as (w' & cs & -> & H5 & Hin); [lia | lia | lia |].
    eexists w', _. split.
    { f_equal. rewrite <- app_assoc. simpl. do 3 f_equal.
      unfold binding_of. do 2 f_equal.
      destruct (_ >=? _) eqn:E'; lia. }
    split.
    { eapply after_calls_trans; [exact H1 |].
      eapply after_calls_trans; [exact H2 |].
      eapply after_calls_trans; [exact H3 |].
      eapply after_calls_trans; [exact H4 | exact H5]. }
    intros i Hi. rewrite !elem_of_app, !elem_of_cons.
    apply elem_of_cons in Hi as [-> | Hi]; [| specialize (Hin i Hi)]; tauto.
Qed.

(** C6, as the code has it: for every column of a result set of up to 32766
    columns, whose display sizes and name lengths a SQLSMALLINT can hold,
    the display buffer is allocated, and announced to SQLBindCol, with room
    for the reported display size plus one terminator, whatever the length
    of the column name, and the recorded width is the larger of the display
    size and the length of the column name. *)
Theorem AllocateBindings_sizes old w :
  1 <= cCols <= 32766 ->
  (∀ i, 1 <= i <= cCols ->
        - 2 ^ 15 <= display i < 2 ^ 15 ∧ - 2 ^ 15 <= namelen i < 2 ^ 15) ->
  ∃ w' bs,
    AllocateBindings svc hstmt cCols old w = Ret (chain_of bs Null) w' ∧
    Z.of_nat (length bs) = cCols ∧
    ∀ k b, bs !! k = Some b ->
      let i := Z.of_nat k + 1 in
      wszBuffer b = Some (mk_buffer (display i + 1) None) ∧
      SQLBindCol hstmt i ((display i + 1) * sizeof_WCHAR svc) ∈ calls w' ∧
      cDisplaySize b = Some (Z.max (display i) (namelen i)).
Proof.
  intros Hc Hshort. unfold AllocateBindings.
  destruct (cCols <? 1) eqn:E; [lia |].
  destruct (AllocateBindings_loop_described (Z.to_nat cCols) 1 [] w)
    as (w' & cs & -> & [_ Hcalls] & Hin); [lia | lia | lia |].
  exists w', (map binding_of (columns 1 (Z.to_nat cCols))).
  split; [done |]. split; [rewrite length_map, length_columns; lia |].
  intros k b Hk. set (i := Z.of_nat k + 1).
  apply list_lookup_fmap_Some in Hk as (j & -> & Hj).
  assert (Hlt : (k < Z.to_nat cCols)%nat).
  { apply lookup_lt_Some in Hj. by rewrite length_columns in Hj. }
  rewrite lookup_columns in Hj by done. injection Hj as <-.
  replace (1 + Z.of_nat k) with i by lia.
  split; [done |]. split.
  - rewrite Hcalls. apply elem_of_app. right. apply Hin.
    apply list_elem_of_lookup. exists k. rewrite lookup_columns by done. f_equal. lia.
  - destruct (Hshort i) as [Hdisplay Hname]; [lia |]. simpl.
    by rewrite !to_int16_id.
Qed.

End Described.

Section Named.

Variable svc : service.
Variable hstmt : handle.
Variables (display ctype namelen : Z -> Z) (colname : Z -> string).
Variable cCols : Z.

(** What get_col_headers asks about column [i]: the name comes with the
    length the service reports for it, which covers the name and fits a
    SQLSMALLINT, and the name with its NUL fits [DISPLAY_MAX] bytes. *)
Definition names_column (i : Z) : Prop :=
  (∀ history,
     let r := answer svc history
                (SQLColAttribute hstmt i SQL_DESC_NAME (DISPLAY_MAX * sizeof_WCHAR svc)) in
     rc r ≠ SQL_ERROR ∧ out_text r = colname i ∧ out_length r = namelen i) ∧
  Z.of_nat (String.length (colname i)) <= namelen i <= 32767 ∧
  Z.of_nat (String.length (colname i)) < DISPLAY_MAX.

(** The columns 1 to [cCols] are bound and named. *)
Definition describes : Prop :=
  allocates svc hstmt display ctype namelen cCols ∧
  ∀ i, 1 <= i <= cCols -> names_column i.

End Named.

Definition name_of (names : list string) (i : Z) : string :=
  default "" (names !! Z.to_nat (i - 1)).

Lemma table_service_allocates names rows hstmt cCols :
  allocates (table_service names rows) hstmt
            (fun _ => 10) (fun _ => SQL_VARCHAR)
            (fun i => Z.of_nat (String.length (name_of names i))) cCols.
Proof. split; [done |]. intros i _. repeat split; discriminate. Qed.

Lemma table_service_describes names rows hstmt cCols :
  Forall (fun name => Z.of_nat (String.length name) < DISPLAY_MAX) names ->
  describes (table_service names rows) hstmt
            (fun _ => 10) (fun _ => SQL_VARCHAR)
            (fun i => Z.of_nat (String.length (name_of names i)))
            (name_of names) cCols.
Proof.
  intros Hshort. split; [apply table_service_allocates |].
  assert (Hname : ∀ i, Z.of_nat (String.length (name_of names i)) < DISPLAY_MAX).
  { intros i. unfold name_of.
    destruct (names !! Z.to_nat (i - 1)) as [name |] eqn:E; [| done].
    by apply (proj1 (Forall_lookup _ _) Hshort _ _ E). }
  intros i _. specialize (Hname i). unfold DISPLAY_MAX in *.
  repeat split; try discriminate; try reflexivity; unfold DISPLAY_MAX; lia.
Qed.

Lemma AllocateBindings_sizes_witness :
  ∃ w' bs,
    AllocateBindings regions 1002 2 Null (loaded 1 false) = Ret (chain_of bs Null) w' ∧
    Z.of_nat (length bs) = 2 ∧
    ∀ k b, bs !! k = Some b ->
      let i := Z.of_nat k + 1 in
      wszBuffer b = Some (mk_buffer (10 + 1) None) ∧
      SQLBindCol 1002 i ((10 + 1) * 4) ∈ calls w' ∧
      cDisplaySize b =
        Some (Z.max 10 (Z.of_nat (String.length
                                    (name_of ["region_id"; "region_name"] i)))).
Proof.
  apply (AllocateBindings_sizes regions 1002 (fun _ => 10) (fun _ => SQL_VARCHAR)
           (fun i => Z.of_nat (String.length (name_of ["region_id"; "region_name"] i)))
           2 (table_service_allocates _ _ _ _)).
  - lia.
  - intros i Hi. assert (i = 1 ∨ i = 2) as [-> | ->] by lia; vm_compute; repeat split;
      discriminate.
Defined.

(** One column with the given display size and name. *)
Definition one_column (display : Z) (name : string) : service :=
  mk_service (fun history c =>
                match c with
                | SQLColAttribute _ _ SQL_DESC_DISPLAY_SIZE _ =>
                    mk_reply SQL_SUCCESS 0 display "" 0 []
                | _ => table_answer [name] [] history c
                end)
             (fun _ _ _ => []) SQL_SUCCESS_WITH_INFO (fun _ => true) 4 48.

(** C6 as stated does not hold.  A column of display size 10 named with 25
    characters gets a buffer of 11 characters, not 26; a column of display
    size 70000 named "id" gets the width 4464. *)
Lemma AllocateBindings_buffer_ignores_name :
  (∃ w' b,
     AllocateBindings (one_column 10 "a_rather_long_column_name") 1002 1 Null
                      (loaded 1 false) = Ret (Node b Null) w' ∧
     wszBuffer b = Some (mk_buffer 11 None) ∧
     SQLBindCol 1002 1 (11 * 4) ∈ calls w' ∧
     11 ≠ Z.max 10 25 + 1) ∧
  (∃ w' b,
     AllocateBindings (one_column 70000 "id") 1002 1 Null (loaded 1 false)
       = Ret (Node b Null) w' ∧
     cDisplaySize b = Some 4464 ∧
     4464 ≠ Z.max 70000 2).
Proof.
  split.
  - eexists _, _. split; [vm_compute; reflexivity |].
    split; [reflexivity |]. split; [| lia].
    simpl. rewrite !elem_of_cons. tauto.
  - eexists _, _. split; [vm_compute; reflexivity |].
    split; [reflexivity | lia].
Qed.

(** ** Strings joined by SUBSEP *)

Lemma append_cons a s t : String a s +:+ t = String a (s +:+ t).
Proof. reflexivity. Qed.

Lemma append_empty_r s : s +:+ "" = s.
Proof. induction s as [| a s IH]; [done |]. by rewrite append_cons, IH. Qed.

Lemma append_assoc s t u : (s +:+ t) +:+ u = s +:+ t +:+ u.
Proof. induction s as [| a s IH]; [done |]. by rewrite !append_cons, IH. Qed.

Lemma length_append s t : String.length (s +:+ t) = (String.length s + String.length t)%nat.
Proof. induction s as [| a s IH]; simpl; [done | by rewrite IH]. Qed.



(** ** Texts in arrays of a given size *)


Lemma store_overflows text capacity w :
  capacity <= Z.of_nat (String.length text) ->
  store text capacity w = Fault BufferOverflow.
Proof. intros H. unfold store. destruct (_ <? _) eqn:E; [lia | done]. Qed.

(** The sum of [f] over the columns [cols]. *)
Definition sum_over (f : Z -> Z) (cols : list Z) : Z :=
  foldr (fun i acc => f i + acc) 0 cols.





Lemma elem_of_columns n : ∀ from j,
  j ∈ columns from n -> from <= j < from + Z.of_nat n.
Proof.
  induction n as [| n IH]; intros from j; simpl.
  - intros H. by apply not_elem_of_nil in H.
  - intros [-> | H]%elem_of_cons; [lia |]. apply IH in H. lia.
Qed.

(** ** The order of the columns *)

Section ColumnOrder.

Variable svc : service.
Variable hstmt : handle.
Variables (display ctype namelen : Z -> Z) (colname : Z -> string).
Variable n : nat.
Hypothesis Hsvc : describes svc hstmt display ctype namelen colname (Z.of_nat n).

Definition set_name (name : string) (b : BINDING) : BINDING :=
  mk_BINDING (cDisplaySize b) (wszBuffer b) (indPtr b) (fChar b) (Some name)
             (bound_column b).

(** The bindings get_col_headers leaves, when the loop counter is [iCol] at
    the first of [bs]. *)
Fixpoint named_from (iCol : Z) (bs : list BINDING) : list BINDING :=
  match bs with
  | [] => []
  | b :: bs' => set_name (colname (iCol + 1)) b :: named_from (iCol + 1) bs'
  end.

Lemma get_col_headers_loop_described bs : ∀ iCol header w,
  0 <= iCol -> iCol + Z.of_nat (length bs) <= Z.of_nat n -> Z.of_nat n <= 32767 ->
  0 <= header -> header + 32767 * Z.of_nat (length bs) < 2 ^ 32 ->
  ∃ w' cs,
    get_col_headers_loop svc hstmt (chain_of bs Null) iCol header w
      = Ret (chain_of (named_from iCol bs) Null, iCol + Z.of_nat (length bs),
             header + sum_over namelen (columns (iCol + 1) (length bs)), true) w' ∧
    after_calls w cs w'.
Proof.
  destruct Hsvc as [_ Hnames].
  induction bs as [| b bs IH]; intros iCol header w Hi Hrange Hmax Hh Hfit; simpl.
  - rewrite !Z.add_0_r. exists w, []. split; [done | apply after_calls_refl].
  - simpl in Hrange. cbn [length] in Hfit. rewrite Nat2Z.inj_succ in Hfit.
    destruct (Hnames (iCol + 1)) as (Hask & Hlen & _); [lia |].
    step_TRYODBC w1 ds1 H1 Hd1.
    destruct (Hask (calls w)) as (Hrc & Htext & Hl).
    rewrite (not_SQL_ERROR _ Hrc), Htext, Hl. munfold.
    rewrite (to_int16_id (iCol + 1)) by lia.
    rewrite (to_int16_id (namelen (iCol + 1))) by lia.
    rewrite (to_uint32_id (header + namelen (iCol + 1))) by lia.
    destruct (IH (iCol + 1) (header + namelen (iCol + 1)) w1)
      as (w' & cs & -> & H2); [lia | lia | lia | lia | lia |].
    eexists w', _. split.
    + unfold set_name. do 2 f_equal. f_equal; [f_equal; lia | lia].
    + eapply after_calls_trans; [exact H1 | exact H2].
Qed.

(** The binding of column i once the statement has been executed. *)
Definition column_binding (i : Z) : BINDING :=
  set_name (colname i) (binding_of display ctype namelen i).

Lemma named_from_binding_of k : ∀ iCol,
  named_from iCol (map (binding_of display ctype namelen) (columns (iCol + 1) k))
  = map column_binding (columns (iCol + 1) k).
Proof.
  induction k as [| k IH]; intros iCol; simpl; [done |].
  by rewrite IH.
Qed.

(** ODBC_execute on a statement that returns [n] columns. *)
Lemma ODBC_execute_described w hCursor statementStr c :
  0 <= num_value hCursor ->
  odbc_cursor_handles w !! Z.to_nat (num_value hCursor) = Some c ->
  hStmt c = hstmt ->
  let exec := SQLExecDirect hstmt (c_str (str_value statementStr)) in
  rc (answer svc (calls w) exec) = SQL_SUCCESS ->
  rc (answer svc (calls w ++ [exec]) (SQLNumResultCols hstmt)) ≠ SQL_ERROR ->
  to_int16 (out_number (answer svc (calls w ++ [exec]) (SQLNumResultCols hstmt)))
    = Z.of_nat n ->
  (0 < n)%nat -> Z.of_nat n <= 32766 ->
  ∃ w',
    ODBC_execute svc (Some hCursor) (Some statementStr) w
      = Ret (AwkNumber (Z.of_nat n)) w' ∧
    odbc_cursor_handles w' =
      <[Z.to_nat (num_value hCursor) :=
          mk_CONN_STMT_HANDLE (hDbc c) hstmt
            (chain_of (map column_binding (columns 1 n)) Null)
            (Z.of_nat n) (sum_over namelen (columns 1 n)) 0]> (odbc_cursor_handles w) ∧
    arrays w' = arrays w.
Proof.
  intros Hi Hc Hh exec Hexec Hnum Hn Hpos Hn16.
  unfold ODBC_execute. munfold.
  rewrite (get_cursor_Some _ _ _ Hi Hc). simpl. rewrite Hh. fold exec.
  rewrite Hexec.
  step_TRYODBC w1 ds1 H1 Hd1. simpl.
  rewrite (not_SQL_ERROR _ Hnum), Hn.
  destruct (0 <? Z.of_nat n) eqn:E; [| lia].
  unfold AllocateBindings. destruct (Z.of_nat n <? 1) eqn:E'; [lia |].
  rewrite Nat2Z.id.
  destruct (AllocateBindings_loop_described svc hstmt display ctype namelen (Z.of_nat n)
              (proj1 Hsvc) n 1 [] w1) as (w2 & cs2 & -> & H2 & _); [lia | lia | lia |].
  simpl.
  destruct (after_calls_fields _ _ _ H1) as (_ & _ & _ & _ & Hk1 & Ht1 & Ha1).
  destruct (after_calls_fields _ _ _ H2) as (_ & _ & _ & _ & Hk2 & Ht2 & Ha2).
  simpl in Ht1, Ha1, Hk1.
  erewrite set_cursor_Some; [| done | by rewrite Ht2, Ht1].
  unfold get_col_headers. munfold.
  erewrite get_cursor_Some;
    [| done | simpl; rewrite list_lookup_insert_eq; [done |];
              rewrite Ht2, Ht1; by apply lookup_lt_Some in Hc].
  simpl.
  match goal with
  | |- context [get_col_headers_loop svc hstmt (chain_of ?bs Null) 0 0 ?w0] =>
      destruct (get_col_headers_loop_described bs 0 0 w0)
        as (w3 & cs3 & -> & H3)
  end.
  { lia. }
  { rewrite length_map, length_columns. lia. }
  { lia. }
  { lia. }
  { rewrite length_map, length_columns. lia. }
  rewrite length_map, length_columns. simpl.
  destruct (after_calls_fields _ _ _ H3) as (_ & _ & _ & _ & Hk3 & Ht3 & Ha3).
  simpl in Ht3, Ha3, Hk3.
  erewrite set_cursor_Some;
    [| done | rewrite Ht3, list_lookup_insert_eq; [done |];
              rewrite Ht2, Ht1; by apply lookup_lt_Some in Hc].
  eexists _. split; [reflexivity |]. simpl.
  rewrite Ht3, Ha3, Ha2, Ha1, Ht2, Ht1, list_insert_insert_eq.
  pose proof (named_from_binding_of n 0) as Hnamed. change (0 + 1) with 1 in Hnamed.
  rewrite Hnamed, to_uint32_id by lia.
  done.
Qed.

End ColumnOrder.

Lemma dec_inj a b : dec a = dec b -> a = b.
Proof.
  unfold dec. intros H. apply DecimalZ.to_int_inj.
  assert (Hnil : ∀ z, Z.to_int z ≠ Decimal.Pos Decimal.Nil ∧
                      Z.to_int z ≠ Decimal.Neg Decimal.Nil).
  { intros [| p | p]; simpl; split; try discriminate;
      intros [= Hp]; by apply DecimalPos.Unsigned.to_uint_nonnil in Hp. }
  destruct (Hnil a) as [Ha1 Ha2], (Hnil b) as [Hb1 Hb2].
  pose proof (NilZero.isi _ Ha1 Ha2) as Ia.
  pose proof (NilZero.isi _ Hb1 Hb2) as Ib.
  rewrite H in Ia. congruence.
Qed.

(** ** Describing and fetching, on bindings in column order *)

Section Observers.

Variable colname : Z -> string.






(** *** A fetched row *)


(** The indicator of column i. *)
Definition indicator_of (row : list (Z * string)) (i : Z) : Z :=
  match row !! Z.to_nat (i - 1) with
  | Some (ind, _) => ind
  | None => 0
  end.

(** The row has a column i whose indicator is positive and covers the text:
    [temp] then has room for the separator and for the text. *)
Definition filled (row : list (Z * string)) (i : Z) : Prop :=
  ∃ ind text, row !! Z.to_nat (i - 1) = Some (ind, text) ∧
              0 < ind ∧ Z.of_nat (String.length text) <= ind.

(** The row fits the arrays ODBC_fetch serialises it through: the columns 1
    to n are filled, and the indicators with one byte for each column fit
    an unsigned int. *)
Definition fits (n : nat) (row : list (Z * string)) : Prop :=
  (∀ i, i ∈ columns 1 n -> filled row i) ∧
  sum_over (indicator_of row) (columns 1 n) + Z.of_nat n < 2 ^ 32.









End Observers.

(** ** gawk arrays *)

Lemma with_arrays_twice a b w : with_arrays a (with_arrays b w) = with_arrays a w.
Proof. by destruct w. Qed.



Lemma clear_array_Some cookie a w :
  arrays w !! cookie = Some a ->
  clear_array cookie w = Ret tt (with_arrays (<[cookie := ∅]> (arrays w)) w).
Proof. intros H. unfold clear_array. munfold. by rewrite H. Qed.

Lemma set_array_element_Some cookie index value a w :
  arrays w !! cookie = Some a ->
  set_array_element cookie index value w
  = Ret true (with_arrays (<[cookie := <[index := value]> a]> (arrays w)) w).
Proof. intros H. unfold set_array_element. munfold. by rewrite H. Qed.

Section Structured.

Variable colname : Z -> string.


End Structured.



Section DescribeArray.

Variable colname : Z -> string.


End DescribeArray.

Lemma fresh_ne {V} (a : gmap nat V) c : is_Some (a !! c) -> fresh (dom a) ≠ c.
Proof.
  intros H Heq. apply elem_of_dom in H. rewrite <- Heq in H. by apply is_fresh in H.
Qed.

Section Facade.

Variable svc : service.
Variable colname : Z -> string.






End Facade.

Section DescribeArrayFacade.

Variable colname : Z -> string.


End DescribeArrayFacade.

(** ** What holds when a function returns *)

(** [returns m w Q]: if [m], started in [w], returns, its value and final
    world satisfy [Q]. *)
Definition returns {A} (m : M A) (w : world) (Q : A -> world -> Prop) : Prop :=
  match m w with
  | Ret a w' => Q a w'
  | Fault _ => True
  end.

Lemma returns_Ret {A} (m : M A) w Q a w' :
  returns m w Q -> m w = Ret a w' -> Q a w'.
Proof. unfold returns. intros H E. by rewrite E in H. Qed.

Lemma returns_ret {A} (a : A) w (Q : A -> world -> Prop) : Q a w -> returns (mret a) w Q.
Proof. done. Qed.

Lemma returns_crash {A} f w (Q : A -> world -> Prop) : returns (crash f) w Q.
Proof. done. Qed.

Lemma returns_bind {A B} (m : M A) (k : A -> M B) w Q :
  returns m w (fun a w1 => returns (k a) w1 Q) -> returns (m ≫= k) w Q.
Proof. unfold returns. munfold. by destruct (m w). Qed.

Lemma returns_weaken {A} (m : M A) w (Q Q' : A -> world -> Prop) :
  returns m w Q -> (∀ a w', Q a w' -> Q' a w') -> returns m w Q'.
Proof. unfold returns. destruct (m w); auto. Qed.

(** The tables and their counters. *)
Definition tables (w : world) : Z * list handle * Z * list CONN_STMT_HANDLE :=
  (nb_odbc_connection_free_handles w, odbc_connection_handles w,
   nb_odbc_cursor_free_handles w, odbc_cursor_handles w).

Lemma after_calls_tables w cs w1 : after_calls w cs w1 -> tables w1 = tables w.
Proof.
  intros H. destruct (after_calls_fields _ _ _ H) as (_ & _ & H1 & H2 & H3 & H4 & _).
  unfold tables. by rewrite H1, H2, H3, H4.
Qed.

Lemma returns_eprint s w (Q : unit -> world -> Prop) :
  (∀ w1, tables w1 = tables w -> arrays w1 = arrays w -> calls w1 = calls w -> Q tt w1) ->
  returns (eprint s) w Q.
Proof. intros H. apply H; by destruct w. Qed.

Lemma returns_TRYODBC {A} svc func h ht x (Exit : M A) k w Q :
  (∀ w1 ds, after_calls w (x :: ds) w1 ->
            returns Exit w1 Q ∧ returns (k (answer svc (calls w) x)) w1 Q) ->
  returns (TRYODBC svc func h ht x Exit k) w Q.
Proof.
  intros H. unfold returns.
  destruct (TRYODBC_after svc func h ht x Exit k w) as (w1 & ds & H1 & _ & ->).
  destruct (H w1 ds H1) as [HE Hk]. by destruct (is_SQL_ERROR _).
Qed.

Lemma returns_at_index {A} (t : list A) i w Q :
  (∀ x, 0 <= i -> t !! Z.to_nat i = Some x -> Q x w) -> returns (at_index t i) w Q.
Proof.
  intros H. unfold returns. destruct (at_index t i w) as [x w' |] eqn:E; [| done].
  apply at_index_Ret in E as (Hi & Hx & ->). by apply H.
Qed.

Lemma returns_read {A} (field : option A) w Q :
  (∀ x, field = Some x -> Q x w) -> returns (read field) w Q.
Proof. intros H. destruct field; [by apply H | done]. Qed.

Lemma returns_set_array_element cookie index value w Q :
  (∀ ok w1, tables w1 = tables w -> calls w1 = calls w -> Q ok w1) ->
  returns (set_array_element cookie index value) w Q.
Proof.
  intros H. unfold returns, set_array_element. munfold.
  destruct (arrays w !! cookie); apply H; by destruct w.
Qed.

Lemma returns_clear_array cookie w Q :
  (∀ w1, tables w1 = tables w -> calls w1 = calls w -> Q tt w1) ->
  returns (clear_array cookie) w Q.
Proof.
  intros H. unfold returns, clear_array. munfold.
  destruct (arrays w !! cookie); apply H; by destruct w.
Qed.

Lemma returns_create_array w Q :
  (∀ c w1, tables w1 = tables w -> calls w1 = calls w -> Q c w1) ->
  returns create_array w Q.
Proof. intros H. unfold returns, create_array. munfold. apply H; by destruct w. Qed.

(** The loops over a chain leave the tables alone. *)
Lemma returns_store text capacity w (Q : unit -> world -> Prop) :
  Q tt w -> returns (store text capacity) w Q.
Proof. intros H. unfold returns, store. by destruct (_ <? _). Qed.

Lemma headers_str_loop_returns capacity ch : ∀ first output w,
  returns (headers_str_loop capacity ch first output) w (fun _ w' => w' = w).
Proof.
  induction ch as [| | b next IH]; intros first output w; simpl; try done.
  apply returns_bind.
  apply (returns_weaken _ _ (fun _ w' => w' = w)).
  { destruct first; [done |]. by apply returns_bind, returns_store. }
  intros out ? ->.
  apply returns_bind, returns_read. intros name _.
  apply returns_bind, returns_store, returns_bind, returns_store, IH.
Qed.

Lemma sum_indPtr_returns ch : ∀ total w,
  returns (sum_indPtr ch total) w (fun _ w' => w' = w).
Proof.
  induction ch as [| | b next IH]; intros total w; simpl; try done.
  apply returns_bind, returns_read. intros ind _. apply IH.
Qed.

Lemma fetch_column_returns capacity b first output w :
  returns (fetch_column capacity b first output) w (fun _ w' => w' = w).
Proof.
  unfold fetch_column.
  apply returns_bind, returns_read. intros ind _.
  apply returns_bind.
  apply (returns_weaken _ _ (fun _ w' => w' = w)).
  { destruct first; [done |].
    by apply returns_bind, returns_store, returns_bind, returns_store. }
  intros out ? ->.
  apply returns_bind.
  apply (returns_weaken _ _ (fun _ w' => w' = w)).
  { destruct (0 <? ind); [| done].
    apply returns_bind, returns_read. intros buf _. by apply returns_read. }
  intros temp ? ->.
  by apply returns_bind, returns_store, returns_bind, returns_store.
Qed.

Lemma fetch_loop_returns col_array capacity ch : ∀ first iCol output w,
  returns (fetch_loop col_array capacity ch first iCol output) w
          (fun _ w' => tables w' = tables w ∧ calls w' = calls w).
Proof.
  induction ch as [| | b next IH]; intros first iCol output w; simpl; try done.
  apply returns_bind.
  eapply returns_weaken; [apply fetch_column_returns |]. simpl.
  intros [temp out] ? ->.
  destruct col_array as [col_array |]; [| apply IH].
  apply returns_bind, returns_create_array. intros sub w1 Ht1 Hc1.
  apply returns_bind, returns_clear_array. intros w2 Ht2 Hc2.
  destruct (negb (_ <? _)); [done |].
  apply returns_bind, returns_set_array_element. intros ok w3 Ht3 Hc3.
  destruct ok; simpl.
  2: { apply returns_bind, returns_eprint. intros w4 Ht4 _ Hc4.
       apply returns_ret. split; congruence. }
  apply returns_bind, returns_read. intros name _.
  apply returns_bind, returns_set_array_element. intros ok w4 Ht4 Hc4.
  destruct ok; simpl.
  2: { apply returns_bind, returns_eprint. intros w5 Ht5 _ Hc5.
       apply returns_ret. split; congruence. }
  eapply returns_weaken; [apply IH |]. simpl. intros _ w5 [Ht5 Hc5].
  split; congruence.
Qed.

Lemma headers_array_loop_returns names widths types ch : ∀ iCol w,
  returns (headers_array_loop names widths types ch iCol) w
          (fun _ w' => tables w' = tables w ∧ calls w' = calls w).
Proof.
  induction ch as [| | b next IH]; intros iCol w; simpl; try done.
  apply returns_bind, returns_read. intros name _.
  apply returns_bind, returns_set_array_element. intros ok w1 Ht1 Hc1.
  destruct ok; simpl.
  2: { apply returns_bind, returns_eprint. intros w2 Ht2 _ Hc2.
       apply returns_ret. split; congruence. }
  apply returns_bind, returns_read. intros width _.
  apply returns_bind, returns_set_array_element. intros ok w2 Ht2 Hc2.
  destruct ok; simpl.
  2: { apply returns_bind, returns_eprint. intros w3 Ht3 _ Hc3.
       apply returns_ret. split; congruence. }
  apply returns_bind, returns_read. intros is_char _.
  apply returns_bind, returns_set_array_element. intros ok w3 Ht3 Hc3.
  destruct ok; simpl.
  2: { apply returns_bind, returns_eprint. intros w4 Ht4 _ Hc4.
       apply returns_ret. split; congruence. }
  eapply returns_weaken; [apply IH |]. simpl. intros _ w4 [Ht4 Hc4].
  split; congruence.
Qed.

Lemma returns_get_cursor i w Q :
  (∀ c, 0 <= i -> odbc_cursor_handles w !! Z.to_nat i = Some c -> Q c w) ->
  returns (get_cursor i) w Q.
Proof. intros H. unfold get_cursor. munfold. by apply returns_at_index. Qed.

Lemma returns_set_cursor i c w Q :
  (∀ x, 0 <= i -> odbc_cursor_handles w !! Z.to_nat i = Some x ->
        Q tt (with_cursors (nb_odbc_cursor_free_handles w)
                           (<[Z.to_nat i := c]> (odbc_cursor_handles w)) w)) ->
  returns (set_cursor i c) w Q.
Proof.
  intros H. unfold set_cursor. apply returns_bind. unfold returns at 1. munfold.
  apply returns_bind, returns_at_index. intros x Hi Hx. by apply (H x).
Qed.

(** ** Repeated describe and fetch calls keep the order *)

Section Repeated.

Variable svc : service.
Variable colname : Z -> string.
Variable n : nat.
Variable hCursor : awk_value_t.
Variable hstmt : handle.












End Repeated.

(** ** Column order, end to end *)


Section EndToEnd.

Variable svc : service.
Variable hstmt : handle.
Variables (display ctype namelen : Z -> Z) (colname : Z -> string).
Variable n : nat.
Hypothesis Hsvc : describes svc hstmt display ctype namelen colname (Z.of_nat n).





End EndToEnd.


(** The regions table, described and read once: the names and the first row,
    each within its arrays. *)
Lemma regions_read_in_order :
  fits 2 [(1, "1"); (6, "Europe")] ∧
  get_column_headers_str (arg_number 0) (world_of (opened regions))
    = Ret (AwkString (String.concat SUBSEP ["region_id"; "region_name"]))
          (world_of (opened regions)) ∧
  ∃ w', ODBC_fetch regions 1 (arg_number 0) None (world_of (opened regions))
        = Ret (AwkString (String.concat SUBSEP ["1"; "Europe"])) w'.
Proof.
  split; [| split; [vm_compute; reflexivity | eexists; vm_compute; reflexivity]].
  split; [| vm_compute; reflexivity].
  intros i [-> | [-> | Hi%not_elem_of_nil]%elem_of_cons]%elem_of_cons; [| | done];
    eexists _, _; (split; [reflexivity |]); simpl; lia.
Qed.

(** ** The handle tables under sequences of facade calls *)









(** Counters and connection table equal, and every cursor slot with the
    statement handle it had. *)
Definition same_handles (w w' : world) : Prop :=
  nb_odbc_connection_free_handles w' = nb_odbc_connection_free_handles w ∧
  odbc_connection_handles w' = odbc_connection_handles w ∧
  nb_odbc_cursor_free_handles w' = nb_odbc_cursor_free_handles w ∧
  map hStmt (odbc_cursor_handles w') = map hStmt (odbc_cursor_handles w).

Lemma same_handles_refl w : same_handles w w.
Proof. done. Qed.

Lemma same_handles_trans w1 w2 w3 :
  same_handles w1 w2 -> same_handles w2 w3 -> same_handles w1 w3.
Proof. intros (? & ? & ? & ?) (? & ? & ? & ?). repeat split; congruence. Qed.

Lemma same_handles_tables w w' : tables w' = tables w -> same_handles w w'.
Proof. intros [= H1 H2 H3 H4]. unfold same_handles. by rewrite H1, H2, H3, H4. Qed.

Lemma same_handles_set_cursor w i c x :
  odbc_cursor_handles w !! i = Some x -> hStmt c = hStmt x ->
  same_handles w (with_cursors (nb_odbc_cursor_free_handles w)
                               (<[i := c]> (odbc_cursor_handles w)) w).
Proof.
  intros Hx Hh. repeat split; simpl.
  rewrite list_fmap_insert, Hh. apply list_insert_id. by rewrite list_lookup_fmap, Hx.
Qed.


Section Frames.

Variable svc : service.

Lemma returns_odbc c w Q :
  (∀ w1, after_calls w [c] w1 -> Q (answer svc (calls w) c) w1) ->
  returns (odbc svc c) w Q.
Proof. intros H. apply H. by split. Qed.

Lemma returns_HandleDiagnosticRecord h ht retCode w Q :
  (∀ w1 ds, after_calls w ds w1 -> Q tt w1) ->
  returns (HandleDiagnosticRecord svc h ht retCode) w Q.
Proof.
  intros H. unfold returns.
  destruct (HandleDiagnosticRecord_after svc h ht retCode w) as (w1 & ds & -> & H1 & _).
  by apply (H w1 ds).
Qed.

Lemma AllocateBindings_loop_returns hstmt k : ∀ iCol linked w,
  returns (AllocateBindings_loop svc hstmt k iCol linked) w
          (fun _ w' => tables w' = tables w).
Proof.
  induction k as [| k IH]; intros iCol linked w; simpl; [done |].
  destruct (negb (malloc_ok svc (sizeof_BINDING svc))).
  { apply returns_bind, returns_eprint. intros. apply returns_crash. }
  apply returns_TRYODBC. intros w1 ds1 H1%after_calls_tables.
  split; [by apply returns_ret |].
  apply returns_TRYODBC. intros w2 ds2 H2%after_calls_tables.
  split; [apply returns_ret; congruence |].
  destruct (negb (malloc_ok svc _)).
  { apply returns_bind, returns_eprint. intros. apply returns_crash. }
  apply returns_TRYODBC. intros w3 ds3 H3%after_calls_tables.
  split; [apply returns_ret; congruence |].
  apply returns_TRYODBC. intros w4 ds4 H4%after_calls_tables.
  split; [apply returns_ret; congruence |].
  destruct (32767 <=? iCol); [done |].
  eapply returns_weaken; [apply IH |]. simpl. intros _ w5 H5. congruence.
Qed.

Lemma get_col_headers_loop_returns hstmt ch : ∀ iCol header w,
  returns (get_col_headers_loop svc hstmt ch iCol header) w
          (fun _ w' => tables w' = tables w).
Proof.
  induction ch as [| | b next IH]; intros iCol header w; simpl; try done.
  apply returns_TRYODBC. intros w1 ds1 H1%after_calls_tables.
  split; [by apply returns_ret |].
  apply returns_bind. eapply returns_weaken; [apply IH |]. simpl.
  intros [[[next' iCol'] header'] finished] w2 H2. apply returns_ret. congruence.
Qed.

Lemma get_col_headers_returns i w :
  returns (get_col_headers svc i) w (fun _ w' => same_handles w w').
Proof.
  unfold get_col_headers.
  apply returns_bind, returns_get_cursor. intros c Hi Hc.
  apply returns_bind. eapply returns_weaken; [apply get_col_headers_loop_returns |].
  simpl. intros [[[ch iCol] header] finished] w1 H1.
  apply returns_set_cursor. intros x _ Hx.
  apply (same_handles_trans _ w1); [by apply same_handles_tables |].
  apply (same_handles_set_cursor w1 _ _ x Hx).
  injection H1 as _ _ _ H1. rewrite H1 in Hx. simpl. congruence.
Qed.

Lemma ODBC_execute_returns arg0 arg1 w :
  returns (ODBC_execute svc arg0 arg1) w (fun _ w' => same_handles w w').
Proof.
  unfold ODBC_execute.
  assert (Hfail : ∀ w1 s, same_handles w w1 ->
            returns (eprint s;; mret (AwkNumber (-1))) w1
                    (fun _ w' => same_handles w w')).
  { intros w1 s H1. apply returns_bind, returns_eprint. intros w2 H2 _ _.
    apply returns_ret, (same_handles_trans _ _ _ H1), same_handles_tables, H2. }
  destruct arg0 as [hCursor |]; [| apply Hfail, same_handles_refl].
  destruct arg1 as [statementStr |]; [| apply Hfail, same_handles_refl].
  apply returns_bind, returns_get_cursor. intros c Hi Hc.
  apply returns_bind, returns_odbc. intros w0 H0%after_calls_tables.
  assert (Hc0 : odbc_cursor_handles w0 !! Z.to_nat (num_value hCursor) = Some c).
  { injection H0 as _ _ _ ->. done. }
  assert (Hreport : returns
            (HandleDiagnosticRecord svc (hStmt c) SQL_HANDLE_STMT
               (rc (answer svc (calls w) (SQLExecDirect (hStmt c) (c_str (str_value statementStr))))))
            w0 (fun _ w' => same_handles w w')).
  { apply returns_HandleDiagnosticRecord. intros w1 ds H1%after_calls_tables.
    apply same_handles_tables. congruence. }
  destruct (rc _) eqn:Hrc; try (apply Hfail, same_handles_tables, H0).
  - apply returns_TRYODBC. intros w1 ds1 H1%after_calls_tables.
    assert (Hs1 : same_handles w w1) by (apply same_handles_tables; congruence).
    split; [by apply returns_ret |].
    destruct (0 <? _).
    + apply returns_bind. unfold AllocateBindings.
      destruct (_ <? 1).
      * apply returns_ret.
        apply returns_bind, returns_set_cursor. intros x _ Hx.
        assert (Hs2 := same_handles_set_cursor w1 (Z.to_nat (num_value hCursor))
                         (mk_CONN_STMT_HANDLE (hDbc c) (hStmt c) (pBinding c)
                            (nb_cols c) (header_length c) 0) x Hx).
        apply returns_bind. eapply returns_weaken; [apply get_col_headers_returns |].
        simpl. intros _ w3 Hs3. apply returns_ret.
        apply (same_handles_trans _ _ _ Hs1), (same_handles_trans _ _ _ (Hs2 ltac:(simpl; injection H1 as _ _ _ H1; rewrite H1, Hc0 in Hx; congruence))), Hs3.
      * eapply returns_weaken; [apply AllocateBindings_loop_returns |]. simpl.
        intros ch w2 H2.
        apply returns_bind, returns_set_cursor. intros x _ Hx.
        assert (Hs2 := same_handles_set_cursor w2 (Z.to_nat (num_value hCursor))
                         (mk_CONN_STMT_HANDLE (hDbc c) (hStmt c) ch
                            (nb_cols c) (header_length c) 0) x Hx).
        apply returns_bind. eapply returns_weaken; [apply get_col_headers_returns |].
        simpl. intros _ w3 Hs3. apply returns_ret.
        apply (same_handles_trans _ _ _ Hs1),
          (same_handles_trans _ w2); [by apply same_handles_tables |].
        apply (same_handles_trans _ _ _ (Hs2 ltac:(simpl; injection H2 as _ _ _ H2; injection H1 as _ _ _ H1; rewrite H2, H1, Hc0 in Hx; congruence))), Hs3.
    + apply returns_TRYODBC. intros w2 ds2 H2%after_calls_tables.
      assert (Hs2 : same_handles w w2) by (apply same_handles_tables; congruence).
      split; [by apply returns_ret |].
      apply returns_bind. unfold when. destruct (0 <=? _).
      * apply returns_eprint. intros w3 H3 _ _. apply returns_ret.
        apply same_handles_tables. congruence.
      * by apply returns_ret.
  - apply returns_bind. eapply returns_weaken; [apply Hreport |]. simpl.
    intros _ w1 Hs1. by apply returns_ret.
  - apply returns_bind. eapply returns_weaken; [apply Hreport |]. simpl.
    intros _ w1 Hs1. by apply returns_ret.
Qed.

End Frames.



Section Calls.

Variable svc : service.

Lemma fetch_row_returns i col_array w :
  returns (fetch_row svc i col_array) w (fun _ w' => same_handles w w').
Proof.
  unfold fetch_row.
  apply returns_bind, returns_get_cursor. intros c _ Hc.
  apply returns_TRYODBC. intros w1 ds H1%after_calls_tables.
  assert (Hs1 : same_handles w w1) by by apply same_handles_tables.
  split; [by apply returns_ret |].
  apply returns_bind, returns_set_cursor. intros x _ Hx.
  assert (x = c) as -> by (injection H1 as _ _ _ H1; rewrite H1 in Hx; congruence).
  set (row := out_row _).
  pose proof (same_handles_set_cursor w1 _
                (mk_CONN_STMT_HANDLE (hDbc c) (hStmt c) (deliver row (pBinding c))
                   (nb_cols c) (header_length c) (row_length c)) c Hx eq_refl) as Hs2.
  destruct (negb _); [| apply returns_ret; by apply (same_handles_trans _ w1)].
  apply returns_bind.
  eapply returns_weaken; [apply sum_indPtr_returns |]. simpl. intros total ? ->.
  apply returns_bind, returns_set_cursor. intros y _ Hy.
  apply returns_bind, returns_store, returns_bind.
  eapply returns_weaken; [apply fetch_loop_returns |]. simpl.
  intros out w4 [Ht4 _].
  assert (same_handles w w4).
  { apply (same_handles_trans _ _ _ Hs1), (same_handles_trans _ _ _ Hs2).
    eapply same_handles_trans; [| apply same_handles_tables, Ht4].
    by apply (same_handles_set_cursor _ _ _ y Hy); simpl in *;
      rewrite list_lookup_insert_eq in Hy by (by apply lookup_lt_Some in Hx);
      injection Hy as <-. }
  by destruct out.
Qed.

Lemma ODBC_fetch_returns nargs arg0 arg1 w :
  returns (ODBC_fetch svc nargs arg0 arg1) w (fun _ w' => same_handles w w').
Proof.
  unfold ODBC_fetch.
  assert (Hfail : ∀ w1 s, tables w1 = tables w ->
            returns (eprint s;; mret (AwkNumber (-1))) w1
                    (fun _ w' => same_handles w w')).
  { intros w1 s H1. apply returns_bind, returns_eprint. intros w2 H2 _ _.
    apply returns_ret, same_handles_tables. congruence. }
  destruct arg0 as [hCursor |]; [| by apply Hfail].
  destruct (nargs =? 2); [| apply fetch_row_returns].
  destruct arg1 as [array_param |]; [| by apply Hfail].
  apply returns_bind, returns_clear_array. intros w1 Ht1 _.
  apply returns_bind, returns_get_cursor. intros c _ Hc.
  apply returns_bind, returns_set_array_element. intros ok w2 Ht2 _.
  destruct ok; simpl; [| apply Hfail; congruence].
  eapply returns_weaken; [apply fetch_row_returns |]. simpl. intros _ w3 Hs3.
  eapply same_handles_trans; [| exact Hs3]. apply same_handles_tables. congruence.
Qed.

Lemma ODBC_get_column_headers_returns nargs arg0 arg1 w :
  returns (ODBC_get_column_headers nargs arg0 arg1) w
          (fun _ w' => tables w' = tables w).
Proof.
  unfold ODBC_get_column_headers.
  assert (Hfail : ∀ w1 s, tables w1 = tables w ->
            returns (eprint s;; mret (AwkNumber (-1))) w1
                    (fun _ w' => tables w' = tables w)).
  { intros w1 s H1. apply returns_bind, returns_eprint. intros w2 H2 _ _.
    apply returns_ret. congruence. }
  destruct (nargs =? 1).
  - unfold get_column_headers_str. destruct arg0 as [hCursor |]; [| by apply Hfail].
    apply returns_bind, returns_get_cursor. intros c _ Hc.
    apply returns_bind, returns_store, returns_bind.
    eapply returns_weaken; [apply headers_str_loop_returns |]. simpl.
    intros output ? ->. by apply returns_ret.
  - unfold get_column_headers_array.
    destruct arg0 as [hCursor |]; [| by apply Hfail].
    destruct arg1 as [array_param |]; [| by apply Hfail].
    apply returns_bind, returns_clear_array. intros w1 Ht1 _.
    apply returns_bind, returns_get_cursor. intros c _ Hc.
    apply returns_bind, returns_set_array_element. intros ok w2 Ht2 _.
    rewrite Ht1 in Ht2.
    destruct ok; simpl; [| by apply Hfail].
    apply returns_bind, returns_create_array. intros a1 w3 Ht3 _. rewrite Ht2 in Ht3.
    apply returns_bind, returns_set_array_element. intros ok w4 Ht4 _. rewrite Ht3 in Ht4.
    destruct ok; simpl; [| by apply Hfail].
    apply returns_bind, returns_create_array. intros a2 w5 Ht5 _. rewrite Ht4 in Ht5.
    apply returns_bind, returns_set_array_element. intros ok w6 Ht6 _. rewrite Ht5 in Ht6.
    destruct ok; simpl; [| by apply Hfail].
    apply returns_bind, returns_create_array. intros a3 w7 Ht7 _. rewrite Ht6 in Ht7.
    apply returns_bind, returns_set_array_element. intros ok w8 Ht8 _. rewrite Ht7 in Ht8.
    destruct ok; simpl; [| by apply Hfail].
    apply returns_bind.
    eapply returns_weaken; [apply headers_array_loop_returns |]. simpl.
    intros out w9 [Ht9 _]. rewrite Ht8 in Ht9. by destruct out.
Qed.

Lemma ODBC_rewind_returns arg0 w :
  returns (ODBC_rewind svc arg0) w (fun _ w' => tables w' = tables w).
Proof.
  unfold ODBC_rewind. destruct arg0 as [hCursor |].
  2: { apply returns_bind, returns_eprint. intros w1 H1 _ _. by apply returns_ret. }
  apply returns_bind, returns_get_cursor. intros c _ Hc.
  apply returns_TRYODBC. intros w1 ds1 H1%after_calls_tables.
  split; [by apply returns_ret |].
  apply returns_bind, returns_get_cursor. intros c1 _ Hc1.
  apply returns_TRYODBC. intros w2 ds2 H2%after_calls_tables.
  split; apply returns_ret; congruence.
Qed.

(** *** Taking a slot *)




End Calls.

(** *** Counting *)












(** *** The facade calls, one by one *)

Section Balance.

Variable svc : service.







End Balance.

(** *** Sequences of facade calls *)

Inductive facade_call :=
| call_connect (arg0 arg1 arg2 : option awk_value_t)
| call_cursor (arg0 : option awk_value_t)
| call_execute (arg0 arg1 : option awk_value_t)
| call_get_column_headers (nargs : Z) (arg0 arg1 : option awk_value_t)
| call_fetch (nargs : Z) (arg0 arg1 : option awk_value_t)
| call_rewind (arg0 : option awk_value_t)
| call_close_cursor (arg0 : option awk_value_t)
| call_disconnect (arg0 : option awk_value_t).

Definition facade (svc : service) (c : facade_call) : M awk_value :=
  match c with
  | call_connect arg0 arg1 arg2 => ODBC_connect svc arg0 arg1 arg2
  | call_cursor arg0 => ODBC_cursor svc arg0
  | call_execute arg0 arg1 => ODBC_execute svc arg0 arg1
  | call_get_column_headers nargs arg0 arg1 => ODBC_get_column_headers nargs arg0 arg1
  | call_fetch nargs arg0 arg1 => ODBC_fetch svc nargs arg0 arg1
  | call_rewind arg0 => ODBC_rewind svc arg0
  | call_close_cursor arg0 => ODBC_close_cursor svc arg0
  | call_disconnect arg0 => ODBC_disconnect svc arg0
  end.




Section Sequences.

Variable svc : service.





End Sequences.






(** * The rest of the extension

    The loader, and what the facade functions do on the paths the sections
    above did not follow. *)

Definition with_environment (h : handle) (initialized : bool) (w : world) : world :=
  mk_world (bDebug w) h
           (nb_odbc_connection_free_handles w) (odbc_connection_handles w)
           (nb_odbc_cursor_free_handles w) (odbc_cursor_handles w)
           initialized (calls w) (stderr w) (arrays w).

Section Loader.

Variable svc : service.

(** [for (i = ...; i < MAX_ODBC_CURSORS; i++) if (odbc_cursor_handles[i].hStmt)
    close_cursor(i);] with [n] rounds to go. *)
Fixpoint close_cursors (n : nat) (i : Z) : M unit :=
  match n with
  | O => mret tt
  | S n' =>
      c ← get_cursor i;
      when (negb (hStmt c =? NULL)) (close_cursor svc i);;
      close_cursors n' (i + 1)
  end.

Fixpoint disconnect_connections (n : nat) (i : Z) : M unit :=
  match n with
  | O => mret tt
  | S n' =>
      w ← get;
      h ← at_index (odbc_connection_handles w) i;
      when (negb (h =? NULL)) (disconnect svc i);;
      disconnect_connections n' (i + 1)
  end.

(** [register_ext_version] belongs to gawk and leaves the extension's data
    alone. *)
Definition init_odbc : M bool :=
  let allocate : M bool :=
    r ← odbc svc (SQLAllocHandle SQL_HANDLE_ENV NULL);
    w ← get;
    modify (with_environment (out_handle r) (bODBC_initialized w));;
    if is_SQL_ERROR (rc r) then
      eprint ("Unable to allocate an environment handle" +:+ nl);;
      mret false
    else
      w ← get;
      TRYODBC svc "init_odbc" (hEnv w) SQL_HANDLE_ENV (SQLSetEnvAttr_ODBC3 (hEnv w))
              (mret false)
        (fun _ =>
           modify (with_connections MAX_ODBC_CONNECTIONS
                     (replicate (Z.to_nat MAX_ODBC_CONNECTIONS) NULL));;
           modify (with_cursors MAX_ODBC_CURSORS
                     (replicate (Z.to_nat MAX_ODBC_CURSORS) empty_cursor));;
           w ← get;
           modify (with_environment (hEnv w) true);;
           mret true) in
  w ← get;
  if bODBC_initialized w then
    close_cursors (Z.to_nat MAX_ODBC_CURSORS) 0;;
    disconnect_connections (Z.to_nat MAX_ODBC_CONNECTIONS) 0;;
    w ← get;
    TRYODBC svc "init_odbc" (hEnv w) SQL_HANDLE_ENV
            (SQLFreeHandle SQL_HANDLE_ENV (hEnv w))
            (mret false)
      (fun _ => allocate)
  else allocate.

End Loader.

(** ** Opening connections and cursors *)

Lemma first_free_lowest {A} (is_free : A -> bool) t : ∀ k i,
  first_free is_free t k = Some i ->
  ∀ j x, (j < Z.to_nat (i - k))%nat -> t !! j = Some x -> is_free x = false.
Proof.
  induction t as [| y t IH]; intros k i; simpl; [discriminate |].
  destruct (is_free y) eqn:E.
  - intros [= <-] j x Hj. lia.
  - intros H j x Hj Hx. destruct j as [| j]; simpl in Hx.
    + by injection Hx as <-.
    + apply (IH _ _ H j x); [| done].
      destruct (first_free_Some _ _ _ _ H) as [Hk _]. lia.
Qed.

Section Opening.

Variable svc : service.

(** A call that ends in SQL_SUCCESS is all the macro does. *)
Lemma TRYODBC_success {A} func h ht x (Exit : M A) (k : reply -> M A) w :
  rc (answer svc (calls w) x) = SQL_SUCCESS ->
  TRYODBC svc func h ht x Exit k w
  = k (answer svc (calls w) x) (with_calls (calls w ++ [x]) w).
Proof. intros H. unfold TRYODBC, odbc. munfold. simpl. by rewrite H. Qed.

Lemma ODBC_connect_success w connectionString user_name password i :
  well_formed w ->
  nb_odbc_connection_free_handles w ≠ 0 ->
  first_free (fun h => h =? NULL) (odbc_connection_handles w) 0 = Some i ->
  let alloc := SQLAllocHandle SQL_HANDLE_DBC (hEnv w) in
  let r := answer svc (calls w) alloc in
  let open := SQLConnect (out_handle r) (c_str (str_value connectionString))
                         (c_str (str_value user_name)) (c_str (str_value password)) in
  rc r ≠ SQL_ERROR ->
  (∀ history, rc (answer svc history open) ≠ SQL_ERROR) ->
  ∃ w' ds1 ds2,
    ODBC_connect svc (Some connectionString) (Some user_name) (Some password) w
      = Ret (AwkNumber i) w' ∧
    tables w' = (nb_odbc_connection_free_handles w - 1,
                 <[Z.to_nat i := out_handle r]> (odbc_connection_handles w),
                 nb_odbc_cursor_free_handles w, odbc_cursor_handles w) ∧
    calls w' = calls w ++ alloc :: ds1 ++ open :: ds2 ∧
    forallb is_diag ds1 = true ∧ forallb is_diag ds2 = true ∧
    arrays w' = arrays w.
Proof.
  intros (_ & _ & Hnb & _) Hn Hi alloc r open Halloc Hopen.
  destruct (first_free_Some _ _ _ _ Hi) as (Hi0 & x & Hx & _).
  rewrite Z.sub_0_r in Hx.
  unfold ODBC_connect. munfold.
  rewrite (get_odbc_connection_handle_acquires _ _ Hn Hi).
  destruct (i =? -1) eqn:E; [lia |].
  set (w0 := with_connections _ _ w).
  step_TRYODBC w1 ds1 H1 Hd1.
  replace (answer svc (calls w0) (SQLAllocHandle SQL_HANDLE_DBC (hEnv w0))) with r
    by (destruct w; reflexivity).
  rewrite (not_SQL_ERROR _ Halloc).
  destruct (after_calls_fields _ _ _ H1) as (_ & _ & Hn1 & Ht1 & Hk1 & Hc1 & Ha1).
  munfold.
  erewrite set_connection_Some; [| done | by rewrite Ht1].
  set (w2 := with_connections _ _ w1).
  step_TRYODBC w3 ds2 H3 Hd3. fold open.
  rewrite (not_SQL_ERROR _ (Hopen _)).
  exists w3, ds1, ds2. split; [done |].
  destruct (after_calls_fields _ _ _ H3) as (_ & _ & Hn3 & Ht3 & Hk3 & Hc3 & Ha3).
  destruct H1 as [_ H1]. destruct H3 as [_ H3].
  assert (Harr : arrays w3 = arrays w).
  { rewrite Ha3. subst w2. simpl. rewrite Ha1. by subst w0. }
  repeat split; try done.
  - unfold tables. rewrite Hn3, Ht3, Hk3, Hc3. subst w2. simpl.
    rewrite Hn1, Ht1, Hk1, Hc1. subst w0. simpl.
    rewrite to_uint32_id by lia. done.
  - rewrite H3. subst w2. simpl. rewrite H1. subst w0. simpl.
    by rewrite <- app_assoc.
Qed.

(** X1: a connect whose session is allocated and opened without SQL_ERROR
    returns the lowest index whose slot is empty, stores the session handle
    there and lowers the free counter by one; the rest of the tables stays,
    and the service sees the allocation and then the opening, with the
    caller's three strings as C strings, each up to its first NUL. *)
Theorem ODBC_connect_opens w connectionString user_name password i :
  well_formed w ->
  nb_odbc_connection_free_handles w ≠ 0 ->
  first_free (fun h => h =? NULL) (odbc_connection_handles w) 0 = Some i ->
  let alloc := SQLAllocHandle SQL_HANDLE_DBC (hEnv w) in
  let r := answer svc (calls w) alloc in
  let open := SQLConnect (out_handle r) (c_str (str_value connectionString))
                         (c_str (str_value user_name)) (c_str (str_value password)) in
  rc r ≠ SQL_ERROR ->
  (∀ history, rc (answer svc history open) ≠ SQL_ERROR) ->
  ∃ w' ds1 ds2,
    ODBC_connect svc (Some connectionString) (Some user_name) (Some password) w
      = Ret (AwkNumber i) w' ∧
    (∀ j h, (j < Z.to_nat i)%nat -> odbc_connection_handles w !! j = Some h -> h ≠ NULL) ∧
    odbc_connection_handles w !! Z.to_nat i = Some NULL ∧
    tables w' = (nb_odbc_connection_free_handles w - 1,
                 <[Z.to_nat i := out_handle r]> (odbc_connection_handles w),
                 nb_odbc_cursor_free_handles w, odbc_cursor_handles w) ∧
    calls w' = calls w ++ alloc :: ds1 ++ open :: ds2 ∧
    forallb is_diag ds1 = true ∧ forallb is_diag ds2 = true.
Proof.
  intros Hw Hn Hi alloc r open Halloc Hopen.
  destruct (ODBC_connect_success w connectionString user_name password i
              Hw Hn Hi Halloc Hopen) as (w' & ds1 & ds2 & Hrun & Ht & Hc & Hd1 & Hd2 & _).
  exists w', ds1, ds2. split; [done |]. split; [| split; [| done]].
  - intros j h Hj Hh ->.
    pose proof (first_free_lowest _ _ _ _ Hi j NULL) as Hlow.
    rewrite Z.sub_0_r in Hlow. specialize (Hlow Hj Hh). done.
  - destruct (first_free_Some _ _ _ _ Hi) as (_ & x & Hx & Hnull).
    rewrite Z.sub_0_r in Hx. apply Z.eqb_eq in Hnull. by subst x.
Qed.

End Opening.

Lemma ODBC_connect_opens_witness :
  ∃ w' ds1 ds2,
    ODBC_connect regions (arg_string "testdb") (arg_string "u") (arg_string "p")
                 (connected regions) = Ret (AwkNumber 1) w' ∧
    (∀ j h, (j < Z.to_nat 1)%nat ->
            odbc_connection_handles (connected regions) !! j = Some h -> h ≠ NULL) ∧
    odbc_connection_handles (connected regions) !! Z.to_nat 1 = Some NULL ∧
    tables w' = (99 - 1,
                 <[Z.to_nat 1 := 1003]> (odbc_connection_handles (connected regions)),
                 nb_odbc_cursor_free_handles (connected regions),
                 odbc_cursor_handles (connected regions)) ∧
    calls w' = calls (connected regions) ++
               SQLAllocHandle SQL_HANDLE_DBC 1 :: ds1 ++
               SQLConnect 1003 "testdb" "u" "p" :: ds2 ∧
    forallb is_diag ds1 = true ∧ forallb is_diag ds2 = true.
Proof.
  apply (ODBC_connect_opens regions (connected regions) (mk_awk_value_t 0 "testdb" 0)
           (mk_awk_value_t 0 "u" 0) (mk_awk_value_t 0 "p" 0) 1).
  - vm_compute. repeat split; discriminate.
  - vm_compute. discriminate.
  - vm_compute. reflexivity.
  - vm_compute. discriminate.
  - intros history. vm_compute. discriminate.
Defined.

Section Acquiring.

Variable svc : service.

(** X2: with no free slot counted, connect and get-cursor return -1 at once:
    the service is not contacted and the tables stay as they are; two lines
    go to stderr. *)
Theorem handle_tables_exhausted :
  (∀ w connectionString arg1 arg2,
     nb_odbc_connection_free_handles w = 0 ->
     ∃ w', ODBC_connect svc (Some connectionString) arg1 arg2 w
             = Ret (AwkNumber (-1)) w' ∧
           after_calls w [] w' ∧
           stderr w' = stderr w ++
             ["maximum of open connections [100] reached, no free handles !" +:+ nl;
              "cannot open new connection to [" +:+ c_str (str_value connectionString)
                +:+ "]" +:+ nl]) ∧
  (∀ w hConnection,
     nb_odbc_cursor_free_handles w = 0 ->
     0 <= num_value hConnection < 2 ^ 31 ->
     ∃ w', ODBC_cursor svc (Some hConnection) w = Ret (AwkNumber (-1)) w' ∧
           after_calls w [] w' ∧
           stderr w' = stderr w ++
             ["maximum of open cursors [100] reached, no free handles !" +:+ nl;
              "cannot get a new cursor for connection handle ["
                +:+ dec (num_value hConnection) +:+ "]" +:+ nl]).
Proof.
  split.
  - intros w connectionString arg1 arg2 Hn.
    unfold ODBC_connect, get_odbc_connection_handle, eprint. munfold.
    rewrite Hn. simpl. eexists. split; [reflexivity |]. split.
    + split; [done |]. simpl. by rewrite app_nil_r.
    + simpl. by rewrite <- app_assoc.
  - intros w hConnection Hn _.
    unfold ODBC_cursor, get_odbc_cursor_handle, eprint. munfold.
    rewrite Hn. simpl. eexists. split; [reflexivity |]. split.
    + split; [done |]. simpl. by rewrite app_nil_r.
    + simpl. by rewrite <- app_assoc.
Qed.

(** X3: connect takes its slot before it looks at the user name and the
    password: when one of them is missing it returns -1 without contacting
    the service and without filling a slot, and the free counter is one
    lower than before. *)
Theorem ODBC_connect_missing_credentials w connectionString arg1 arg2 i :
  well_formed w ->
  nb_odbc_connection_free_handles w ≠ 0 ->
  first_free (fun h => h =? NULL) (odbc_connection_handles w) 0 = Some i ->
  arg1 = None ∨ arg2 = None ->
  ∃ w', ODBC_connect svc (Some connectionString) arg1 arg2 w = Ret (AwkNumber (-1)) w' ∧
        calls w' = calls w ∧
        odbc_connection_handles w' = odbc_connection_handles w ∧
        nb_odbc_connection_free_handles w' = nb_odbc_connection_free_handles w - 1.
Proof.
  intros (_ & _ & Hnb & _) Hn Hi Hmissing.
  destruct (first_free_Some _ _ _ _ Hi) as (Hi0 & _).
  unfold ODBC_connect. munfold.
  rewrite (get_odbc_connection_handle_acquires _ _ Hn Hi).
  destruct (i =? -1) eqn:E; [lia |].
  assert (Hcount : to_uint32 (nb_odbc_connection_free_handles w - 1)
                   = nb_odbc_connection_free_handles w - 1)
    by (apply to_uint32_id; lia).
  destruct arg1 as [user_name |].
  - destruct arg2 as [password |]; [by destruct Hmissing |].
    eexists. split; [reflexivity |]. by destruct w.
  - eexists. split; [reflexivity |]. by destruct w.
Qed.

Lemma get_odbc_cursor_handle_acquires w i :
  nb_odbc_cursor_free_handles w ≠ 0 ->
  first_free (fun c => hStmt c =? NULL) (odbc_cursor_handles w) 0 = Some i ->
  get_odbc_cursor_handle w =
  Ret i (with_cursors (to_uint32 (nb_odbc_cursor_free_handles w - 1))
                      (odbc_cursor_handles w) w).
Proof.
  intros Hn Hi. unfold get_odbc_cursor_handle. munfold.
  destruct (_ =? 0) eqn:E; [lia |]. by rewrite Hi.
Qed.

Lemma ODBC_cursor_success w hConnection hdbc i :
  well_formed w ->
  nb_odbc_cursor_free_handles w ≠ 0 ->
  first_free (fun c => hStmt c =? NULL) (odbc_cursor_handles w) 0 = Some i ->
  0 <= num_value hConnection ->
  odbc_connection_handles w !! Z.to_nat (num_value hConnection) = Some hdbc ->
  let alloc := SQLAllocHandle SQL_HANDLE_STMT hdbc in
  let r := answer svc (calls w) alloc in
  rc r ≠ SQL_ERROR ->
  ∃ w' ds,
    ODBC_cursor svc (Some hConnection) w = Ret (AwkNumber i) w' ∧
    tables w' = (nb_odbc_connection_free_handles w, odbc_connection_handles w,
                 nb_odbc_cursor_free_handles w - 1,
                 <[Z.to_nat i := mk_CONN_STMT_HANDLE hdbc (out_handle r) Null 0 0 0]>
                   (odbc_cursor_handles w)) ∧
    calls w' = calls w ++ alloc :: ds ++ [SQLSetStmtAttr_SCROLLABLE (out_handle r)] ∧
    forallb is_diag ds = true.
Proof.
  intros (_ & _ & _ & Hnb) Hn Hi Hc Hh alloc r Halloc.
  destruct (first_free_Some _ _ _ _ Hi) as (Hi0 & x & Hx & _).
  rewrite Z.sub_0_r in Hx.
  unfold ODBC_cursor. munfold.
  rewrite (get_odbc_cursor_handle_acquires _ _ Hn Hi).
  destruct (i =? -1) eqn:E; [lia |].
  set (w0 := with_cursors _ _ w).
  rewrite (at_index_Some (odbc_connection_handles w0) _ hdbc w0 Hc)
    by (by destruct w).
  step_TRYODBC w1 ds H1 Hd1.
  replace (answer svc (calls w0) (SQLAllocHandle SQL_HANDLE_STMT hdbc)) with r
    by (destruct w; reflexivity).
  rewrite (not_SQL_ERROR _ Halloc).
  destruct (after_calls_fields _ _ _ H1) as (_ & _ & Hn1 & Ht1 & Hk1 & Hc1 & _).
  munfold.
  erewrite set_cursor_Some; [| done | by rewrite Hc1].
  unfold odbc. simpl.
  eexists _, ds. split; [reflexivity |].
  destruct H1 as [_ H1].
  repeat split; try done; simpl.
  - unfold tables. simpl. rewrite Hn1, Ht1, Hk1, Hc1. subst w0. simpl.
    rewrite to_uint32_id by lia. done.
  - rewrite H1. subst w0. simpl. by rewrite <- app_assoc.
Qed.

(** X4: a get-cursor whose statement is allocated without SQL_ERROR returns
    the lowest index whose cursor slot is empty, fills the slot with the
    connection's session handle, the new statement handle and no bindings,
    and lowers the cursor counter by one.  The request for a scrollable
    cursor comes last, and its outcome is not looked at. *)
Theorem ODBC_cursor_opens w hConnection hdbc i :
  well_formed w ->
  nb_odbc_cursor_free_handles w ≠ 0 ->
  first_free (fun c => hStmt c =? NULL) (odbc_cursor_handles w) 0 = Some i ->
  0 <= num_value hConnection ->
  odbc_connection_handles w !! Z.to_nat (num_value hConnection) = Some hdbc ->
  let alloc := SQLAllocHandle SQL_HANDLE_STMT hdbc in
  let r := answer svc (calls w) alloc in
  rc r ≠ SQL_ERROR ->
  ∃ w' ds,
    ODBC_cursor svc (Some hConnection) w = Ret (AwkNumber i) w' ∧
    (∀ j c, (j < Z.to_nat i)%nat -> odbc_cursor_handles w !! j = Some c ->
            hStmt c ≠ NULL) ∧
    tables w' = (nb_odbc_connection_free_handles w, odbc_connection_handles w,
                 nb_odbc_cursor_free_handles w - 1,
                 <[Z.to_nat i := mk_CONN_STMT_HANDLE hdbc (out_handle r) Null 0 0 0]>
                   (odbc_cursor_handles w)) ∧
    calls w' = calls w ++ alloc :: ds ++ [SQLSetStmtAttr_SCROLLABLE (out_handle r)] ∧
    forallb is_diag ds = true.
Proof.
  intros Hw Hn Hi Hc Hh alloc r Halloc.
  destruct (ODBC_cursor_success w hConnection hdbc i Hw Hn Hi Hc Hh Halloc)
    as (w' & ds & Hrun & Ht & Hcalls & Hd).
  exists w', ds. split; [done |]. split; [| done].
  intros j c Hj Hcj Hnull.
  pose proof (first_free_lowest _ _ _ _ Hi j c) as Hlow.
  rewrite Z.sub_0_r in Hlow. specialize (Hlow Hj Hcj). simpl in Hlow.
  rewrite Hnull in Hlow. done.
Qed.

(** X5: a get-cursor whose statement allocation ends in SQL_ERROR returns -1
    with the cursor table as it was and the cursor counter one lower: the
    slot it took is not given back. *)
Theorem ODBC_cursor_failure_keeps_slot w hConnection hdbc i :
  well_formed w ->
  nb_odbc_cursor_free_handles w ≠ 0 ->
  first_free (fun c => hStmt c =? NULL) (odbc_cursor_handles w) 0 = Some i ->
  0 <= num_value hConnection ->
  odbc_connection_handles w !! Z.to_nat (num_value hConnection) = Some hdbc ->
  rc (answer svc (calls w) (SQLAllocHandle SQL_HANDLE_STMT hdbc)) = SQL_ERROR ->
  ∃ w', ODBC_cursor svc (Some hConnection) w = Ret (AwkNumber (-1)) w' ∧
        odbc_cursor_handles w' = odbc_cursor_handles w ∧
        nb_odbc_cursor_free_handles w' = nb_odbc_cursor_free_handles w - 1 ∧
        nb_odbc_connection_free_handles w' = nb_odbc_connection_free_handles w ∧
        odbc_connection_handles w' = odbc_connection_handles w.
Proof.
  intros (_ & _ & _ & Hnb) Hn Hi Hc Hh Halloc.
  destruct (first_free_Some _ _ _ _ Hi) as (Hi0 & _).
  unfold ODBC_cursor. munfold.
  rewrite (get_odbc_cursor_handle_acquires _ _ Hn Hi).
  destruct (i =? -1) eqn:E; [lia |].
  set (w0 := with_cursors _ _ w).
  rewrite (at_index_Some (odbc_connection_handles w0) _ hdbc w0 Hc)
    by (by destruct w).
  step_TRYODBC w1 ds H1 Hd1.
  replace (answer svc (calls w0) (SQLAllocHandle SQL_HANDLE_STMT hdbc))
    with (answer svc (calls w) (SQLAllocHandle SQL_HANDLE_STMT hdbc))
    by (destruct w; reflexivity).
  rewrite Halloc. simpl. munfold.
  exists w1. split; [done |].
  destruct (after_calls_fields _ _ _ H1) as (_ & _ & Hn1 & Ht1 & Hk1 & Hc1 & _).
  rewrite Hn1, Ht1, Hk1, Hc1. subst w0. simpl.
  rewrite to_uint32_id by lia. done.
Qed.

End Acquiring.

(** The regions service with every slot counted as taken. *)
Lemma handle_tables_exhausted_witness :
  ∃ w', ODBC_connect regions (arg_string "testdb") (arg_string "u") (arg_string "p")
          (with_connections 0 (replicate 100 1001) (loaded 1 false))
        = Ret (AwkNumber (-1)) w' ∧
        after_calls (with_connections 0 (replicate 100 1001) (loaded 1 false)) [] w' ∧
        stderr w' = [] ++
          ["maximum of open connections [100] reached, no free handles !" +:+ nl;
           "cannot open new connection to [" +:+ "testdb" +:+ "]" +:+ nl].
Proof.
  apply (proj1 (handle_tables_exhausted regions)
           (with_connections 0 (replicate 100 1001) (loaded 1 false))
           (mk_awk_value_t 0 "testdb" 0)).
  reflexivity.
Defined.

Lemma ODBC_connect_missing_credentials_witness :
  ∃ w', ODBC_connect regions (arg_string "testdb") (arg_string "u") None (loaded 1 false)
        = Ret (AwkNumber (-1)) w' ∧
        calls w' = [] ∧
        odbc_connection_handles w' = replicate 100 NULL ∧
        nb_odbc_connection_free_handles w' = 100 - 1.
Proof.
  apply (ODBC_connect_missing_credentials regions (loaded 1 false)
           (mk_awk_value_t 0 "testdb" 0) (arg_string "u") None 0).
  - apply loaded_well_formed.
  - vm_compute. discriminate.
  - reflexivity.
  - by right.
Defined.

Lemma ODBC_cursor_opens_witness :
  ∃ w' ds,
    ODBC_cursor regions (arg_number 0) (connected regions) = Ret (AwkNumber 1) w' ∧
    (∀ j c, (j < Z.to_nat 1)%nat ->
            odbc_cursor_handles (connected regions) !! j = Some c -> hStmt c ≠ NULL) ∧
    tables w' = (nb_odbc_connection_free_handles (connected regions),
                 odbc_connection_handles (connected regions),
                 99 - 1,
                 <[Z.to_nat 1 := mk_CONN_STMT_HANDLE 1001 1003 Null 0 0 0]>
                   (odbc_cursor_handles (connected regions))) ∧
    calls w' = calls (connected regions) ++
               SQLAllocHandle SQL_HANDLE_STMT 1001 :: ds ++
               [SQLSetStmtAttr_SCROLLABLE 1003] ∧
    forallb is_diag ds = true.
Proof.
  apply (ODBC_cursor_opens regions (connected regions) (mk_awk_value_t 0 "0" 0) 1001 1).
  - vm_compute. repeat split; discriminate.
  - vm_compute. discriminate.
  - vm_compute. reflexivity.
  - simpl. lia.
  - vm_compute. reflexivity.
  - vm_compute. discriminate.
Defined.

(** A data source that hands out sessions but no statements. *)
Definition no_statements : service :=
  mk_service (fun history c =>
                match c with
                | SQLAllocHandle SQL_HANDLE_STMT _ => reply_rc SQL_ERROR
                | _ => table_answer [] [] history c
                end)
             (fun _ _ _ => []) SQL_SUCCESS_WITH_INFO (fun _ => true) 4 48.

Lemma ODBC_cursor_failure_keeps_slot_witness :
  ∃ w', ODBC_cursor no_statements (arg_number 0) (loaded 1 false)
        = Ret (AwkNumber (-1)) w' ∧
        odbc_cursor_handles w' = replicate 100 empty_cursor ∧
        nb_odbc_cursor_free_handles w' = 100 - 1 ∧
        nb_odbc_connection_free_handles w' = 100 ∧
        odbc_connection_handles w' = replicate 100 NULL.
Proof.
  apply (ODBC_cursor_failure_keeps_slot no_statements (loaded 1 false)
           (mk_awk_value_t 0 "0" 0) NULL 0).
  - apply loaded_well_formed.
  - vm_compute. discriminate.
  - reflexivity.
  - simpl. lia.
  - reflexivity.
  - reflexivity.
Defined.

(** ** Releasing, and the round trips *)

(** Every binding of the chain has its buffer and its name, and the chain
    ends in NULL: what [free] is handed is a pointer malloc or wcsdup gave. *)
Fixpoint freeable (ch : chain) : Prop :=
  match ch with
  | Null => True
  | Dangling => False
  | Node b next => is_Some (wszBuffer b) ∧ is_Some (pColName b) ∧ freeable next
  end.

Lemma free_chain_freeable ch : ∀ w, freeable ch -> free_chain ch w = Ret tt w.
Proof.
  induction ch as [| | b next IH]; intros w; simpl; try done.
  intros ([buf ->] & [name ->] & Hnext). simpl. munfold. by apply IH.
Qed.

Section Releasing.

Variable svc : service.

Lemma close_cursor_slot i c w :
  well_formed w ->
  0 <= i -> odbc_cursor_handles w !! Z.to_nat i = Some c ->
  freeable (pBinding c) ->
  let close := SQLFreeStmt_CLOSE (hStmt c) in
  let free := SQLFreeHandle SQL_HANDLE_STMT (hStmt c) in
  rc (answer svc (calls w) close) ≠ SQL_ERROR ->
  (∀ history, rc (answer svc history free) ≠ SQL_ERROR) ->
  ∃ w' ds1 ds2,
    close_cursor svc i w = Ret tt w' ∧
    tables w' = (nb_odbc_connection_free_handles w, odbc_connection_handles w,
                 to_uint32 (nb_odbc_cursor_free_handles w + 1),
                 <[Z.to_nat i := empty_cursor]> (odbc_cursor_handles w)) ∧
    calls w' = calls w ++ close :: ds1 ++
               (if hStmt c =? NULL then [] else free :: ds2) ∧
    forallb is_diag ds1 = true ∧ forallb is_diag ds2 = true.
Proof.
  intros Hw Hi Hc Hfree close free Hclose Hrelease.
  unfold close_cursor. munfold.
  rewrite (get_cursor_Some _ _ _ Hi Hc).
  step_TRYODBC w1 ds1 H1 Hd1. fold close.
  rewrite (not_SQL_ERROR _ Hclose).
  destruct (after_calls_fields _ _ _ H1) as (_ & _ & Hn1 & Ht1 & Hk1 & Hc1 & _).
  destruct H1 as [_ H1].
  destruct (hStmt c =? NULL) eqn:E; simpl.
  - rewrite (free_chain_freeable _ _ Hfree).
    erewrite set_cursor_Some; [| done | by rewrite Hc1].
    eexists _, ds1, []. split; [reflexivity |]. simpl.
    repeat split; try done.
    + unfold tables. simpl. by rewrite Hn1, Ht1, Hk1, Hc1.
    + by rewrite app_nil_r.
  - step_TRYODBC w2 ds2 H2 Hd2. fold free.
    rewrite (not_SQL_ERROR _ (Hrelease _)).
    destruct (after_calls_fields _ _ _ H2) as (_ & _ & Hn2 & Ht2 & Hk2 & Hc2 & _).
    destruct H2 as [_ H2].
    rewrite (free_chain_freeable _ _ Hfree).
    erewrite set_cursor_Some; [| done | by rewrite Hc2, Hc1].
    eexists _, ds1, ds2. split; [reflexivity |]. simpl.
    repeat split; try done.
    + unfold tables. simpl. by rewrite Hn2, Ht2, Hk2, Hc2, Hn1, Ht1, Hk1, Hc1.
    + rewrite H2, H1. by rewrite <- app_assoc.
Qed.

(** X6: a close-cursor on a slot whose bindings are complete, with neither
    native call ending in SQL_ERROR, returns 0, resets the slot to the empty
    state and raises the cursor counter by one; the statement is closed
    first and its handle freed next.  A slot that holds no statement handle
    is treated alike, except that no handle is freed: the counter goes up
    all the same. *)
Theorem ODBC_close_cursor_releases hCursor c w :
  well_formed w ->
  0 <= num_value hCursor ->
  odbc_cursor_handles w !! Z.to_nat (num_value hCursor) = Some c ->
  freeable (pBinding c) ->
  let close := SQLFreeStmt_CLOSE (hStmt c) in
  let free := SQLFreeHandle SQL_HANDLE_STMT (hStmt c) in
  rc (answer svc (calls w) close) ≠ SQL_ERROR ->
  (∀ history, rc (answer svc history free) ≠ SQL_ERROR) ->
  ∃ w' ds1 ds2,
    ODBC_close_cursor svc (Some hCursor) w = Ret (AwkNumber 0) w' ∧
    tables w' = (nb_odbc_connection_free_handles w, odbc_connection_handles w,
                 to_uint32 (nb_odbc_cursor_free_handles w + 1),
                 <[Z.to_nat (num_value hCursor) := empty_cursor]>
                   (odbc_cursor_handles w)) ∧
    calls w' = calls w ++ close :: ds1 ++
               (if hStmt c =? NULL then [] else free :: ds2) ∧
    forallb is_diag ds1 = true ∧ forallb is_diag ds2 = true.
Proof.
  intros Hw Hi Hc Hfree close free Hclose Hrelease.
  destruct (close_cursor_slot _ c w Hw Hi Hc Hfree Hclose Hrelease)
    as (w' & ds1 & ds2 & Hrun & Hrest).
  exists w', ds1, ds2. split; [| done].
  unfold ODBC_close_cursor. munfold. by rewrite Hrun.
Qed.

(** X7: connect followed by disconnect of the handle it returned.  The
    argument of disconnect is fetched as a string and read as a number, so
    that disconnect works on slot 0.  When connect returned the handle 0 the
    tables are back as they were; the session is disconnected and its handle
    freed, and the outcome of neither call is looked at.  When connect
    returned another handle, its slot keeps the new session and nothing is
    asked of the service for it: it is the session of slot 0 that is
    disconnected and freed, and slot 0 that is reset. *)
Theorem connect_disconnect_round_trip w connectionString user_name password i address :
  well_formed w ->
  nb_odbc_connection_free_handles w ≠ 0 ->
  first_free (fun h => h =? NULL) (odbc_connection_handles w) 0 = Some i ->
  let r := answer svc (calls w) (SQLAllocHandle SQL_HANDLE_DBC (hEnv w)) in
  rc r ≠ SQL_ERROR ->
  (∀ history,
     rc (answer svc history
           (SQLConnect (out_handle r) (c_str (str_value connectionString))
                       (c_str (str_value user_name))
                       (c_str (str_value password)))) ≠ SQL_ERROR) ->
  0 <= address < 2 ^ 52 ->
  ∃ w1 w2,
    ODBC_connect svc (Some connectionString) (Some user_name) (Some password) w
      = Ret (AwkNumber i) w1 ∧
    ODBC_disconnect svc (Some (as_string address (dec i))) w1 = Ret (AwkNumber 0) w2 ∧
    if i =? 0 then
      tables w2 = tables w ∧
      calls w2 = calls w1 ++
                 (if out_handle r =? NULL then []
                  else [SQLDisconnect (out_handle r);
                        SQLFreeHandle SQL_HANDLE_DBC (out_handle r)])
    else
      ∃ h, odbc_connection_handles w !! 0%nat = Some h ∧ h ≠ NULL ∧
           tables w2 = (nb_odbc_connection_free_handles w,
                        <[0%nat := NULL]>
                          (<[Z.to_nat i := out_handle r]> (odbc_connection_handles w)),
                        nb_odbc_cursor_free_handles w, odbc_cursor_handles w) ∧
           calls w2 = calls w1 ++ [SQLDisconnect h; SQLFreeHandle SQL_HANDLE_DBC h].
Proof.
  intros Hw Hn Hi r Halloc Hopen Haddress.
  destruct (ODBC_connect_success svc w connectionString user_name password i
              Hw Hn Hi Halloc Hopen) as (w1 & ds1 & ds2 & Hrun & Ht & _).
  destruct (first_free_Some _ _ _ _ Hi) as (Hi0 & x & Hx & Hnull).
  rewrite Z.sub_0_r in Hx. apply Z.eqb_eq in Hnull. subst x.
  injection Ht as Hn1 Ht1 Hk1 Hc1. fold r in Ht1.
  pose proof (as_string_slot address (dec i) Haddress) as Hslot.
  destruct Hw as (_ & _ & Hnb & _).
  assert (Hcount : to_uint32 (nb_odbc_connection_free_handles w1 + 1)
                   = nb_odbc_connection_free_handles w).
  { rewrite Hn1, to_uint32_id by lia. lia. }
  destruct (i =? 0) eqn:E.
  - assert (i = 0) as -> by lia.
    destruct (disconnect_slot svc 0 (out_handle r) w1) as
      (w2 & Hrun2 & Hn2 & Ht2 & Hk2 & Hc2 & _ & Hcalls2); [lia | |].
    { rewrite Ht1. apply list_lookup_insert_eq. by apply lookup_lt_Some in Hx. }
    exists w1, w2. split; [done |]. split.
    { unfold ODBC_disconnect. munfold. by rewrite Hslot, Hrun2. }
    split; [| done].
    unfold tables. rewrite Hn2, Ht2, Hk2, Hc2, Hcount, Ht1, Hk1, Hc1.
    unfold handle in *.
    by rewrite list_insert_insert_eq, (list_insert_id _ _ _ Hx).
  - destruct (lookup_lt_is_Some_2 (odbc_connection_handles w) 0) as [h Hh].
    { apply lookup_lt_Some in Hx. unfold handle in *. lia. }
    assert (Hne : h ≠ NULL).
    { pose proof (first_free_lowest _ _ _ _ Hi 0%nat h) as Hlow.
      apply Z.eqb_neq, Hlow; [lia | done]. }
    destruct (disconnect_slot svc 0 h w1) as
      (w2 & Hrun2 & Hn2 & Ht2 & Hk2 & Hc2 & _ & Hcalls2); [lia | |].
    { rewrite Ht1. rewrite list_lookup_insert_ne by lia. done. }
    exists w1, w2. split; [done |]. split.
    { unfold ODBC_disconnect. munfold. by rewrite Hslot, Hrun2. }
    exists h. split; [done |]. split; [done |]. split.
    + unfold tables. by rewrite Hn2, Ht2, Hk2, Hc2, Hcount, Ht1, Hk1, Hc1.
    + rewrite Hcalls2. by replace (h =? NULL) with false by (symmetry; by apply Z.eqb_neq).
Qed.

(** X8: get-cursor followed by close-cursor of the handle it returned, with
    no native call ending in SQL_ERROR, gives the counters and the connection
    table back as they were and leaves the cursor's slot in the empty
    state. *)
Theorem cursor_close_round_trip w hConnection hdbc i hCursor :
  well_formed w ->
  nb_odbc_cursor_free_handles w ≠ 0 ->
  first_free (fun c => hStmt c =? NULL) (odbc_cursor_handles w) 0 = Some i ->
  0 <= num_value hConnection ->
  odbc_connection_handles w !! Z.to_nat (num_value hConnection) = Some hdbc ->
  let r := answer svc (calls w) (SQLAllocHandle SQL_HANDLE_STMT hdbc) in
  rc r ≠ SQL_ERROR ->
  (∀ history, rc (answer svc history (SQLFreeStmt_CLOSE (out_handle r))) ≠ SQL_ERROR) ->
  (∀ history,
     rc (answer svc history (SQLFreeHandle SQL_HANDLE_STMT (out_handle r))) ≠ SQL_ERROR) ->
  num_value hCursor = i ->
  ∃ w1 w2,
    ODBC_cursor svc (Some hConnection) w = Ret (AwkNumber i) w1 ∧
    ODBC_close_cursor svc (Some hCursor) w1 = Ret (AwkNumber 0) w2 ∧
    tables w2 = (nb_odbc_connection_free_handles w, odbc_connection_handles w,
                 nb_odbc_cursor_free_handles w,
                 <[Z.to_nat i := empty_cursor]> (odbc_cursor_handles w)).
Proof.
  intros Hw Hn Hi Hc Hh r Halloc Hclose Hrelease Hcur.
  destruct (ODBC_cursor_success svc w hConnection hdbc i Hw Hn Hi Hc Hh Halloc)
    as (w1 & ds & Hrun & Ht & _).
  destruct (first_free_Some _ _ _ _ Hi) as (Hi0 & x & Hx & _).
  rewrite Z.sub_0_r in Hx.
  injection Ht as Hn1 Ht1 Hk1 Hc1. fold r in Hc1.
  assert (Hw1 : well_formed w1).
  { destruct Hw as (Hl1 & Hl2 & Hb1 & Hb2). unfold well_formed.
    rewrite Hn1, Ht1, Hk1, Hc1, length_insert. repeat split; try done; lia. }
  assert (Hslot : odbc_cursor_handles w1 !! Z.to_nat i
                  = Some (mk_CONN_STMT_HANDLE hdbc (out_handle r) Null 0 0 0)).
  { rewrite Hc1. apply list_lookup_insert_eq. by apply lookup_lt_Some in Hx. }
  destruct (close_cursor_slot i _ w1 Hw1 Hi0 Hslot I (Hclose _) Hrelease)
    as (w2 & ds1 & ds2 & Hrun2 & Ht2 & _).
  exists w1, w2. split; [done |]. split.
  { unfold ODBC_close_cursor. munfold. by rewrite Hcur, Hrun2. }
  rewrite Ht2, Hn1, Ht1, Hk1, Hc1, list_insert_insert_eq.
  destruct Hw as (_ & _ & _ & Hnb).
  rewrite to_uint32_id by lia.
  by replace (nb_odbc_cursor_free_handles w - 1 + 1)
    with (nb_odbc_cursor_free_handles w) by lia.
Qed.

(** X9: disconnect leaves the cursor table alone: the cursors opened on the
    session keep their slots, with the session handle that has just been
    freed still in them.  The session that is disconnected and freed is the
    one in slot 0, whatever handle the argument names, since the argument is
    fetched as a string and read as a number; this is done without a look at
    what the service answers, and no diagnostic record is read. *)
Theorem ODBC_disconnect_keeps_cursors address s h w :
  0 <= address < 2 ^ 52 ->
  odbc_connection_handles w !! 0%nat = Some h ->
  ∃ w', ODBC_disconnect svc (Some (as_string address s)) w = Ret (AwkNumber 0) w' ∧
        odbc_cursor_handles w' = odbc_cursor_handles w ∧
        nb_odbc_cursor_free_handles w' = nb_odbc_cursor_free_handles w ∧
        calls w' = calls w ++
                   (if h =? NULL then []
                    else [SQLDisconnect h; SQLFreeHandle SQL_HANDLE_DBC h]).
Proof.
  intros Haddress Hh.
  destruct (disconnect_slot svc 0 h w) as (w' & Hrun & _ & _ & Hk & Hc & _ & Hcalls);
    [lia | done |].
  exists w'. split; [| done].
  unfold ODBC_disconnect. munfold. by rewrite (as_string_slot _ _ Haddress), Hrun.
Qed.

End Releasing.

Lemma ODBC_close_cursor_releases_witness :
  ∃ w' ds1 ds2,
    ODBC_close_cursor regions (arg_number 0) (world_of (opened regions))
      = Ret (AwkNumber 0) w' ∧
    tables w' = (nb_odbc_connection_free_handles (world_of (opened regions)),
                 odbc_connection_handles (world_of (opened regions)),
                 to_uint32 (nb_odbc_cursor_free_handles (world_of (opened regions)) + 1),
                 <[Z.to_nat 0 := empty_cursor]>
                   (odbc_cursor_handles (world_of (opened regions)))) ∧
    calls w' = calls (world_of (opened regions)) ++
               SQLFreeStmt_CLOSE 1002 :: ds1 ++
               SQLFreeHandle SQL_HANDLE_STMT 1002 :: ds2 ∧
    forallb is_diag ds1 = true ∧ forallb is_diag ds2 = true.
Proof.
  apply (ODBC_close_cursor_releases regions (mk_awk_value_t 0 "0" 0)
           (cursor_0 (world_of (opened regions))) (world_of (opened regions))).
  - vm_compute. repeat split; discriminate.
  - simpl. lia.
  - vm_compute. reflexivity.
  - vm_compute. eauto 10.
  - vm_compute. discriminate.
  - intros history. vm_compute. discriminate.
Defined.

Lemma connect_disconnect_round_trip_witness :
  ∃ w1 w2,
    ODBC_connect regions (arg_string "testdb") (arg_string "u") (arg_string "p")
                 (loaded 1 false) = Ret (AwkNumber 0) w1 ∧
    ODBC_disconnect regions (arg_as_string 0) w1 = Ret (AwkNumber 0) w2 ∧
    tables w2 = tables (loaded 1 false) ∧
    calls w2 = calls w1 ++ [SQLDisconnect 1001; SQLFreeHandle SQL_HANDLE_DBC 1001].
Proof.
  apply (connect_disconnect_round_trip regions (loaded 1 false)
           (mk_awk_value_t 0 "testdb" 0) (mk_awk_value_t 0 "u" 0)
           (mk_awk_value_t 0 "p" 0) 0 heap).
  - apply loaded_well_formed.
  - vm_compute. discriminate.
  - reflexivity.
  - vm_compute. discriminate.
  - intros history. vm_compute. discriminate.
  - unfold heap. lia.
Defined.

Lemma cursor_close_round_trip_witness :
  ∃ w1 w2,
    ODBC_cursor regions (arg_number 0) (connected regions) = Ret (AwkNumber 1) w1 ∧
    ODBC_close_cursor regions (arg_number 1) w1 = Ret (AwkNumber 0) w2 ∧
    tables w2 = (nb_odbc_connection_free_handles (connected regions),
                 odbc_connection_handles (connected regions),
                 nb_odbc_cursor_free_handles (connected regions),
                 <[Z.to_nat 1 := empty_cursor]>
                   (odbc_cursor_handles (connected regions))).
Proof.
  apply (cursor_close_round_trip regions (connected regions) (mk_awk_value_t 0 "0" 0)
           1001 1 (mk_awk_value_t 1 "1" 0)).
  - vm_compute. repeat split; discriminate.
  - vm_compute. discriminate.
  - vm_compute. reflexivity.
  - simpl. lia.
  - vm_compute. reflexivity.
  - vm_compute. discriminate.
  - intros history. vm_compute. discriminate.
  - intros history. vm_compute. discriminate.
  - reflexivity.
Defined.

Lemma ODBC_disconnect_keeps_cursors_witness :
  ∃ w', ODBC_disconnect regions (arg_as_string 0) (world_of (opened regions))
        = Ret (AwkNumber 0) w' ∧
        odbc_cursor_handles w' = odbc_cursor_handles (world_of (opened regions)) ∧
        nb_odbc_cursor_free_handles w'
          = nb_odbc_cursor_free_handles (world_of (opened regions)) ∧
        calls w' = calls (world_of (opened regions)) ++
                   [SQLDisconnect 1001; SQLFreeHandle SQL_HANDLE_DBC 1001].
Proof.
  apply (ODBC_disconnect_keeps_cursors regions heap (dec 0) 1001
           (world_of (opened regions))).
  - unfold heap. lia.
  - vm_compute. reflexivity.
Defined.

(** ** The other outcomes of ODBC_execute *)

Lemma not_SQL_NO_DATA c : c ≠ SQL_NO_DATA -> is_SQL_NO_DATA_FOUND c = false.
Proof. by destruct c. Qed.

Section Executing.

Variable svc : service.

(** X10: a statement whose execution ends in anything but SQL_SUCCESS and
    SQL_SUCCESS_WITH_INFO makes ODBC_execute return -1 with the tables as
    they were.  After SQL_ERROR the diagnostic records are read; after any
    other status, SQL_NO_DATA included, nothing more is asked and one line
    naming the status goes to stderr. *)
Theorem ODBC_execute_failure w hCursor statementStr c :
  0 <= num_value hCursor ->
  odbc_cursor_handles w !! Z.to_nat (num_value hCursor) = Some c ->
  let exec := SQLExecDirect (hStmt c) (c_str (str_value statementStr)) in
  let status := rc (answer svc (calls w) exec) in
  status ≠ SQL_SUCCESS -> status ≠ SQL_SUCCESS_WITH_INFO ->
  ∃ w' ds,
    ODBC_execute svc (Some hCursor) (Some statementStr) w = Ret (AwkNumber (-1)) w' ∧
    tables w' = tables w ∧
    calls w' = calls w ++ exec :: ds ∧
    forallb is_diag ds = true ∧
    (status ≠ SQL_ERROR ->
     ds = [] ∧
     stderr w' = stderr w ++
       ["Unexpected return code " +:+ dec (retcode_value status) +:+ " !" +:+ nl]).
Proof.
  intros Hi Hc exec status Hs Hinfo. unfold ODBC_execute. munfold.
  rewrite (get_cursor_Some _ _ _ Hi Hc). simpl. fold exec. fold status.
  set (w0 := with_calls _ w).
  assert (Hother : status ≠ SQL_ERROR ->
            ∃ w' ds,
              (eprint ("Unexpected return code " +:+ dec (retcode_value status) +:+
                       " !" +:+ nl);; mret (AwkNumber (-1))) w0
                = Ret (AwkNumber (-1)) w' ∧
              tables w' = tables w ∧ calls w' = calls w ++ exec :: ds ∧
              forallb is_diag ds = true ∧
              (status ≠ SQL_ERROR ->
               ds = [] ∧
               stderr w' = stderr w ++
                 ["Unexpected return code " +:+ dec (retcode_value status) +:+ " !"
                    +:+ nl])).
  { intros _. eexists _, []. split; [reflexivity |]. subst w0. by destruct w. }
  destruct status eqn:E; try done; try (apply Hother; discriminate).
  destruct (HandleDiagnosticRecord_after svc (hStmt c) SQL_HANDLE_STMT SQL_ERROR w0)
    as (w1 & ds & -> & H1 & Hd).
  exists w1, ds. split; [done |].
  rewrite (after_calls_tables _ _ _ H1). destruct H1 as [_ H1]. rewrite H1.
  subst w0. simpl. rewrite <- app_assoc. by destruct w.
Qed.

(** X11: a statement that succeeds without result columns makes
    ODBC_execute return the column count it was given, ask for the number of
    affected rows and, when that number is not negative, announce it on
    stderr, whatever the debug flag; the tables, and with them the bindings
    of an earlier statement, stay as they were. *)
Theorem ODBC_execute_no_columns w hCursor statementStr c :
  0 <= num_value hCursor ->
  odbc_cursor_handles w !! Z.to_nat (num_value hCursor) = Some c ->
  let exec := SQLExecDirect (hStmt c) (c_str (str_value statementStr)) in
  let count := SQLNumResultCols (hStmt c) in
  let rows := SQLRowCount (hStmt c) in
  let cCols := to_int16 (out_number (answer svc (calls w ++ [exec]) count)) in
  let cRowCount := out_number (answer svc ((calls w ++ [exec]) ++ [count]) rows) in
  rc (answer svc (calls w) exec) = SQL_SUCCESS ->
  rc (answer svc (calls w ++ [exec]) count) = SQL_SUCCESS ->
  cCols <= 0 ->
  rc (answer svc ((calls w ++ [exec]) ++ [count]) rows) = SQL_SUCCESS ->
  ∃ w',
    ODBC_execute svc (Some hCursor) (Some statementStr) w = Ret (AwkNumber cCols) w' ∧
    tables w' = tables w ∧
    calls w' = calls w ++ [exec; count; rows] ∧
    stderr w' = stderr w ++
      (if 0 <=? cRowCount
       then [dec cRowCount +:+ " " +:+ (if cRowCount =? 1 then "row" else "rows")
               +:+ " affected" +:+ nl]
       else []).
Proof.
  intros Hi Hc exec count rows cCols cRowCount Hexec Hcount Hcols Hrows.
  unfold ODBC_execute. munfold.
  rewrite (get_cursor_Some _ _ _ Hi Hc). simpl. fold exec. rewrite Hexec.
  rewrite TRYODBC_success by (simpl; fold count; exact Hcount).
  simpl. fold count. fold cCols.
  destruct (0 <? cCols) eqn:E; [lia |].
  rewrite TRYODBC_success by (simpl; fold rows; exact Hrows).
  simpl. fold rows. fold cRowCount. munfold.
  destruct (0 <=? cRowCount); simpl.
  - eexists. split; [reflexivity |]. simpl.
    repeat split; try (by destruct w). by rewrite <- !app_assoc.
  - eexists. split; [reflexivity |]. simpl.
    repeat split; try (by destruct w).
    + by rewrite <- !app_assoc.
    + by rewrite app_nil_r.
Qed.

(** X12: when the display size of the first column cannot be had,
    AllocateBindings leaves through its Exit label with one binding
    allocated and nothing in it, and ODBC_execute goes on to read the column
    names.  If the name query succeeds, the walk continues through the
    binding's link, which nobody wrote.  If it ends in SQL_ERROR too,
    ODBC_execute returns the column count, not -1, over a cursor whose only
    binding is uninitialised and whose column counter is the one it had
    before: a fetch that finds a row then reads memory nobody wrote, and so
    does describe-columns, unless that counter is zero, in which case it
    writes into an array of no bytes. *)
Theorem ODBC_execute_binding_failure w hCursor statementStr c n name_rc :
  0 <= num_value hCursor ->
  odbc_cursor_handles w !! Z.to_nat (num_value hCursor) = Some c ->
  let exec := SQLExecDirect (hStmt c) (c_str (str_value statementStr)) in
  let count := SQLNumResultCols (hStmt c) in
  rc (answer svc (calls w) exec) = SQL_SUCCESS ->
  rc (answer svc (calls w ++ [exec]) count) = SQL_SUCCESS ->
  to_int16 (out_number (answer svc (calls w ++ [exec]) count)) = n ->
  0 < n ->
  malloc_ok svc (sizeof_BINDING svc) = true ->
  (∀ history,
     rc (answer svc history (SQLColAttribute (hStmt c) 1 SQL_DESC_DISPLAY_SIZE 0))
     = SQL_ERROR) ->
  (∀ history,
     rc (answer svc history
           (SQLColAttribute (hStmt c) 1 SQL_DESC_NAME (DISPLAY_MAX * sizeof_WCHAR svc)))
     = name_rc) ->
  if is_SQL_ERROR name_rc then
    ∃ w', ODBC_execute svc (Some hCursor) (Some statementStr) w = Ret (AwkNumber n) w' ∧
          odbc_cursor_handles w' !! Z.to_nat (num_value hCursor)
            = Some (mk_CONN_STMT_HANDLE (hDbc c) (hStmt c) (Node malloced Dangling)
                                        (nb_cols c) 0 0) ∧
          get_column_headers_str (Some hCursor) w'
            = Fault (if 0 <? to_uint32 (nb_cols c) then Uninitialised
                     else BufferOverflow) ∧
          (∀ nargs arg1,
             nargs ≠ 2 ->
             rc (answer svc (calls w') (SQLFetch (hStmt c))) ≠ SQL_ERROR ->
             rc (answer svc (calls w') (SQLFetch (hStmt c))) ≠ SQL_NO_DATA ->
             ODBC_fetch svc nargs (Some hCursor) arg1 w' = Fault Uninitialised)
  else ODBC_execute svc (Some hCursor) (Some statementStr) w = Fault Uninitialised.
Proof.
  intros Hi Hc exec count Hexec Hcount Hn Hpos Hmalloc Hsize Hname.
  assert (Hlt : (Z.to_nat (num_value hCursor) < length (odbc_cursor_handles w))%nat)
    by (by apply lookup_lt_Some in Hc).
  unfold ODBC_execute. munfold.
  rewrite (get_cursor_Some _ _ _ Hi Hc). simpl. fold exec. rewrite Hexec.
  rewrite TRYODBC_success by (simpl; fold count; exact Hcount).
  simpl. fold count. rewrite Hn.
  replace (0 <? n) with true by (symmetry; apply Z.ltb_lt; lia).
  unfold AllocateBindings.
  replace (n <? 1) with false by (symmetry; apply Z.ltb_ge; lia).
  destruct (Z.to_nat n) as [| k] eqn:Ek; [lia |].
  simpl. rewrite Hmalloc. simpl.
  step_TRYODBC w1 ds1 H1 Hd1. rewrite Hsize. simpl. munfold.
  destruct (after_calls_fields _ _ _ H1) as (_ & _ & _ & _ & _ & Ht1 & _).
  simpl in Ht1.
  erewrite set_cursor_Some; [| done | by rewrite Ht1].
  unfold get_col_headers. munfold.
  rewrite (get_cursor_Some (num_value hCursor)
             (mk_CONN_STMT_HANDLE (hDbc c) (hStmt c) (Node malloced Dangling)
                                  (nb_cols c) (header_length c) 0));
    [| done | simpl; rewrite Ht1; by apply list_lookup_insert_eq].
  simpl.
  step_TRYODBC w2 ds2 H2 Hd2. rewrite Hname.
  destruct (is_SQL_ERROR name_rc); [| done].
  munfold.
  destruct (after_calls_fields _ _ _ H2) as (_ & _ & _ & _ & _ & Ht2 & _).
  simpl in Ht2.
  erewrite set_cursor_Some;
    [| done | rewrite Ht2, Ht1; by apply list_lookup_insert_eq].
  eexists. split; [reflexivity |].
  set (slot := mk_CONN_STMT_HANDLE (hDbc c) (hStmt c) (Node malloced Dangling)
                                   (nb_cols c) 0 0).
  assert (Hslot : ∀ w3, odbc_cursor_handles w3
                    = <[Z.to_nat (num_value hCursor) := slot]> (odbc_cursor_handles w2) ->
                  odbc_cursor_handles w3 !! Z.to_nat (num_value hCursor) = Some slot).
  { intros w3 ->. apply list_lookup_insert_eq.
    by rewrite Ht2, Ht1, length_insert. }
  split; [by apply Hslot |]. split.
  - unfold get_column_headers_str. munfold.
    rewrite (get_cursor_Some (num_value hCursor) slot) by (done || by apply Hslot).
    unfold store. simpl. change (Z.of_nat 0) with 0. rewrite Z.add_0_l.
    by destruct (0 <? to_uint32 (nb_cols c)).
  - intros nargs arg1 Hnargs Herr Hend. unfold ODBC_fetch.
    replace (nargs =? 2) with false by (symmetry; by apply Z.eqb_neq).
    unfold fetch_row. munfold.
    rewrite (get_cursor_Some (num_value hCursor) slot) by (done || by apply Hslot).
    simpl.
    step_TRYODBC w4 ds4 H4 Hd4. simpl in *.
    rewrite (not_SQL_ERROR _ Herr).
    destruct (after_calls_fields _ _ _ H4) as (_ & _ & _ & _ & _ & Ht4 & _).
    munfold.
    erewrite set_cursor_Some; [| done | rewrite Ht4; by apply Hslot].
    rewrite (not_SQL_NO_DATA _ Hend). reflexivity.
Qed.

(** X13: when malloc cannot give the first binding, ODBC_execute does not
    return: it calls exit(-100). *)
Theorem ODBC_execute_out_of_memory w hCursor statementStr c :
  0 <= num_value hCursor ->
  odbc_cursor_handles w !! Z.to_nat (num_value hCursor) = Some c ->
  let exec := SQLExecDirect (hStmt c) (c_str (str_value statementStr)) in
  let count := SQLNumResultCols (hStmt c) in
  rc (answer svc (calls w) exec) = SQL_SUCCESS ->
  rc (answer svc (calls w ++ [exec]) count) = SQL_SUCCESS ->
  0 < to_int16 (out_number (answer svc (calls w ++ [exec]) count)) ->
  malloc_ok svc (sizeof_BINDING svc) = false ->
  ODBC_execute svc (Some hCursor) (Some statementStr) w = Fault (ProcessExit (-100)).
Proof.
  intros Hi Hc exec count Hexec Hcount Hpos Hmalloc.
  unfold ODBC_execute. munfold.
  rewrite (get_cursor_Some _ _ _ Hi Hc). simpl. fold exec. rewrite Hexec.
  rewrite TRYODBC_success by (simpl; fold count; exact Hcount).
  simpl. fold count.
  set (n := to_int16 _) in *.
  replace (0 <? n) with true by (symmetry; apply Z.ltb_lt; lia).
  unfold AllocateBindings.
  replace (n <? 1) with false by (symmetry; apply Z.ltb_ge; lia).
  destruct (Z.to_nat n) as [| k] eqn:Ek; [lia |].
  simpl. rewrite Hmalloc. reflexivity.
Qed.

End Executing.

(** A data source on which the statement finds nothing to work on. *)
Definition nothing_found : service :=
  mk_service (fun history c =>
                match c with
                | SQLExecDirect _ _ => reply_rc SQL_NO_DATA
                | _ => table_answer [] [] history c
                end)
             (fun _ _ _ => []) SQL_SUCCESS_WITH_INFO (fun _ => true) 4 48.

Lemma ODBC_execute_failure_witness :
  ∃ w' ds,
    ODBC_execute nothing_found (arg_number 0) (arg_string "delete from regions where 1 = 0")
                 (connected nothing_found) = Ret (AwkNumber (-1)) w' ∧
    tables w' = tables (connected nothing_found) ∧
    calls w' = calls (connected nothing_found) ++
               SQLExecDirect 1002 "delete from regions where 1 = 0" :: ds ∧
    forallb is_diag ds = true ∧
    (SQL_NO_DATA ≠ SQL_ERROR ->
     ds = [] ∧
     stderr w' = stderr (connected nothing_found) ++
       ["Unexpected return code " +:+ dec 100 +:+ " !" +:+ nl]).
Proof.
  apply (ODBC_execute_failure nothing_found (connected nothing_found)
           (mk_awk_value_t 0 "0" 0)
           (mk_awk_value_t 0 "delete from regions where 1 = 0" 0)
           (cursor_0 (connected nothing_found))).
  - simpl. lia.
  - vm_compute. reflexivity.
  - vm_compute. discriminate.
  - vm_compute. discriminate.
Defined.

(** A data source on which every statement changes one row and returns no
    result set. *)
Definition one_row_changed : service :=
  mk_service (fun history c =>
                match c with
                | SQLRowCount _ => mk_reply SQL_SUCCESS 0 1 "" 0 []
                | _ => table_answer [] [] history c
                end)
             (fun _ _ _ => []) SQL_SUCCESS_WITH_INFO (fun _ => true) 4 48.

Lemma ODBC_execute_no_columns_witness :
  ∃ w',
    ODBC_execute one_row_changed (arg_number 0)
                 (arg_string "update regions set region_name = 'Asia' where region_id = 3")
                 (connected one_row_changed) = Ret (AwkNumber 0) w' ∧
    tables w' = tables (connected one_row_changed) ∧
    calls w' = calls (connected one_row_changed) ++
               [SQLExecDirect 1002
                  "update regions set region_name = 'Asia' where region_id = 3";
                SQLNumResultCols 1002; SQLRowCount 1002] ∧
    stderr w' = stderr (connected one_row_changed) ++
                [dec 1 +:+ " " +:+ "row" +:+ " affected" +:+ nl].
Proof.
  apply (ODBC_execute_no_columns one_row_changed (connected one_row_changed)
           (mk_awk_value_t 0 "0" 0)
           (mk_awk_value_t 0 "update regions set region_name = 'Asia' where region_id = 3" 0)
           (cursor_0 (connected one_row_changed))).
  - simpl. lia.
  - vm_compute. reflexivity.
  - vm_compute. reflexivity.
  - vm_compute. reflexivity.
  - vm_compute. discriminate.
  - vm_compute. reflexivity.
Defined.

(** The regions table behind a driver that cannot describe its columns. *)
Definition no_metadata : service :=
  mk_service (fun history c =>
                match c with
                | SQLColAttribute _ _ _ _ => reply_rc SQL_ERROR
                | _ => table_answer ["region_id"; "region_name"]
                                    [[(1, "1"); (6, "Europe")]] history c
                end)
             (fun _ _ _ => []) SQL_SUCCESS_WITH_INFO (fun _ => true) 4 48.

Lemma ODBC_execute_binding_failure_witness :
  ∃ w', ODBC_execute no_metadata (arg_number 0)
                     (arg_string "select * from regions order by 1")
                     (connected no_metadata) = Ret (AwkNumber 2) w' ∧
        odbc_cursor_handles w' !! Z.to_nat 0
          = Some (mk_CONN_STMT_HANDLE 1001 1002 (Node malloced Dangling) 0 0 0) ∧
        get_column_headers_str (arg_number 0) w' = Fault BufferOverflow ∧
        (∀ nargs arg1,
           nargs ≠ 2 ->
           rc (answer no_metadata (calls w') (SQLFetch 1002)) ≠ SQL_ERROR ->
           rc (answer no_metadata (calls w') (SQLFetch 1002)) ≠ SQL_NO_DATA ->
           ODBC_fetch no_metadata nargs (arg_number 0) arg1 w' = Fault Uninitialised).
Proof.
  apply (ODBC_execute_binding_failure no_metadata (connected no_metadata)
           (mk_awk_value_t 0 "0" 0)
           (mk_awk_value_t 0 "select * from regions order by 1" 0)
           (cursor_0 (connected no_metadata)) 2 SQL_ERROR).
  - simpl. lia.
  - vm_compute. reflexivity.
  - vm_compute. reflexivity.
  - vm_compute. reflexivity.
  - vm_compute. reflexivity.
  - lia.
  - reflexivity.
  - intros history. reflexivity.
  - intros history. reflexivity.
Defined.

(** The regions table in a process that has run out of memory. *)
Definition out_of_memory : service :=
  mk_service (table_answer ["region_id"; "region_name"] [[(1, "1"); (6, "Europe")]])
             (fun _ _ _ => []) SQL_SUCCESS_WITH_INFO (fun _ => false) 4 48.

Lemma ODBC_execute_out_of_memory_witness :
  ODBC_execute out_of_memory (arg_number 0) (arg_string "select * from regions order by 1")
               (connected out_of_memory) = Fault (ProcessExit (-100)).
Proof.
  apply (ODBC_execute_out_of_memory out_of_memory (connected out_of_memory)
           (mk_awk_value_t 0 "0" 0)
           (mk_awk_value_t 0 "select * from regions order by 1" 0)
           (cursor_0 (connected out_of_memory))).
  - simpl. lia.
  - vm_compute. reflexivity.
  - vm_compute. reflexivity.
  - vm_compute. reflexivity.
  - vm_compute. reflexivity.
  - reflexivity.
Defined.

(** ** What HandleDiagnosticRecord shows *)

Lemma substring_all s : ∀ n, (String.length s <= n)%nat -> substring 0 n s = s.
Proof.
  induction s as [| a s IH]; intros n Hn; simpl in *.
  - by destruct n.
  - destruct n as [| n]; [lia |]. rewrite IH by lia. done.
Qed.

(** The records the loop shows: all but those of state 01004, "data
    truncated". *)
Definition reported (r : DIAGREC) : bool :=
  negb (String.eqb (substring 0 5 (SQLState r)) "01004").

Section Reporting.

Variable svc : service.



Lemma diag_loop_lists hType hHandle recs : ∀ iRec w,
  1 <= iRec -> iRec + Z.of_nat (length recs) <= 32767 ->
  Forall (fun r => Z.of_nat (String.length (MessageText r)) < MAX_MESSAGE_LENGTH) recs ->
  bDebug w = true ->
  ∃ w', diag_loop svc hType hHandle recs iRec w = Ret tt w' ∧
        stderr w' = stderr w ++
          map (fun r => diag_line (SQLState r) (MessageText r) (NativeError r) +:+ nl)
              (filter (fun r => reported r = true) recs) ∧
        calls w' = calls w ++
          map (fun i => SQLGetDiagRec hType hHandle i MAX_MESSAGE_LENGTH)
              (columns iRec (S (length recs))) ∧
        statics w' = statics w.
Proof.
  induction recs as [| r rest IH]; intros iRec w Hlow Hhigh Hshort Hdebug;
    simpl; munfold; simpl; rewrite to_int16_id by lia.
  - eexists. split; [reflexivity |]. simpl. split; [by rewrite app_nil_r |].
    by destruct w.
  - apply Forall_cons in Hshort as [Hr Hrest]. simpl in Hhigh.
    unfold diag_rc. unfold MAX_MESSAGE_LENGTH in *.
    replace (_ <? 1000) with true by (symmetry; apply Z.ltb_lt; lia).
    simpl.
    set (w0 := with_calls _ w).
    assert (H0 : bDebug w0 = true) by (by destruct w).
    destruct (decide (reported r = true)) as [Hyes | Hno].
    + rewrite filter_cons_True by done. unfold reported in Hyes. rewrite Hyes.
      unfold diag_textLength.
      rewrite to_int16_id by lia. rewrite to_uint32_id by lia.
      replace (1000 <? _) with false by (symmetry; apply Z.ltb_ge; lia).
      rewrite say_stderr, H0.
      unfold diag_written. rewrite substring_all by lia.
      set (w1 := with_stderr _ w0).
      destruct (IH (iRec + 1) w1) as (w' & -> & Hs & Hc & Hst);
        [lia | lia | done | by destruct w |].
      exists w'. split; [done |]. rewrite Hs, Hc, Hst. subst w1 w0.
      destruct w; simpl. rewrite <- !app_assoc. done.
    + rewrite filter_cons_False by done. unfold reported in Hno.
      apply not_true_is_false in Hno. rewrite Hno.
      destruct (IH (iRec + 1) w0) as (w' & -> & Hs & Hc & Hst);
        [lia | lia | done | done |].
      exists w'. split; [done |]. rewrite Hs, Hc, Hst. subst w0.
      destruct w; simpl. rewrite <- !app_assoc. done.
Qed.

(** X15: with the debug flag set, every message shorter than the buffer
    and every line to show, with its NUL, within the [MAX_MESSAGE_LENGTH]
    bytes of [output], HandleDiagnosticRecord shows the records of the
    handle in their order, one line each with state, message and native
    code, leaving out those of state 01004; it asks for the records 1, 2,
    ... until one is missing. *)
Theorem HandleDiagnosticRecord_lists_records w hHandle hType retCode :
  retCode ≠ SQL_INVALID_HANDLE ->
  let recs := diag_area svc (calls w) hType hHandle in
  Z.of_nat (length recs) < 32767 ->
  Forall (fun r => Z.of_nat (String.length (MessageText r)) < MAX_MESSAGE_LENGTH) recs ->
  Forall (fun r =>
            reported r = true ->
            Z.of_nat (String.length
                        (diag_line (SQLState r) (MessageText r) (NativeError r)))
            < MAX_MESSAGE_LENGTH) recs ->
  bDebug w = true ->
  ∃ w', HandleDiagnosticRecord svc hHandle hType retCode w = Ret tt w' ∧
        stderr w' = stderr w ++
          map (fun r => diag_line (SQLState r) (MessageText r) (NativeError r) +:+ nl)
              (filter (fun r => reported r = true) recs) ∧
        calls w' = calls w ++
          map (fun i => SQLGetDiagRec hType hHandle i MAX_MESSAGE_LENGTH)
              (columns 1 (S (length recs))) ∧
        statics w' = statics w.
Proof.
  intros Hrc recs Hlen Hshort _ Hdebug. unfold HandleDiagnosticRecord.
  replace (is_SQL_INVALID_HANDLE retCode) with false by (by destruct retCode).
  munfold. fold recs.
  rewrite take_ge by lia.
  apply diag_loop_lists; try done; lia.
Qed.

End Reporting.

(** Two errors and, between them, a truncation warning. *)
Definition three_records : service :=
  mk_service (fun _ _ => reply_rc SQL_ERROR)
             (fun _ _ _ => [mk_diag "42S02" 208 "Invalid object name 'regions'.";
                            mk_diag "01004" 0 "String data, right truncation";
                            mk_diag "42000" 8180 "Statement(s) could not be prepared."])
             SQL_SUCCESS_WITH_INFO (fun _ => true) 4 48.


Lemma HandleDiagnosticRecord_lists_records_witness :
  ∃ w', HandleDiagnosticRecord three_records 1002 SQL_HANDLE_STMT SQL_ERROR
                               (loaded 1 true) = Ret tt w' ∧
        stderr w' = [] ++
          map (fun r => diag_line (SQLState r) (MessageText r) (NativeError r) +:+ nl)
              (filter (fun r => reported r = true)
                      (diag_area three_records [] SQL_HANDLE_STMT 1002)) ∧
        calls w' = [] ++
          map (fun i => SQLGetDiagRec SQL_HANDLE_STMT 1002 i MAX_MESSAGE_LENGTH)
              (columns 1 4) ∧
        statics w' = statics (loaded 1 true).
Proof.
  apply (HandleDiagnosticRecord_lists_records three_records (loaded 1 true)
           1002 SQL_HANDLE_STMT SQL_ERROR).
  - discriminate.
  - simpl. lia.
  - repeat constructor.
  - repeat constructor; intros _; vm_compute; reflexivity.
  - reflexivity.
Defined.

(** ** What the facade leaves alone *)

(** The calls that neither take nor release a slot. *)
Definition keeps_slots (c : facade_call) : bool :=
  match c with
  | call_execute _ _ | call_get_column_headers _ _ _ | call_fetch _ _ _
  | call_rewind _ => true
  | _ => false
  end.

(** A call is short of an argument its function asks for before it does
    anything else. *)
Definition lacks_argument (c : facade_call) : bool :=
  match c with
  | call_connect None _ _ | call_cursor None | call_rewind None
  | call_close_cursor None | call_disconnect None => true
  | call_execute arg0 arg1 =>
      match arg0, arg1 with Some _, Some _ => false | _, _ => true end
  | call_get_column_headers nargs arg0 arg1 =>
      match arg0, arg1 with
      | None, _ => true
      | Some _, None => negb (nargs =? 1)
      | Some _, Some _ => false
      end
  | call_fetch nargs arg0 arg1 =>
      match arg0, arg1 with
      | None, _ => true
      | Some _, None => nargs =? 2
      | Some _, Some _ => false
      end
  | _ => false
  end.

(** The handle a call indexes the cursor table with. *)
Definition cursor_of (c : facade_call) : option awk_value_t :=
  match c with
  | call_execute arg0 (Some _) => arg0
  | call_get_column_headers nargs arg0 arg1 =>
      if nargs =? 1 then arg0 else match arg1 with Some _ => arg0 | None => None end
  | call_fetch nargs arg0 arg1 =>
      if nargs =? 2 then match arg1 with Some _ => arg0 | None => None end else arg0
  | call_rewind arg0 => arg0
  | call_close_cursor arg0 => arg0
  | _ => None
  end.

Section Untouched.

Variable svc : service.

(** X16: execute, describe-columns, fetch and rewind neither take nor
    release a slot: whenever one of them returns, both counters, the
    connection table and the statement handle of every cursor slot are what
    they were. *)
Theorem facade_keeps_slots c w v w' :
  keeps_slots c = true ->
  facade svc c w = Ret v w' ->
  same_handles w w'.
Proof.
  intros Hc Hrun. destruct c; try discriminate; simpl in Hrun.
  - apply (returns_Ret _ _ _ _ _ (ODBC_execute_returns svc arg0 arg1 w) Hrun).
  - apply same_handles_tables.
    apply (returns_Ret _ _ _ _ _ (ODBC_get_column_headers_returns nargs arg0 arg1 w) Hrun).
  - apply (returns_Ret _ _ _ _ _ (ODBC_fetch_returns svc nargs arg0 arg1 w) Hrun).
  - apply same_handles_tables.
    apply (returns_Ret _ _ _ _ _ (ODBC_rewind_returns svc arg0 w) Hrun).
Qed.

Lemma ODBC_get_column_headers_quiet nargs arg0 arg1 w :
  returns (ODBC_get_column_headers nargs arg0 arg1) w
          (fun _ w' => tables w' = tables w ∧ calls w' = calls w).
Proof.
  unfold ODBC_get_column_headers.
  assert (Hfail : ∀ w1 s, tables w1 = tables w -> calls w1 = calls w ->
            returns (eprint s;; mret (AwkNumber (-1))) w1
                    (fun _ w' => tables w' = tables w ∧ calls w' = calls w)).
  { intros w1 s H1 H1'. apply returns_bind, returns_eprint. intros w2 H2 _ H2'.
    apply returns_ret. split; congruence. }
  destruct (nargs =? 1).
  - unfold get_column_headers_str. destruct arg0 as [hCursor |]; [| by apply Hfail].
    apply returns_bind, returns_get_cursor. intros c _ Hc.
    apply returns_bind, returns_store, returns_bind.
    eapply returns_weaken; [apply headers_str_loop_returns |]. simpl.
    intros output ? ->. by apply returns_ret.
  - unfold get_column_headers_array.
    destruct arg0 as [hCursor |]; [| by apply Hfail].
    destruct arg1 as [array_param |]; [| by apply Hfail].
    apply returns_bind, returns_clear_array. intros w1 Ht1 Hc1.
    apply returns_bind, returns_get_cursor. intros c _ Hc.
    apply returns_bind, returns_set_array_element. intros ok w2 Ht2 Hc2.
    rewrite Ht1 in Ht2. rewrite Hc1 in Hc2.
    destruct ok; simpl; [| by apply Hfail].
    apply returns_bind, returns_create_array. intros a1 w3 Ht3 Hc3.
    rewrite Ht2 in Ht3. rewrite Hc2 in Hc3.
    apply returns_bind, returns_set_array_element. intros ok w4 Ht4 Hc4.
    rewrite Ht3 in Ht4. rewrite Hc3 in Hc4.
    destruct ok; simpl; [| by apply Hfail].
    apply returns_bind, returns_create_array. intros a2 w5 Ht5 Hc5.
    rewrite Ht4 in Ht5. rewrite Hc4 in Hc5.
    apply returns_bind, returns_set_array_element. intros ok w6 Ht6 Hc6.
    rewrite Ht5 in Ht6. rewrite Hc5 in Hc6.
    destruct ok; simpl; [| by apply Hfail].
    apply returns_bind, returns_create_array. intros a3 w7 Ht7 Hc7.
    rewrite Ht6 in Ht7. rewrite Hc6 in Hc7.
    apply returns_bind, returns_set_array_element. intros ok w8 Ht8 Hc8.
    rewrite Ht7 in Ht8. rewrite Hc7 in Hc8.
    destruct ok; simpl; [| by apply Hfail].
    apply returns_bind.
    eapply returns_weaken; [apply headers_array_loop_returns |]. simpl.
    intros out w9 [Ht9 Hc9]. rewrite Ht8 in Ht9. rewrite Hc8 in Hc9. by destruct out.
Qed.

(** X17: describe-columns works from what ODBC_execute stored: whenever it
    returns, in either form, the service has not been contacted, and the
    tables, bindings included, are what they were. *)
Theorem ODBC_get_column_headers_offline nargs arg0 arg1 w v w' :
  ODBC_get_column_headers nargs arg0 arg1 w = Ret v w' ->
  calls w' = calls w ∧ tables w' = tables w.
Proof.
  intros Hrun.
  destruct (returns_Ret _ _ _ _ _ (ODBC_get_column_headers_quiet nargs arg0 arg1 w) Hrun).
  done.
Qed.

(** X18: a facade function that is short of an argument returns -1 and
    writes one line to stderr; the service is not contacted, no slot is
    taken, no cursor is advanced and no array is touched. *)
Theorem facade_missing_argument c w :
  lacks_argument c = true ->
  ∃ line, facade svc c w = Ret (AwkNumber (-1)) (with_stderr (stderr w ++ [line]) w).
Proof.
  intros Hc.
  destruct c as [[] ? ? | [] | [] [] | nargs [] [] | nargs [] [] | [] | [] | []];
    try discriminate; simpl in *;
    unfold ODBC_get_column_headers, get_column_headers_str, get_column_headers_array,
      ODBC_fetch;
    try (destruct (nargs =? 1); try discriminate);
    try (destruct (nargs =? 2); try discriminate);
    eexists; reflexivity.
Qed.

(** X19: no function checks the handle it is given against the bounds of the
    cursor table: called with a number that is not an index of the table,
    execute, describe-columns, fetch, rewind and close-cursor index outside
    the table instead of returning -1. *)
Theorem facade_handle_out_of_bounds c hCursor w :
  cursor_of c = Some hCursor ->
  ¬ (0 <= num_value hCursor < Z.of_nat (length (odbc_cursor_handles w))) ->
  facade svc c w = Fault OutOfBounds.
Proof.
  intros Hc Hout.
  assert (Hget : ∀ w0, odbc_cursor_handles w0 = odbc_cursor_handles w ->
            get_cursor (num_value hCursor) w0 = Fault OutOfBounds).
  { intros w0 Hw0. unfold get_cursor, at_index. munfold. rewrite Hw0.
    destruct (num_value hCursor <? 0) eqn:E; [done |].
    rewrite lookup_ge_None_2; [done | lia]. }
  destruct c as [? ? ? | ? | arg0 [] | nargs arg0 arg1 | nargs arg0 arg1 | ? | ? | ?];
    try discriminate; simpl in Hc; simpl.
  - subst arg0. unfold ODBC_execute. munfold. by rewrite Hget.
  - unfold ODBC_get_column_headers, get_column_headers_str, get_column_headers_array.
    destruct (nargs =? 1).
    + subst arg0. munfold. by rewrite Hget.
    + destruct arg1 as [array_param |]; [| discriminate]. subst arg0.
      unfold clear_array. munfold.
      destruct (arrays w !! array_cookie array_param); simpl; by rewrite Hget.
  - unfold ODBC_fetch. destruct (nargs =? 2).
    + destruct arg1 as [array_param |]; [| discriminate]. subst arg0.
      unfold clear_array. munfold.
      destruct (arrays w !! array_cookie array_param); simpl; by rewrite Hget.
    + subst arg0. unfold fetch_row. munfold. by rewrite Hget.
  - subst. unfold ODBC_rewind. munfold. by rewrite Hget.
  - subst. unfold ODBC_close_cursor, close_cursor. munfold. by rewrite Hget.
Qed.

(** X20: on a cursor that has no bindings (never executed, or executed
    without result columns) the string form of describe-columns declares
    [char output[header_length + nb_cols]] and a one-argument fetch that
    finds a row declares [char output[0 + nb_cols]], and both write
    [output[0]]: with the counters of such a cursor at zero that is a write
    into an array of no bytes; were they not, the result would be the empty
    string.  A fetch at the end of the data declares no array and gives the
    empty string. *)
Theorem unbound_cursor_overruns w hCursor c :
  0 <= num_value hCursor ->
  odbc_cursor_handles w !! Z.to_nat (num_value hCursor) = Some c ->
  pBinding c = Null ->
  get_column_headers_str (Some hCursor) w
    = (if 0 <? to_uint32 (header_length c + nb_cols c)
       then Ret (AwkString "") w else Fault BufferOverflow) ∧
  (∀ nargs arg1,
     nargs ≠ 2 ->
     let r := answer svc (calls w) (SQLFetch (hStmt c)) in
     rc r ≠ SQL_ERROR ->
     if is_SQL_NO_DATA_FOUND (rc r) || (0 <? to_uint32 (nb_cols c))
     then ∃ w', ODBC_fetch svc nargs (Some hCursor) arg1 w = Ret (AwkString "") w'
     else ODBC_fetch svc nargs (Some hCursor) arg1 w = Fault BufferOverflow).
Proof.
  intros Hi Hc Hnull. split.
  - unfold get_column_headers_str. munfold.
    rewrite (get_cursor_Some _ _ _ Hi Hc), Hnull. unfold store. simpl.
    change (Z.of_nat 0) with 0. by destruct (0 <? _).
  - intros nargs arg1 Hnargs r Herr. unfold ODBC_fetch.
    replace (nargs =? 2) with false by (symmetry; by apply Z.eqb_neq).
    unfold fetch_row. munfold.
    rewrite (get_cursor_Some _ _ _ Hi Hc).
    step_TRYODBC w1 ds H1 Hd. fold r. rewrite (not_SQL_ERROR _ Herr).
    destruct (after_calls_fields _ _ _ H1) as (_ & _ & _ & _ & _ & Ht & _).
    rewrite Hnull. simpl. munfold.
    erewrite set_cursor_Some; [| done | by rewrite Ht].
    destruct (is_SQL_NO_DATA_FOUND (rc r)); simpl; [by eexists |].
    erewrite set_cursor_Some;
      [| done | simpl; rewrite Ht; apply list_lookup_insert_eq;
                by apply lookup_lt_Some in Hc].
    unfold store. simpl. change (Z.of_nat 0) with 0. rewrite Z.add_0_l.
    destruct (0 <? to_uint32 (nb_cols c)); [by eexists | done].
Qed.

(** X21: a fetch that ends in SQL_ERROR returns the number -1, which is not
    the empty string of the end of the data; the tables are as they were,
    but for the diagnostics nothing else was asked of the service. *)
Theorem ODBC_fetch_error w nargs hCursor arg1 c :
  0 <= num_value hCursor ->
  odbc_cursor_handles w !! Z.to_nat (num_value hCursor) = Some c ->
  nargs ≠ 2 ->
  rc (answer svc (calls w) (SQLFetch (hStmt c))) = SQL_ERROR ->
  ∃ w' ds,
    ODBC_fetch svc nargs (Some hCursor) arg1 w = Ret (AwkNumber (-1)) w' ∧
    after_calls w (SQLFetch (hStmt c) :: ds) w' ∧ forallb is_diag ds = true.
Proof.
  intros Hi Hc Hnargs Herr. unfold ODBC_fetch.
  replace (nargs =? 2) with false by (symmetry; by apply Z.eqb_neq).
  unfold fetch_row. munfold.
  rewrite (get_cursor_Some _ _ _ Hi Hc).
  step_TRYODBC w1 ds H1 Hd. rewrite Herr. simpl.
  by exists w1, ds.
Qed.

End Untouched.

Lemma facade_keeps_slots_witness :
  same_handles (connected regions) (world_of (opened regions)).
Proof.
  apply (facade_keeps_slots regions
           (call_execute (arg_number 0) (arg_string "select * from regions order by 1"))
           (connected regions) (AwkNumber 2) (world_of (opened regions))).
  - reflexivity.
  - vm_compute. reflexivity.
Defined.

(** The executed cursor of [opened], described into the caller's array. *)
Definition described : outcome awk_value :=
  ODBC_get_column_headers 2 (arg_number 0) (arg_array 0)
    (with_arrays {[0%nat := ∅]} (world_of (opened regions))).

Lemma ODBC_get_column_headers_offline_witness :
  calls (world_of described)
    = calls (with_arrays {[0%nat := ∅]} (world_of (opened regions))) ∧
  tables (world_of described)
    = tables (with_arrays {[0%nat := ∅]} (world_of (opened regions))).
Proof.
  apply (ODBC_get_column_headers_offline 2 (arg_number 0) (arg_array 0)
           (with_arrays {[0%nat := ∅]} (world_of (opened regions))) (AwkNumber 2)).
  vm_compute. reflexivity.
Defined.

Lemma facade_missing_argument_witness :
  ∃ line, facade regions (call_fetch 2 (arg_number 0) None) (world_of (opened regions))
          = Ret (AwkNumber (-1))
                (with_stderr (stderr (world_of (opened regions)) ++ [line])
                             (world_of (opened regions))).
Proof.
  apply (facade_missing_argument regions (call_fetch 2 (arg_number 0) None)).
  reflexivity.
Defined.

Lemma facade_handle_out_of_bounds_witness :
  facade regions (call_execute (arg_number (-1)) (arg_string "select 1"))
         (loaded 1 false) = Fault OutOfBounds.
Proof.
  apply (facade_handle_out_of_bounds regions _ (mk_awk_value_t (-1) (dec (-1)) 0)).
  - reflexivity.
  - simpl. lia.
Defined.

Lemma unbound_cursor_overruns_witness :
  get_column_headers_str (arg_number 0) (connected regions) = Fault BufferOverflow ∧
  (∀ nargs arg1,
     nargs ≠ 2 ->
     rc (answer regions (calls (connected regions)) (SQLFetch 1002)) ≠ SQL_ERROR ->
     ODBC_fetch regions nargs (arg_number 0) arg1 (connected regions)
     = Fault BufferOverflow).
Proof.
  apply (unbound_cursor_overruns regions (connected regions) (mk_awk_value_t 0 "0" 0)
           (cursor_0 (connected regions))).
  - simpl. lia.
  - vm_compute. reflexivity.
  - reflexivity.
Defined.

(** The regions table behind a connection that breaks when rows are read. *)
Definition broken_fetch : service :=
  mk_service (fun history c =>
                match c with
                | SQLFetch _ => reply_rc SQL_ERROR
                | _ => table_answer ["region_id"; "region_name"]
                                    [[(1, "1"); (6, "Europe")]] history c
                end)
             (fun _ _ _ => [mk_diag "08S01" 0 "Communication link failure"])
             SQL_SUCCESS_WITH_INFO (fun _ => true) 4 48.

Lemma ODBC_fetch_error_witness :
  ∃ w' ds,
    ODBC_fetch broken_fetch 1 (arg_number 0) None (world_of (opened broken_fetch))
      = Ret (AwkNumber (-1)) w' ∧
    after_calls (world_of (opened broken_fetch)) (SQLFetch 1002 :: ds) w' ∧
    forallb is_diag ds = true.
Proof.
  apply (ODBC_fetch_error broken_fetch (world_of (opened broken_fetch)) 1
           (mk_awk_value_t 0 "0" 0) None (cursor_0 (world_of (opened broken_fetch)))).
  - simpl. lia.
  - vm_compute. reflexivity.
  - lia.
  - vm_compute. reflexivity.
Defined.

(** ** Loading the extension *)

Lemma returns_then {A B} (m : M A) (k : A -> M B) w Q :
  (∀ a w1, returns (k a) w1 Q) -> returns (m ≫= k) w Q.
Proof. intros H. unfold returns. munfold. destruct (m w); [apply H | done]. Qed.

Section Loading.

Variable svc : service.

(** X22: loaded for the first time, with an environment that can be
    allocated and set to ODBC 3 without SQL_ERROR, init_odbc returns true
    and leaves the statics as [loaded] has them: the new environment handle,
    both tables empty, both counters at capacity, the flag set. *)
Theorem init_odbc_first_load w :
  bODBC_initialized w = false ->
  let alloc := SQLAllocHandle SQL_HANDLE_ENV NULL in
  let r := answer svc (calls w) alloc in
  rc r ≠ SQL_ERROR ->
  (∀ history, rc (answer svc history (SQLSetEnvAttr_ODBC3 (out_handle r))) ≠ SQL_ERROR) ->
  ∃ w' ds,
    init_odbc svc w = Ret true w' ∧
    statics w' = statics (with_arrays (arrays w) (loaded (out_handle r) (bDebug w))) ∧
    calls w' = calls w ++ alloc :: SQLSetEnvAttr_ODBC3 (out_handle r) :: ds ∧
    forallb is_diag ds = true.
Proof.
  intros Hfirst alloc r Halloc Hset. unfold init_odbc. munfold.
  rewrite Hfirst. unfold odbc. simpl. fold alloc. fold r.
  rewrite (not_SQL_ERROR _ Halloc).
  step_TRYODBC w1 ds H1 Hd1. simpl. rewrite (not_SQL_ERROR _ (Hset _)).
  eexists _, ds. split; [reflexivity |].
  destruct (after_calls_fields _ _ _ H1) as (Hb & He & _ & _ & _ & _ & Ha).
  destruct H1 as [_ H1].
  split; [| split; [| done]].
  - destruct w1. simpl in Hb, He, Ha. rewrite Hb, He, Ha. reflexivity.
  - simpl. rewrite H1. simpl. by rewrite <- app_assoc.
Qed.

(** X23: when the environment cannot be allocated, init_odbc returns false
    after one line on stderr; no diagnostic record is read, the tables stay
    as they were and the flag stays down. *)
Theorem init_odbc_no_environment w :
  bODBC_initialized w = false ->
  let alloc := SQLAllocHandle SQL_HANDLE_ENV NULL in
  rc (answer svc (calls w) alloc) = SQL_ERROR ->
  ∃ w', init_odbc svc w = Ret false w' ∧
        tables w' = tables w ∧
        bODBC_initialized w' = false ∧
        calls w' = calls w ++ [alloc] ∧
        stderr w' = stderr w ++ ["Unable to allocate an environment handle" +:+ nl].
Proof.
  intros Hfirst alloc Halloc. unfold init_odbc. munfold.
  rewrite Hfirst. unfold odbc. simpl. fold alloc. rewrite Halloc. simpl.
  eexists. split; [reflexivity |]. by destruct w.
Qed.

(** X24: whenever init_odbc returns true, on the first load or on a later
    one, both tables are empty, both counters are at capacity and the flag
    is set. *)
Theorem init_odbc_resets w w' :
  init_odbc svc w = Ret true w' ->
  tables w' = tables (loaded 0 false) ∧ bODBC_initialized w' = true.
Proof.
  intros Hrun.
  assert (H : returns (init_odbc svc) w
                (fun ok w' => ok = true ->
                   tables w' = tables (loaded 0 false) ∧ bODBC_initialized w' = true)).
  2: { by apply (returns_Ret _ _ _ _ _ H Hrun). }
  clear Hrun. unfold init_odbc.
  match goal with
  | |- returns (_ ≫= (fun _ => if _ then _ else ?allocate)) _ ?Q =>
      assert (Hallocate : ∀ w1, returns allocate w1 Q)
  end.
  { intros w1.
    apply returns_then. intros r w2.
    apply returns_then. intros w3 w4.
    apply returns_then. intros _ w5.
    destruct (is_SQL_ERROR (rc r)).
    { apply returns_then. intros _ w6. by apply returns_ret. }
    apply returns_then. intros w6 w7.
    apply returns_TRYODBC. intros w8 ds _. split; [by apply returns_ret |].
    unfold returns. munfold. simpl. done. }
  apply returns_then. intros w0 w1.
  destruct (bODBC_initialized w0); [| apply Hallocate].
  apply returns_then. intros _ w2.
  apply returns_then. intros _ w3.
  apply returns_then. intros w4 w5.
  apply returns_TRYODBC. intros w6 ds _. split; [by apply returns_ret |].
  apply Hallocate.
Qed.

End Loading.

(** The statics as their initialisers leave them, before the load. *)
Definition unloaded : world := with_environment NULL false (loaded NULL false).

Lemma init_odbc_first_load_witness :
  ∃ w' ds,
    init_odbc regions unloaded = Ret true w' ∧
    statics w' = statics (with_arrays ∅ (loaded 1001 false)) ∧
    calls w' = [] ++ SQLAllocHandle SQL_HANDLE_ENV NULL :: SQLSetEnvAttr_ODBC3 1001 :: ds ∧
    forallb is_diag ds = true.
Proof.
  apply (init_odbc_first_load regions unloaded).
  - reflexivity.
  - vm_compute. discriminate.
  - intros history. vm_compute. discriminate.
Defined.

(** No driver manager to talk to. *)
Definition no_driver_manager : service :=
  mk_service (fun _ _ => reply_rc SQL_ERROR) (fun _ _ _ => [])
             SQL_SUCCESS_WITH_INFO (fun _ => true) 4 48.

Lemma init_odbc_no_environment_witness :
  ∃ w', init_odbc no_driver_manager unloaded
        = Ret false w' ∧
        tables w' = tables unloaded ∧
        bODBC_initialized w' = false ∧
        calls w' = [] ++ [SQLAllocHandle SQL_HANDLE_ENV NULL] ∧
        stderr w' = [] ++ ["Unable to allocate an environment handle" +:+ nl].
Proof.
  apply (init_odbc_no_environment no_driver_manager
           unloaded).
  - reflexivity.
  - reflexivity.
Defined.

(** Loading again over an open connection and an executed cursor. *)
Lemma init_odbc_resets_witness :
  tables (world_of (init_odbc regions (world_of (opened regions))))
    = tables (loaded 0 false) ∧
  bODBC_initialized (world_of (init_odbc regions (world_of (opened regions)))) = true.
Proof.
  apply (init_odbc_resets regions (world_of (opened regions))).
  vm_compute. reflexivity.
Defined.

(** ** A counter that disagrees with the table *)

Lemma first_free_occupied {A} (is_free : A -> bool) t : ∀ k,
  (∀ x, x ∈ t -> is_free x = false) -> first_free is_free t k = None.
Proof.
  induction t as [| y t IH]; intros k Hall; simpl; [done |].
  rewrite (Hall y) by apply list_elem_of_here.
  apply IH. intros x Hx. apply Hall. by apply list_elem_of_further.
Qed.

(** X25: when the counter says a connection slot is free but every slot
    holds a handle, connect returns -1 after one line on stderr; the counter
    keeps its value, the table is not touched and the service is not
    contacted. *)
Theorem ODBC_connect_no_free_slot svc w connectionString arg1 arg2 :
  nb_odbc_connection_free_handles w ≠ 0 ->
  (∀ h, h ∈ odbc_connection_handles w -> h ≠ NULL) ->
  ODBC_connect svc (Some connectionString) arg1 arg2 w
  = Ret (AwkNumber (-1))
        (with_stderr (stderr w ++ ["cannot open new connection to [" +:+
                                   c_str (str_value connectionString) +:+ "]" +:+ nl]) w).
Proof.
  intros Hn Hall. unfold ODBC_connect, get_odbc_connection_handle. munfold.
  destruct (_ =? 0) eqn:E; [lia |].
  rewrite first_free_occupied; [reflexivity |].
  intros h Hh. apply Z.eqb_neq. by apply Hall.
Qed.

Lemma ODBC_connect_no_free_slot_witness :
  ODBC_connect regions (arg_string "testdb") (arg_string "u") (arg_string "p")
               (with_connections 1 (replicate 100 1001) (loaded 1 false))
  = Ret (AwkNumber (-1))
        (with_stderr ([] ++ ["cannot open new connection to [" +:+ "testdb" +:+ "]" +:+ nl])
                     (with_connections 1 (replicate 100 1001) (loaded 1 false))).
Proof.
  apply (ODBC_connect_no_free_slot regions
           (with_connections 1 (replicate 100 1001) (loaded 1 false))
           (mk_awk_value_t 0 "testdb" 0)).
  - simpl. lia.
  - intros h Hh. apply elem_of_replicate in Hh as [-> _]. discriminate.
Defined.

(** ** todbc.awk *)

(** [while (n-- > 0) s = s ch], for a whole number [n], with [s] what has
    been built so far. *)
Fixpoint repeat_char_loop (ch : string) (n : nat) (s : string) : string :=
  match n with
  | O => s
  | S n' => repeat_char_loop ch n' (s +:+ ch)
  end.

Definition repeat_char (ch : string) (n : Z) : string :=
  repeat_char_loop ch (Z.to_nat n) "".

Lemma repeat_char_loop_append ch n : ∀ s,
  repeat_char_loop ch n s = s +:+ repeat_char_loop ch n "".
Proof.
  induction n as [| n IH]; intros s; simpl.
  - by rewrite append_empty_r.
  - rewrite (IH (s +:+ ch)), (IH ("" +:+ ch)), append_assoc. reflexivity.
Qed.

Lemma repeat_char_loop_plus ch a : ∀ b s,
  repeat_char_loop ch (a + b) s = repeat_char_loop ch b (repeat_char_loop ch a s).
Proof.
  induction a as [| a IH]; intros b s; simpl; [done |]. apply IH.
Qed.

(** X26: repeat_char gives [n] copies of [ch] in a row, nothing for an [n]
    that is not positive: its length is [n] times that of [ch], and the
    copies for [a + b] are those for [a] followed by those for [b]. *)
Theorem repeat_char_copies ch :
  (∀ n, n <= 0 -> repeat_char ch n = "") ∧
  (∀ n, 0 <= n ->
        Z.of_nat (String.length (repeat_char ch n)) = n * Z.of_nat (String.length ch)) ∧
  (∀ a b, 0 <= a -> 0 <= b ->
          repeat_char ch (a + b) = repeat_char ch a +:+ repeat_char ch b).
Proof.
  unfold repeat_char. repeat split.
  - intros n Hn. by replace (Z.to_nat n) with O by lia.
  - intros n Hn. rewrite <- (Z2Nat.id n) at 2 by done.
    induction (Z.to_nat n) as [| k IH]; simpl; [lia |].
    rewrite repeat_char_loop_append, length_append.
    change (String.length ("" +:+ ch)) with (String.length ch). lia.
  - intros a b Ha Hb. rewrite Z2Nat.inj_add by done.
    rewrite repeat_char_loop_plus. apply repeat_char_loop_append.
Qed.

Lemma repeat_char_copies_witness :
  repeat_char "-" (2 + 3) = repeat_char "-" 2 +:+ repeat_char "-" 3.
Proof.
  apply (proj2 (proj2 (repeat_char_copies "-")) 2 3); lia.
Defined.

(** ** The array form of describe-columns, in full *)

(** [m] is [m0] with the value [f j] under the key [j], for the [n] columns
    from [i] on. *)
Definition holds (i : Z) (n : nat) (f : Z -> awk_value)
    (m0 m : gmap string awk_value) : Prop :=
  (∀ key, (∀ j, j ∈ columns i n -> key ≠ dec j) -> m !! key = m0 !! key) ∧
  (∀ j, j ∈ columns i n -> m !! dec j = Some (f j)).

Lemma holds_none i f m : holds i 0 f m m.
Proof. split; [done |]. intros j Hj. by apply not_elem_of_nil in Hj. Qed.

Lemma holds_step i n f m0 m :
  holds (i + 1) n f (<[dec i := f i]> m0) m -> holds i (S n) f m0 m.
Proof.
  intros [Hkeys Hvalues]. split.
  - intros key Hkey. rewrite Hkeys.
    + apply lookup_insert_ne. intros <-. apply (Hkey i); [left | done].
    + intros j Hj. apply Hkey. by right.
  - intros j [-> | Hj]%elem_of_cons; [| by apply Hvalues].
    rewrite Hkeys; [apply lookup_insert_eq |].
    intros j Hj Heq. apply dec_inj in Heq. apply elem_of_columns in Hj. lia.
Qed.

Section DescribeInFull.

Variables (colname : Z -> string) (width : Z -> Z) (is_char : Z -> bool).

(** The bindings of the columns from [i] on, with the name, the width and
    the character flag of each. *)
Fixpoint described_from (i : Z) (bs : list BINDING) : Prop :=
  match bs with
  | [] => True
  | b :: bs' =>
      pColName b = Some (colname i) ∧ cDisplaySize b = Some (width i) ∧
      fChar b = Some (is_char i) ∧ described_from (i + 1) bs'
  end.

Lemma headers_array_loop_filled names widths types bs : ∀ i w mn mw mt,
  described_from i bs -> 1 <= i ->
  i + Z.of_nat (length bs) <= 2 ^ 32 ->
  names ≠ widths -> names ≠ types -> widths ≠ types ->
  arrays w !! names = Some mn ->
  arrays w !! widths = Some mw ->
  arrays w !! types = Some mt ->
  ∃ w' mn' mw' mt',
    headers_array_loop names widths types (chain_of bs Null) (i - 1) w
    = Ret (Some (i - 1 + Z.of_nat (length bs))) w' ∧
    arrays w' !! names = Some mn' ∧
    arrays w' !! widths = Some mw' ∧
    arrays w' !! types = Some mt' ∧
    holds i (length bs) (fun j => AwkString (colname j)) mn mn' ∧
    holds i (length bs) (fun j => AwkNumber (width j)) mw mw' ∧
    holds i (length bs) (fun j => AwkNumber (if is_char j then 1 else 0)) mt mt' ∧
    (∀ c, c ≠ names -> c ≠ widths -> c ≠ types -> arrays w' !! c = arrays w !! c).
Proof.
  induction bs as [| b bs IH]; intros i w mn mw mt Hbs Hi Hmax Hnw Hnt Hwt Hn Hw Ht;
    simpl.
  - exists w, mn, mw, mt. rewrite Z.add_0_r.
    do 4 (split; [done |]). do 3 (split; [apply holds_none |]). done.
  - destruct Hbs as (Hname & Hwidth & Hchar & Hbs).
    simpl in Hmax. rewrite Hname, Hwidth, Hchar. munfold. simpl.
    replace (to_uint32 (i - 1 + 1)) with i by (rewrite to_uint32_id; lia).
    rewrite (set_array_element_Some names _ _ mn w Hn). simpl.
    set (a1 := <[names := _]> (arrays w)).
    rewrite (set_array_element_Some widths _ _ mw (with_arrays a1 w))
      by (simpl; subst a1; by rewrite lookup_insert_ne).
    simpl. rewrite with_arrays_twice.
    set (a2 := <[widths := _]> a1).
    rewrite (set_array_element_Some types _ _ mt (with_arrays a2 w))
      by (simpl; subst a2 a1; by rewrite !lookup_insert_ne).
    simpl. rewrite with_arrays_twice.
    set (a3 := <[types := _]> a2).
    pose proof (IH (i + 1) (with_arrays a3 w)
                   (<[dec i := AwkString (colname i)]> mn)
                   (<[dec i := AwkNumber (width i)]> mw)
                   (<[dec i := AwkNumber (if is_char i then 1 else 0)]> mt) Hbs) as IH'.
    replace (i + 1 - 1) with i in IH' by lia.
    destruct IH' as (w' & mn' & mw' & mt' & -> & Hn' & Hw' & Ht' & H1 & H2 & H3 & Hothers);
      try done; try lia.
    { simpl. subst a3 a2 a1. rewrite !lookup_insert_ne by done. apply lookup_insert_eq. }
    { simpl. subst a3 a2. rewrite lookup_insert_ne by done. apply lookup_insert_eq. }
    { simpl. subst a3. apply lookup_insert_eq. }
    exists w', mn', mw', mt'. split; [do 2 f_equal; lia |].
    do 3 (split; [done |]). do 3 (split; [by apply holds_step |]).
    intros c Hc1 Hc2 Hc3. rewrite Hothers by done.
    simpl. subst a3 a2 a1. by rewrite !lookup_insert_ne.
Qed.

Lemma get_column_headers_array_filled w hCursor array_param c bs :
  0 <= num_value hCursor ->
  odbc_cursor_handles w !! Z.to_nat (num_value hCursor) = Some c ->
  pBinding c = chain_of bs Null ->
  described_from 1 bs ->
  Z.of_nat (length bs) <= 32767 ->
  is_Some (arrays w !! array_cookie array_param) ->
  ∃ w' m names widths types mn mw mt,
    get_column_headers_array (Some hCursor) (Some array_param) w
    = Ret (AwkNumber (Z.of_nat (length bs))) w' ∧
    arrays w' !! array_cookie array_param = Some m ∧
    m !! "nb_cols" = Some (AwkNumber (nb_cols c)) ∧
    m !! "col_names" = Some (AwkArray names) ∧
    m !! "col_widths" = Some (AwkArray widths) ∧
    m !! "bis_char" = Some (AwkArray types) ∧
    arrays w' !! names = Some mn ∧
    arrays w' !! widths = Some mw ∧
    arrays w' !! types = Some mt ∧
    ∀ j, j ∈ columns 1 (length bs) ->
         mn !! dec j = Some (AwkString (colname j)) ∧
         mw !! dec j = Some (AwkNumber (width j)) ∧
         mt !! dec j = Some (AwkNumber (if is_char j then 1 else 0)).
Proof.
  intros Hi Hc Hch Hbs Hmax [old Hold].
  unfold get_column_headers_array. munfold.
  set (ca := array_cookie array_param) in *.
  rewrite (clear_array_Some _ _ _ Hold).
  rewrite (get_cursor_Some (num_value hCursor) c) by (done || by destruct w).
  erewrite set_array_element_Some by (simpl; apply lookup_insert_eq).
  simpl. rewrite !with_arrays_twice, insert_insert_eq.
  set (A2 := <[ca := <["nb_cols" := AwkNumber (nb_cols c)]> ∅]> (arrays w)).
  assert (H2 : A2 !! ca = Some (<["nb_cols" := AwkNumber (nb_cols c)]> ∅))
    by apply lookup_insert_eq.
  set (names := fresh (dom A2)).
  assert (Hn : names ≠ ca) by (apply fresh_ne; by rewrite H2).
  erewrite set_array_element_Some
    by (simpl; rewrite lookup_insert_ne by done; exact H2).
  simpl. rewrite !with_arrays_twice.
  set (A4 := <[ca := _]> (<[names := ∅]> A2)).
  assert (H4 : A4 !! ca = Some (<["col_names" := AwkArray names]>
                                  (<["nb_cols" := AwkNumber (nb_cols c)]> ∅)))
    by apply lookup_insert_eq.
  assert (H4n : A4 !! names = Some ∅).
  { subst A4. rewrite lookup_insert_ne by done. apply lookup_insert_eq. }
  set (widths := fresh (dom A4)).
  assert (Hw : widths ≠ ca) by (apply fresh_ne; by rewrite H4).
  assert (Hwn : widths ≠ names) by (apply fresh_ne; by rewrite H4n).
  erewrite set_array_element_Some
    by (simpl; rewrite lookup_insert_ne by done; exact H4).
  simpl. rewrite !with_arrays_twice.
  set (A6 := <[ca := _]> (<[widths := ∅]> A4)).
  assert (H6 : A6 !! ca = Some (<["col_widths" := AwkArray widths]>
                                  (<["col_names" := AwkArray names]>
                                     (<["nb_cols" := AwkNumber (nb_cols c)]> ∅))))
    by apply lookup_insert_eq.
  assert (H6n : A6 !! names = Some ∅).
  { subst A6. by rewrite !lookup_insert_ne. }
  assert (H6w : A6 !! widths = Some ∅).
  { subst A6. rewrite lookup_insert_ne by done. apply lookup_insert_eq. }
  set (types := fresh (dom A6)).
  assert (Ht : types ≠ ca) by (apply fresh_ne; by rewrite H6).
  assert (Htn : types ≠ names) by (apply fresh_ne; by rewrite H6n).
  assert (Htw : types ≠ widths) by (apply fresh_ne; by rewrite H6w).
  erewrite set_array_element_Some
    by (simpl; rewrite lookup_insert_ne by done; exact H6).
  simpl. rewrite !with_arrays_twice.
  set (A8 := <[ca := _]> (<[types := ∅]> A6)).
  rewrite Hch.
  pose proof (headers_array_loop_filled names widths types bs 1
                (with_arrays A8 w) ∅ ∅ ∅ Hbs) as Hloop.
  change (1 - 1) with 0 in Hloop.
  destruct Hloop as (w' & mn & mw & mt & -> & Hmn & Hmw & Hmt & [_ Hv1] & [_ Hv2] &
                     [_ Hv3] & Hothers);
    try done; try lia; try (by apply not_eq_sym).
  { simpl. subst A8. by rewrite !lookup_insert_ne. }
  { simpl. subst A8. rewrite !lookup_insert_ne by done. by rewrite H6w. }
  { simpl. subst A8. rewrite lookup_insert_ne by done. by rewrite lookup_insert_eq. }
  simpl.
  exists w'. eexists _, names, widths, types, mn, mw, mt. split; [done |].
  split; [rewrite Hothers by (by apply not_eq_sym); simpl; subst A8;
          apply lookup_insert_eq |].
  split; [rewrite !lookup_insert_ne by done; apply lookup_insert_eq |].
  split; [rewrite !lookup_insert_ne by done; apply lookup_insert_eq |].
  split; [rewrite !lookup_insert_ne by done; apply lookup_insert_eq |].
  split; [apply lookup_insert_eq |].
  repeat split; try done; auto.
Qed.

End DescribeInFull.

Section DescribeExecuted.

Variable svc : service.
Variable hstmt : handle.
Variables (display ctype namelen : Z -> Z) (colname : Z -> string).
Variable n : nat.
Hypothesis Hsvc : describes svc hstmt display ctype namelen colname (Z.of_nat n).

Lemma column_binding_described k : ∀ i,
  described_from colname
    (fun j => Z.max (to_int16 (display j)) (to_int16 (namelen j)))
    (fun j => is_char_type (ctype j)) i
    (map (column_binding display ctype namelen colname) (columns i k)).
Proof. induction k as [| k IH]; intros i; simpl; [done |]. repeat split. apply IH. Qed.

(** X27: after ODBC_execute on a row-returning statement of up to 32766
    columns, the array form of describe-columns returns the column count and
    fills the caller's array
    with it under "nb_cols" and with three arrays, "col_names", "col_widths"
    and "bis_char", that map every column number to the column's name, to
    its width (the larger of display size and name length, both as
    SQLSMALLINT) and to 1 for a column of a character type, 0 for any
    other. *)
Theorem describe_columns_in_full w hCursor statementStr array_param c :
  0 <= num_value hCursor ->
  odbc_cursor_handles w !! Z.to_nat (num_value hCursor) = Some c ->
  hStmt c = hstmt ->
  let exec := SQLExecDirect hstmt (c_str (str_value statementStr)) in
  rc (answer svc (calls w) exec) = SQL_SUCCESS ->
  rc (answer svc (calls w ++ [exec]) (SQLNumResultCols hstmt)) ≠ SQL_ERROR ->
  to_int16 (out_number (answer svc (calls w ++ [exec]) (SQLNumResultCols hstmt)))
    = Z.of_nat n ->
  (0 < n)%nat -> Z.of_nat n <= 32766 ->
  is_Some (arrays w !! array_cookie array_param) ->
  ∃ w1 w2 m names widths types mn mw mt,
    ODBC_execute svc (Some hCursor) (Some statementStr) w
      = Ret (AwkNumber (Z.of_nat n)) w1 ∧
    ODBC_get_column_headers 2 (Some hCursor) (Some array_param) w1
      = Ret (AwkNumber (Z.of_nat n)) w2 ∧
    arrays w2 !! array_cookie array_param = Some m ∧
    m !! "nb_cols" = Some (AwkNumber (Z.of_nat n)) ∧
    m !! "col_names" = Some (AwkArray names) ∧
    m !! "col_widths" = Some (AwkArray widths) ∧
    m !! "bis_char" = Some (AwkArray types) ∧
    arrays w2 !! names = Some mn ∧
    arrays w2 !! widths = Some mw ∧
    arrays w2 !! types = Some mt ∧
    ∀ j, j ∈ columns 1 n ->
         mn !! dec j = Some (AwkString (colname j)) ∧
         mw !! dec j
           = Some (AwkNumber (Z.max (to_int16 (display j)) (to_int16 (namelen j)))) ∧
         mt !! dec j = Some (AwkNumber (if is_char_type (ctype j) then 1 else 0)).
Proof.
  intros Hi Hc Hh exec Hexec Hnum Hn Hpos Hmax' Harr.
  destruct (ODBC_execute_described svc hstmt display ctype namelen colname n Hsvc
              w hCursor statementStr c Hi Hc Hh Hexec Hnum Hn Hpos Hmax')
    as (w1 & Hrun & Ht & Ha).
  set (slot := mk_CONN_STMT_HANDLE (hDbc c) hstmt
                 (chain_of (map (column_binding display ctype namelen colname)
                                (columns 1 n)) Null)
                 (Z.of_nat n) (sum_over namelen (columns 1 n)) 0) in Ht.
  assert (Hslot : odbc_cursor_handles w1 !! Z.to_nat (num_value hCursor) = Some slot).
  { rewrite Ht. apply list_lookup_insert_eq. by apply lookup_lt_Some in Hc. }
  assert (Hmax : Z.of_nat n <= 32767) by lia.
  destruct (get_column_headers_array_filled colname
              (fun j => Z.max (to_int16 (display j)) (to_int16 (namelen j)))
              (fun j => is_char_type (ctype j))
              w1 hCursor array_param slot
              (map (column_binding display ctype namelen colname) (columns 1 n)))
    as (w2 & m & names & widths & types & mn & mw & mt & Hrun2 & Hrest);
    try done.
  { apply column_binding_described. }
  { by rewrite length_map, length_columns. }
  { by rewrite Ha. }
  rewrite length_map, length_columns in Hrun2, Hrest.
  exists w1, w2, m, names, widths, types, mn, mw, mt.
  split; [done |]. split; [exact Hrun2 | exact Hrest].
Qed.

End DescribeExecuted.

Lemma describe_columns_in_full_witness :
  ∃ w1 w2 m names widths types mn mw mt,
    ODBC_execute regions (arg_number 0) (arg_string "select * from regions order by 1")
                 (with_arrays {[0%nat := ∅]} (connected regions))
      = Ret (AwkNumber (Z.of_nat 2)) w1 ∧
    ODBC_get_column_headers 2 (arg_number 0) (arg_array 0) w1
      = Ret (AwkNumber (Z.of_nat 2)) w2 ∧
    arrays w2 !! 0%nat = Some m ∧
    m !! "nb_cols" = Some (AwkNumber (Z.of_nat 2)) ∧
    m !! "col_names" = Some (AwkArray names) ∧
    m !! "col_widths" = Some (AwkArray widths) ∧
    m !! "bis_char" = Some (AwkArray types) ∧
    arrays w2 !! names = Some mn ∧
    arrays w2 !! widths = Some mw ∧
    arrays w2 !! types = Some mt ∧
    ∀ j, j ∈ columns 1 2 ->
         mn !! dec j = Some (AwkString (name_of ["region_id"; "region_name"] j)) ∧
         mw !! dec j
           = Some (AwkNumber
                     (Z.max (to_int16 10)
                            (to_int16 (Z.of_nat (String.length
                               (name_of ["region_id"; "region_name"] j)))))) ∧
         mt !! dec j = Some (AwkNumber (if is_char_type SQL_VARCHAR then 1 else 0)).
Proof.
  assert (Hshort : Forall (fun name => Z.of_nat (String.length name) < DISPLAY_MAX)
                          ["region_id"; "region_name"])
    by (repeat constructor).
  apply (describe_columns_in_full regions 1002 (fun _ => 10) (fun _ => SQL_VARCHAR)
           (fun i => Z.of_nat (String.length (name_of ["region_id"; "region_name"] i)))
           (name_of ["region_id"; "region_name"]) 2
           (table_service_describes _ _ _ _ Hshort)
           (with_arrays {[0%nat := ∅]} (connected regions)) (mk_awk_value_t 0 "0" 0)
           (mk_awk_value_t 0 "select * from regions order by 1" 0)
           (mk_awk_value_t 0 "" 0)
           (cursor_0 (connected regions))).
  - simpl. lia.
  - vm_compute. reflexivity.
  - vm_compute. reflexivity.
  - reflexivity.
  - discriminate.
  - reflexivity.
  - lia.
  - lia.
  - vm_compute. eauto.
Defined.
